(** * Kill-chain dashboard: state machine, analysis route and memo route

    A shallow embedding of the stock-research dashboard:

    - [src/app/page.tsx]: the [Dashboard] component (kill-chain step counter
      and outcome ledger), the [KillChainFlow] component (disqualified
      overlay, summary, per-step decision buttons, memo saving) and the
      [useStepAnalysis] hook (lazy, cached derivation of a step's analysis);
    - [src/app/api/analyze/route.ts]: prompt construction, fence stripping
      and the four step handlers;
    - [src/app/api/memos/route.ts]: the memo [POST] handler.

    React state is modelled by explicit records, an event by a constructor
    of [Event], and one user or network event followed by re-rendering and
    the effects it triggers by the function [step].  JavaScript numbers are
    IEEE-754 doubles ([PrimFloat.float]); integers that only count steps are
    in [Z]. *)

From Stdlib Require Import ZArith Lia Bool String Ascii List.
From Stdlib Require Import Floats.PrimFloat.
From stdpp Require Import base list strings.

Set Warnings "-register-all".

Open Scope string_scope.
Open Scope Z_scope.

(** ** JavaScript values *)

Module Js.

Definition Number := PrimFloat.float.

(** A value produced by [JSON.parse].  An object is the list of its own
    properties, with distinct keys. *)
Inductive JsValue :=
| JNull
| JBool (b : bool)
| JNum (n : Number)
| JStr (s : string)
| JArr (l : list JsValue)
| JObj (props : list (string * JsValue)).

(** A property read: [None] is [undefined]. *)
Definition JsProp := option JsValue.

Fixpoint assoc (k : string) (props : list (string * JsValue)) : JsProp :=
  match props with
  | [] => None
  | (k', v) :: rest => if String.eqb k k' then Some v else assoc k rest
  end.

(** [JSON.stringify] of an object literal leaves out the properties whose
    value is [undefined]. *)
Fixpoint stringifyProps (l : list (string * JsProp)) : list (string * JsValue) :=
  match l with
  | [] => []
  | (k, Some v) :: rest => (k, v) :: stringifyProps rest
  | (_, None) :: rest => stringifyProps rest
  end.

End Js.
Import Js.

(** ** Types of [page.tsx] *)

Record StockData := {
  companyName : string;
  ticker : string;
  currentPrice : option Number;
  currency : string;
  peRatio : option Number;
  forwardPE : option Number;
  marketCap : option Number;
  fiftyTwoWeekLow : option Number;
  fiftyTwoWeekHigh : option Number;
  revenue : option Number;
  netIncome : option Number;
  profitMargin : option Number;
  roic : option Number;
  businessSummary : option string;
  website : option string
}.

(** [passed : boolean | null]: [None] is the unsure outcome.  The notes are
    a property read from the step's analysis. *)
Record StepResult := {
  passed : option bool;
  notes : JsProp
}.

(** The body of a successful [/api/analyze] response, as the hook stores it. *)
Definition Analysis := list (string * JsValue).

(** ** The [Dashboard] component: kill-chain state and its handlers *)

Record Dashboard := {
  data : option StockData;
  loading : bool;
  killChainActive : bool;
  killChainStep : Z;
  stepResults : list StepResult
}.

Definition initialDashboard : Dashboard :=
  {| data := None; loading := false; killChainActive := false;
     killChainStep := 1; stepResults := [] |}.

Definition startKillChain (d : Dashboard) : Dashboard :=
  {| data := data d; loading := loading d; killChainActive := true;
     killChainStep := 1; stepResults := [] |}.

Definition resetKillChain (d : Dashboard) : Dashboard :=
  {| data := data d; loading := loading d; killChainActive := false;
     killChainStep := 1; stepResults := [] |}.

(** The three decision handlers share one shape: append, then increment. *)
Definition recordOutcome (p : option bool) (n : JsProp) (d : Dashboard) : Dashboard :=
  {| data := data d; loading := loading d; killChainActive := killChainActive d;
     killChainStep := killChainStep d + 1;
     stepResults := stepResults d ++ [ {| passed := p; notes := n |} ] |}.

Definition handleStepPass (n : JsProp) : Dashboard -> Dashboard :=
  recordOutcome (Some true) n.

Definition handleStepFail (n : JsProp) : Dashboard -> Dashboard :=
  recordOutcome (Some false) n.

Definition handleStepUnsure (n : JsProp) : Dashboard -> Dashboard :=
  recordOutcome None n.

Definition setKillChainStep (n : Z) (d : Dashboard) : Dashboard :=
  {| data := data d; loading := loading d; killChainActive := killChainActive d;
     killChainStep := n; stepResults := stepResults d |}.

Definition goToStep (n : Z) (d : Dashboard) : Dashboard :=
  let maxStep := Z.min (Z.of_nat (length (stepResults d)) + 1) 5 in
  if (1 <=? n) && (n <=? maxStep) then setKillChainStep n d else d.

(** [const activeStep = stepResults.length + 1] *)
Definition activeStep (d : Dashboard) : Z :=
  Z.of_nat (length (stepResults d)) + 1.

(** [const isReviewing = killChainStep < activeStep && killChainStep <= 4] *)
Definition isReviewing (d : Dashboard) : bool :=
  (killChainStep d <? activeStep d) && (killChainStep d <=? 4).

(** ** The overall verdict *)

(** [stepResults.every((r) => r.passed === true)] *)
Definition passedTrue (r : StepResult) : bool :=
  match passed r with
  | Some true => true
  | _ => false
  end.

Definition allPassed (rs : list StepResult) : bool := forallb passedTrue rs.

(** The badge of the summary view. *)
Definition summaryVerdict (rs : list StepResult) : string :=
  if allPassed rs then "STRONG BUY CANDIDATE" else "DOES NOT PASS".

(** ** The [useStepAnalysis] hook *)

Module useStepAnalysis.

(** The hook's three pieces of state.  [pending] is not React state: it
    counts the hook's [/api/analyze] requests that have been sent and not
    yet answered. *)
Record Hook := {
  analysis : option Analysis;
  loading : bool;
  error : option string;
  pending : nat
}.

(** [useState(null)], [useState(false)], [useState(null)] *)
Definition init : Hook :=
  {| analysis := None; loading := false; error := None; pending := 0 |}.

(** [fetch_], up to the [await]: [setLoading(true); setError(null)] and the
    request leaves. *)
Definition fetch_ (h : Hook) : Hook :=
  {| analysis := analysis h; loading := true; error := None;
     pending := S (pending h) |}.

(** [fetch_], after a response with [res.ok]: [setAnalysis(json)], then
    [setLoading(false)] in the [finally]. *)
Definition fetch_resolved (json : Analysis) (h : Hook) : Hook :=
  {| analysis := Some json; loading := false; error := error h;
     pending := Nat.pred (pending h) |}.

(** [fetch_], after a failure (network error, unreadable body or a response
    that is not [ok]): [setError(message)], then [setLoading(false)]. *)
Definition fetch_rejected (msg : string) (h : Hook) : Hook :=
  {| analysis := analysis h; loading := false; error := Some msg;
     pending := Nat.pred (pending h) |}.

(** The condition of the [useEffect]:
    [currentStep === step && !analysis && !loading]. *)
Definition effectFires (step currentStep : Z) (h : Hook) : bool :=
  (currentStep =? step) && negb (bool_decide (is_Some (analysis h)))
  && negb (loading h).

Definition effect (step currentStep : Z) (h : Hook) : Hook :=
  if effectFires step currentStep h then fetch_ h else h.

End useStepAnalysis.

Abbreviation Hook := useStepAnalysis.Hook.

(** ** The [KillChainFlow] component *)

(** The component's own state: the step-1 overlay flag, the four analysis
    hooks and the memo-saving flags.  ([summaryLogoError] only chooses
    between a logo and initials and is left out.) *)
Record Flow := {
  showStep1Fail : bool;
  s1 : Hook;
  s2 : Hook;
  s3 : Hook;
  s4 : Hook;
  memoSaving : bool;
  memoSaved : bool;
  memoError : option string
}.

Definition initialFlow : Flow :=
  {| showStep1Fail := false;
     s1 := useStepAnalysis.init; s2 := useStepAnalysis.init;
     s3 := useStepAnalysis.init; s4 := useStepAnalysis.init;
     memoSaving := false; memoSaved := false; memoError := None |}.

(** The hook that serves step [k]; there is none outside 1..4. *)
Definition hookOf (k : Z) (f : Flow) : option Hook :=
  if k =? 1 then Some (s1 f)
  else if k =? 2 then Some (s2 f)
  else if k =? 3 then Some (s3 f)
  else if k =? 4 then Some (s4 f)
  else None.

Definition mapHook (k : Z) (g : Hook -> Hook) (f : Flow) : Flow :=
  {| showStep1Fail := showStep1Fail f;
     s1 := if k =? 1 then g (s1 f) else s1 f;
     s2 := if k =? 2 then g (s2 f) else s2 f;
     s3 := if k =? 3 then g (s3 f) else s3 f;
     s4 := if k =? 4 then g (s4 f) else s4 f;
     memoSaving := memoSaving f; memoSaved := memoSaved f;
     memoError := memoError f |}.

Definition setShowStep1Fail (b : bool) (f : Flow) : Flow :=
  {| showStep1Fail := b; s1 := s1 f; s2 := s2 f; s3 := s3 f; s4 := s4 f;
     memoSaving := memoSaving f; memoSaved := memoSaved f;
     memoError := memoError f |}.

Definition setMemo (saving saved : bool) (err : option string) (f : Flow) : Flow :=
  {| showStep1Fail := showStep1Fail f;
     s1 := s1 f; s2 := s2 f; s3 := s3 f; s4 := s4 f;
     memoSaving := saving; memoSaved := saved; memoError := err |}.

(** The analysis property handed to the decision handlers as notes:
    [summary], [evidence], [summary], [reasoning]. *)
Definition notesField (k : Z) : string :=
  if k =? 2 then "evidence" else if k =? 4 then "reasoning" else "summary".

Definition notesOf (k : Z) (f : Flow) : JsProp :=
  h ← hookOf k f; a ← useStepAnalysis.analysis h; assoc (notesField k) a.

(** ** The memo request body *)

(** The object sent to [/api/memos]; [m_ticker] is its [ticker]. *)
Record MemoBody := {
  m_ticker : string;
  company_name : string;
  step1_passed : option bool;
  step1_analysis : option Analysis;
  step2_passed : option bool;
  step2_analysis : option Analysis;
  step3_passed : option bool;
  step3_analysis : option Analysis;
  step4_passed : option bool;
  step4_analysis : option Analysis;
  overall_verdict : string;
  stock_data : StockData
}.

(** [stepResults[i]?.passed ?? null] *)
Definition passedAt (i : nat) (rs : list StepResult) : option bool :=
  r ← rs !! i; passed r.

(** The object given to [JSON.stringify] by the SAVE MEMO button. *)
Definition saveMemoBody (sd : StockData) (rs : list StepResult) (f : Flow) : MemoBody :=
  {| m_ticker := ticker sd;
     company_name := companyName sd;
     step1_passed := passedAt 0 rs;
     step1_analysis := useStepAnalysis.analysis (s1 f);
     step2_passed := passedAt 1 rs;
     step2_analysis := useStepAnalysis.analysis (s2 f);
     step3_passed := passedAt 2 rs;
     step3_analysis := useStepAnalysis.analysis (s3 f);
     step4_passed := passedAt 3 rs;
     step4_analysis := useStepAnalysis.analysis (s4 f);
     overall_verdict :=
       if allPassed rs then "STRONG BUY CANDIDATE" else "DOES NOT PASS";
     stock_data := sd |}.

(** ** The application as a transition system *)

(** The page together with what has left it: [analyzeCalls] lists the step
    of every request sent to [/api/analyze], [memoPosts] the body of every
    request sent to [/api/memos], most recent first.  [flow] is the state
    of the mounted [KillChainFlow], [None] while it is not mounted. *)
Record App := {
  dash : Dashboard;
  flow : option Flow;
  analyzeCalls : list Z;
  memoPosts : list MemoBody
}.

Definition initialApp : App :=
  {| dash := initialDashboard; flow := None;
     analyzeCalls := []; memoPosts := [] |}.

Definition onDash (g : Dashboard -> Dashboard) (a : App) : App :=
  {| dash := g (dash a); flow := flow a;
     analyzeCalls := analyzeCalls a; memoPosts := memoPosts a |}.

Definition onFlow (g : Flow -> Flow) (a : App) : App :=
  {| dash := dash a; flow := g <$> flow a;
     analyzeCalls := analyzeCalls a; memoPosts := memoPosts a |}.

Inductive Event :=
| SubmitSearch
| SearchOk (sd : StockData)
| SearchErr
| ClickStart
| ClickPass
| ClickFail
| ClickUnsure
| ClickProgress (s : Z)
| ClickBack
| ClickContinue
| ClickSummaryRow (i : nat)
| ClickRetry
| ClickSave
| SaveOk
| SaveErr (msg : string)
| ClickReset
| FetchOk (k : Z) (json : Analysis)
| FetchErr (k : Z) (msg : string).

(** What [KillChainFlow] returns, or the search page when it is not
    mounted. *)
Inductive Screen :=
| SearchScreen
| Disqualified
| Summary
| StepScreen (k : Z).

Definition screen (a : App) : Screen :=
  match flow a with
  | None => SearchScreen
  | Some f =>
      if showStep1Fail f then Disqualified
      else if killChainStep (dash a) =? 5 then Summary
      else StepScreen (killChainStep (dash a))
  end.

(** [isClickable] of [ProgressBar], for the segments [1, 2, 3, 4]. *)
Definition isClickable (currentStep active s : Z) : bool :=
  (1 <=? s) && (s <=? 4) && (s <=? active) && negb (s =? currentStep).

Definition hasAnalysis (k : Z) (f : Flow) : bool :=
  match hookOf k f with
  | Some h => bool_decide (is_Some (useStepAnalysis.analysis h))
  | None => false
  end.

(** [s.error && ...]: an error message that is not the empty string. *)
Definition hasError (k : Z) (f : Flow) : bool :=
  match hookOf k f with
  | Some h =>
      match useStepAnalysis.error h with
      | Some msg => negb (String.eqb msg EmptyString)
      | None => false
      end
  | None => false
  end.

Definition hasPending (k : Z) (f : Flow) : bool :=
  match hookOf k f with
  | Some h => negb (Nat.eqb (useStepAnalysis.pending h) 0)
  | None => false
  end.

(** The PASS and FAIL buttons of the step on display: they are rendered in
    place of [ReviewActions] when the step's analysis is there and the step
    is not under review.  The step page is taken to render whatever the
    analysis holds.  In the browser it throws on an analysis without
    [characteristics] (step 1), [moatRating] (step 2), [verdict] or
    [marginOfSafety] (step 4), and nothing can be clicked after that: the
    page has no more runs than the ones here, so what holds of every
    reachable state here holds of the page. *)
Definition decisionOffered (a : App) : bool :=
  match screen a, flow a with
  | StepScreen k, Some f => hasAnalysis k f && negb (isReviewing (dash a))
  | _, _ => false
  end.

(** Which events the page on display can produce: a button that is
    rendered and not disabled, or a response to a request in flight. *)
Definition enabled (a : App) (e : Event) : bool :=
  match e with
  | SubmitSearch =>
      match screen a with SearchScreen => negb (loading (dash a)) | _ => false end
  | SearchOk _ | SearchErr => loading (dash a)
  | ClickStart =>
      match screen a with
      | SearchScreen => bool_decide (is_Some (data (dash a)))
      | _ => false
      end
  | ClickPass | ClickFail => decisionOffered a
  | ClickUnsure => decisionOffered a && (killChainStep (dash a) =? 1)
  | ClickProgress s =>
      match screen a with
      | Summary => isClickable 5 5 s
      | StepScreen k => isClickable k (activeStep (dash a)) s
      | _ => false
      end
  | ClickBack =>
      match screen a with StepScreen k => 1 <? k | _ => false end
  | ClickContinue =>
      match screen a, flow a with
      | StepScreen k, Some f => hasAnalysis k f && isReviewing (dash a)
      | _, _ => false
      end
  | ClickSummaryRow i =>
      match screen a with
      | Summary => bool_decide (i < length (stepResults (dash a)))%nat
      | _ => false
      end
  | ClickRetry =>
      match screen a, flow a with
      | StepScreen k, Some f => hasError k f
      | _, _ => false
      end
  | ClickSave =>
      match screen a, flow a with
      | Summary, Some f => negb (memoSaving f || memoSaved f)
      | _, _ => false
      end
  | SaveOk | SaveErr _ =>
      match flow a with Some f => memoSaving f | None => false end
  | ClickReset =>
      match screen a with Disqualified | Summary => true | _ => false end
  | FetchOk k _ | FetchErr k _ =>
      match flow a with Some f => hasPending k f | None => false end
  end.

(** A request to [/api/analyze] for step [k] leaves: the hook runs
    [fetch_] up to its [await]. *)
Definition sendAnalyze (k : Z) (a : App) : App :=
  {| dash := dash a;
     flow := mapHook k useStepAnalysis.fetch_ <$> flow a;
     analyzeCalls := k :: analyzeCalls a;
     memoPosts := memoPosts a |}.

(** The [onClick] of SAVE MEMO, up to its [await]. *)
Definition sendMemo (a : App) : App :=
  match data (dash a), flow a with
  | Some sd, Some f =>
      {| dash := dash a;
         flow := Some (setMemo true (memoSaved f) None f);
         analyzeCalls := analyzeCalls a;
         memoPosts := saveMemoBody sd (stepResults (dash a)) f :: memoPosts a |}
  | _, _ => a
  end.

(** The state updates made by the handler of each event. *)
Definition handle (a : App) (e : Event) : App :=
  let k := killChainStep (dash a) in
  let notesAt j := f ← flow a; notesOf j f in
  match e with
  | SubmitSearch =>
      onDash (fun d =>
        {| data := None; loading := true; killChainActive := false;
           killChainStep := killChainStep d; stepResults := stepResults d |}) a
  | SearchOk sd =>
      onDash (fun d =>
        {| data := Some sd; loading := false;
           killChainActive := killChainActive d;
           killChainStep := killChainStep d; stepResults := stepResults d |}) a
  | SearchErr =>
      onDash (fun d =>
        {| data := data d; loading := false;
           killChainActive := killChainActive d;
           killChainStep := killChainStep d; stepResults := stepResults d |}) a
  | ClickStart => onDash startKillChain a
  | ClickPass => onDash (handleStepPass (notesAt k)) a
  | ClickFail =>
      let a' := onDash (handleStepFail (notesAt k)) a in
      if k =? 1 then onFlow (setShowStep1Fail true) a' else a'
  | ClickUnsure =>
      onFlow (setShowStep1Fail true) (onDash (handleStepUnsure (notesAt 1)) a)
  | ClickProgress s => onDash (goToStep s) a
  | ClickBack => onDash (goToStep (k - 1)) a
  | ClickContinue => onDash (goToStep (Z.min (k + 1) (activeStep (dash a)))) a
  | ClickSummaryRow i => onDash (goToStep (Z.of_nat i + 1)) a
  | ClickRetry => sendAnalyze k a
  | ClickSave => sendMemo a
  | SaveOk => onFlow (fun f => setMemo false true (memoError f) f) a
  | SaveErr msg => onFlow (fun f => setMemo false (memoSaved f) (Some msg) f) a
  | ClickReset => onDash resetKillChain a
  | FetchOk j json => onFlow (mapHook j (useStepAnalysis.fetch_resolved json)) a
  | FetchErr j msg => onFlow (mapHook j (useStepAnalysis.fetch_rejected msg)) a
  end.

(** [killChainActive && data ? <KillChainFlow .../> : ...] *)
Definition mounted (d : Dashboard) : bool :=
  killChainActive d && bool_decide (is_Some (data d)).

(** Re-rendering [Dashboard]: [KillChainFlow] keeps its state while it stays
    mounted, starts from [initialFlow] when it is mounted anew and loses its
    state when it is unmounted. *)
Definition reconcile (a : App) : App :=
  {| dash := dash a;
     flow := if mounted (dash a) then Some (default initialFlow (flow a))
             else None;
     analyzeCalls := analyzeCalls a;
     memoPosts := memoPosts a |}.

(** The [useEffect] of the hook for step [k], run after rendering. *)
Definition runEffect (k : Z) (a : App) : App :=
  match flow a ≫= hookOf k with
  | Some h =>
      if useStepAnalysis.effectFires k (killChainStep (dash a)) h
      then sendAnalyze k a else a
  | None => a
  end.

Definition runEffects (a : App) : App :=
  runEffect 4 (runEffect 3 (runEffect 2 (runEffect 1 a))).

Definition settle (a : App) : App := runEffects (reconcile a).

(** One event: its handler, the re-render and the effects. *)
Definition step (a : App) (e : Event) : App := settle (handle a e).

(** A run: events in order, each enabled where it happens. *)
Fixpoint run (a : App) (es : list Event) : option App :=
  match es with
  | [] => Some a
  | e :: es' => if enabled a e then run (step a e) es' else None
  end.

Inductive reachable : App -> Prop :=
| reachable_init : reachable initialApp
| reachable_step a e :
    reachable a -> enabled a e = true -> reachable (step a e).

(** ** A sample run *)

Module Sample.

Definition KO : StockData :=
  {| companyName := "The Coca-Cola Company"; ticker := "KO";
     currentPrice := None; currency := "USD";
     peRatio := None; forwardPE := None; marketCap := None;
     fiftyTwoWeekLow := None; fiftyTwoWeekHigh := None;
     revenue := None; netIncome := None;
     profitMargin := Some 0.25%float; roic := Some 0.125%float;
     businessSummary := None; website := None |}.

(** An answer of the analyze endpoint for step [k], with every property the
    step page reads. *)
Definition an (k : Z) : Analysis :=
  if k =? 1 then
    [ ("step", JNum 1%float);
      ("characteristics",
       JArr [JStr "Brand-Led"; JStr "Asset-Light"; JStr "Global Reach"]);
      ("summary", JStr "It sells beverage concentrate to bottlers.");
      ("verdict", JStr "simple") ]
  else if k =? 2 then
    [ ("step", JNum 2%float);
      ("moatType", JStr "Brand Power");
      ("moatRating", JStr "strong");
      ("evidence", JStr "A profit margin of 25% held over decades.");
      ("threats", JStr "A lasting shift away from sugary drinks.") ]
  else if k =? 3 then
    [ ("step", JNum 3%float);
      ("grade", JStr "B");
      ("summary", JStr "Capital is returned through steady dividends.");
      ("concerns", JStr "Growth by acquisition has been uneven.");
      ("note", JStr "Full management analysis requires SEC filing integration (coming soon)") ]
  else
    [ ("step", JNum 4%float);
      ("verdict", JStr "fairly valued");
      ("reasoning", JStr "The price stands near the middle of its 52-week range.");
      ("marginOfSafety", JStr "low");
      ("keyMetric", JStr "Forward P/E, since earnings are stable.") ].

(** Search, start, and answer step 1's request. *)
Definition toStep1 : list Event :=
  [SubmitSearch; SearchOk KO; ClickStart; FetchOk 1 (an 1)].

Definition fourPasses : list Event :=
  toStep1 ++ [ClickPass; FetchOk 2 (an 2); ClickPass; FetchOk 3 (an 3);
              ClickPass; FetchOk 4 (an 4); ClickPass].

Definition step1Fail : list Event := toStep1 ++ [ClickFail].

End Sample.

(** ** Invariants of the reachable states *)

(** What holds of a hook between events: at most one request is in flight
    and [loading] says so; an analysis or an error is only there while
    nothing is in flight, and never both. *)
Definition HookPre (h : Hook) : Prop :=
  useStepAnalysis.pending h = (if useStepAnalysis.loading h then 1 else 0)%nat
  /\ (is_Some (useStepAnalysis.analysis h) -> useStepAnalysis.loading h = false)
  /\ (is_Some (useStepAnalysis.error h) ->
        useStepAnalysis.loading h = false /\ useStepAnalysis.analysis h = None).

(** After the effects have run: the step on display either has its analysis
    or is waiting for it. *)
Definition HookSettled (k cur : Z) (h : Hook) : Prop :=
  cur = k -> useStepAnalysis.analysis h = None -> useStepAnalysis.loading h = true.

(** Under the step-1 overlay the ledger holds the one outcome that raised
    it; without the overlay every recorded outcome is a pass or a fail. *)
Definition LedgerOk (overlay : bool) (d : Dashboard) : Prop :=
  if overlay
  then killChainStep d = 2
       /\ exists r, stepResults d = [r] /\ passed r <> Some true
  else forall r, In r (stepResults d) -> passed r <> None.

Definition DashOk (d : Dashboard) : Prop :=
  (1 <= killChainStep d <= activeStep d /\ activeStep d <= 5)
  /\ (mounted d = false -> killChainStep d = 1 /\ stepResults d = []).

Definition FlowOk (f : Flow) (d : Dashboard) : Prop :=
  LedgerOk (showStep1Fail f) d
  /\ forall k h, hookOf k f = Some h -> HookPre h.

Definition Inv (a : App) : Prop :=
  DashOk (dash a)
  /\ (flow a = None <-> mounted (dash a) = false)
  /\ forall f, flow a = Some f ->
       FlowOk f (dash a)
       /\ forall k h, hookOf k f = Some h ->
            HookSettled k (killChainStep (dash a)) h.

(** The four effects at once, on the component's state. *)
Definition applyEffects (cur : Z) (f : Flow) : Flow :=
  {| showStep1Fail := showStep1Fail f;
     s1 := useStepAnalysis.effect 1 cur (s1 f);
     s2 := useStepAnalysis.effect 2 cur (s2 f);
     s3 := useStepAnalysis.effect 3 cur (s3 f);
     s4 := useStepAnalysis.effect 4 cur (s4 f);
     memoSaving := memoSaving f; memoSaved := memoSaved f;
     memoError := memoError f |}.

(** ** Counting requests *)

(** How many requests for step [k] have been sent to [/api/analyze]. *)
Definition callsFor (k : Z) (a : App) : nat :=
  count_occ Z.eq_dec (analyzeCalls a) k.

Definition isFetchErr (k : Z) (e : Event) : bool :=
  match e with
  | FetchErr j _ => j =? k
  | _ => false
  end.

(** How many of the events are failed responses for step [k]. *)
Definition failuresFor (k : Z) (es : list Event) : nat :=
  length (List.filter (isFetchErr k) es).

Definition isReset (e : Event) : bool :=
  match e with
  | ClickReset => true
  | _ => false
  end.

(** Whether step [k] can still be requested without a failure in between:
    it has no analysis and no request in flight (or the component is not
    mounted and will start afresh). *)
Definition unrequested (k : Z) (a : App) : nat :=
  match flow a ≫= hookOf k with
  | Some h =>
      if bool_decide (is_Some (useStepAnalysis.analysis h))
         || useStepAnalysis.loading h
      then 0%nat else 1%nat
  | None => 1%nat
  end.

(** What the handler of [e] does to the hook of step [k], [cur] being the
    step on display. *)
Definition handleHook (k cur : Z) (e : Event) (h : Hook) : Hook :=
  match e with
  | FetchOk j json => if k =? j then useStepAnalysis.fetch_resolved json h else h
  | FetchErr j msg => if k =? j then useStepAnalysis.fetch_rejected msg h else h
  | ClickRetry => if k =? cur then useStepAnalysis.fetch_ h else h
  | _ => h
  end.

(** Whether the effect of the hook for step [k] is about to fire. *)
Definition fires (k : Z) (a : App) : bool :=
  match flow a ≫= hookOf k with
  | Some h => useStepAnalysis.effectFires k (killChainStep (dash a)) h
  | None => false
  end.

(** Events that come from the user, as opposed to responses. *)
Definition isClick (e : Event) : bool :=
  match e with
  | SearchOk _ | SearchErr | SaveOk | SaveErr _ | FetchOk _ _ | FetchErr _ _ => false
  | _ => true
  end.

Definition isRetry (e : Event) : bool :=
  match e with
  | ClickRetry => true
  | _ => false
  end.

(** A run without reset. *)
Definition noReset (es : list Event) : bool :=
  forallb (fun e => negb (isReset e)) es.

(** States of the sample runs. *)
Definition afterRun (es : list Event) : App := default initialApp (run initialApp es).

(** ** [src/app/api/analyze/route.ts] *)

Module AnalyzeRoute.

(** The double quote, as a one-character string. *)
Definition dq : string := String "034"%char EmptyString.

(** The line feed. *)
Definition nl : string := String "010"%char EmptyString.

(** The lines of a template literal, joined by line feeds. *)
Fixpoint joinLines (ls : list string) : string :=
  match ls with
  | [] => EmptyString
  | [l] => l
  | l :: rest => l +:+ nl +:+ joinLines rest
  end.

(** *** [parseJSON] *)

(** A text is held as its UTF-8 bytes.  [\s] matches six characters below
    128 and, above, U+00A0, U+1680, U+2000 to U+200A, U+2028, U+2029,
    U+202F, U+205F, U+3000 and U+FEFF, which take two or three bytes. *)

(** Tab, line feed, vertical tab, form feed, carriage return and space. *)
Definition isSpace (c : ascii) : bool :=
  let n := nat_of_ascii c in
  ((9 <=? n) && (n <=? 13))%nat || (n =? 32)%nat.

(** U+00A0: the bytes 194 160. *)
Definition isSpace2 (a b : ascii) : bool :=
  ((nat_of_ascii a =? 194) && (nat_of_ascii b =? 160))%nat.

(** U+1680 (225 154 128); U+2000 to U+200A (226 128 128 to 226 128 138);
    U+2028 and U+2029 (226 128 168 and 169); U+202F (226 128 175); U+205F
    (226 129 159); U+3000 (227 128 128); U+FEFF (239 187 191). *)
Definition isSpace3 (a b c : ascii) : bool :=
  let x := nat_of_ascii a in
  let y := nat_of_ascii b in
  let z := nat_of_ascii c in
  (((x =? 225) && (y =? 154) && (z =? 128))
   || ((x =? 226) && (y =? 128)
       && (((128 <=? z) && (z <=? 138)) || (z =? 168) || (z =? 169)
           || (z =? 175)))
   || ((x =? 226) && (y =? 129) && (z =? 159))
   || ((x =? 227) && (y =? 128) && (z =? 128))
   || ((x =? 239) && (y =? 187) && (z =? 191)))%nat.

(** The text after the white-space character that [s] starts with. *)
Definition spaceRest (s : string) : option string :=
  match s with
  | EmptyString => None
  | String a r =>
      if isSpace a then Some r
      else match r with
           | EmptyString => None
           | String b r2 =>
               if isSpace2 a b then Some r2
               else match r2 with
                    | EmptyString => None
                    | String c r3 => if isSpace3 a b c then Some r3 else None
                    end
           end
  end.

(** [^\s*$] *)
Fixpoint allSpace (s : string) : bool :=
  match s with
  | EmptyString => true
  | String a r =>
      if isSpace a then allSpace r
      else match r with
           | EmptyString => false
           | String b r2 =>
               if isSpace2 a b then allSpace r2
               else match r2 with
                    | EmptyString => false
                    | String c r3 => if isSpace3 a b c then allSpace r3 else false
                    end
           end
  end.

(** [s] without the match of [^\s*]. *)
Fixpoint dropSpace (s : string) : string :=
  match s with
  | EmptyString => EmptyString
  | String a r =>
      if isSpace a then dropSpace r
      else match r with
           | EmptyString => s
           | String b r2 =>
               if isSpace2 a b then dropSpace r2
               else match r2 with
                    | EmptyString => s
                    | String c r3 => if isSpace3 a b c then dropSpace r3 else s
                    end
           end
  end.

(** [s] without the prefix [p], when it has it. *)
Fixpoint stripPrefix (p s : string) : option string :=
  match p, s with
  | EmptyString, _ => Some s
  | String a p', String b s' => if Ascii.eqb a b then stripPrefix p' s' else None
  | String _ _, EmptyString => None
  end.

Definition lower (c : ascii) : ascii :=
  let n := nat_of_ascii c in
  if ((65 <=? n) && (n <=? 90))%nat then ascii_of_nat (n + 32) else c.

Fixpoint lowerString (s : string) : string :=
  match s with
  | EmptyString => EmptyString
  | String c r => String (lower c) (lowerString r)
  end.

(** [(?:json)?] under the [i] flag: the four letters in either case. *)
Definition dropJson (s : string) : string :=
  match s with
  | String a (String b (String c (String d r))) =>
      if String.eqb (lowerString (String a (String b (String c (String d EmptyString)))))
                    "json"
      then r else s
  | _ => s
  end.

Definition fence : string := "```".

(** [.replace(/^```(?:json)?\s*\n?/i, "")]: an opening fence at the very
    start goes, with the word json and the white space after it. *)
Definition stripOpening (raw : string) : string :=
  match stripPrefix fence raw with
  | Some r => dropSpace (dropJson r)
  | None => raw
  end.

(** Whether [s], taken to its end, matches [\n?```\s*$]. *)
Definition closes (s : string) : bool :=
  let s' := match s with
            | String c r => if Ascii.eqb c "010"%char then r else s
            | EmptyString => s
            end in
  match stripPrefix fence s' with
  | Some r => allSpace r
  | None => false
  end.

(** [.replace(/\n?```\s*$/i, "")]: the text is cut at the leftmost place
    from which only a closing fence and white space follow. *)
Fixpoint stripClosing (s : string) : string :=
  if closes s then EmptyString
  else match s with
       | EmptyString => EmptyString
       | String c r => String c (stripClosing r)
       end.

Definition cleaned (raw : string) : string := stripClosing (stripOpening raw).

(** *** The response *)

Record Response := {
  status : Z;
  body : list (string * JsValue)
}.

Definition errorResponse (st : Z) (msg : string) : Response :=
  {| status := st; body := [("error", JStr msg)] |}.

(** Reading property [k] of a parsed value: an object has the properties
    it lists, no other kind of value has any of the names read here.
    ([null] has no properties at all: reading one throws, which the callers
    treat before they come here.) *)
Definition prop (v : JsValue) (k : string) : JsProp :=
  match v with
  | JObj props => assoc k props
  | _ => None
  end.

Definition isNull (v : JsValue) : bool :=
  match v with
  | JNull => true
  | _ => false
  end.

(** *** The text of the prompts *)

(** The first line of the prompt of [handleStep1]. *)
Definition opening1 : string :=
  "Analyze this company for a Buffett-style investment review.".

(** The instructions of [handleStep1], after the data block. *)
Definition instructions1 : list string :=
  [ "Return your analysis as JSON with exactly this structure:";
    "{";
    "  " +:+ dq +:+ "characteristics" +:+ dq +:+ ": [" +:+ dq +:+ "tag1"
      +:+ dq +:+ ", " +:+ dq +:+ "tag2" +:+ dq +:+ ", " +:+ dq +:+ "tag3"
      +:+ dq +:+ "],";
    "  " +:+ dq +:+ "summary" +:+ dq +:+ ": " +:+ dq
      +:+ "Exactly 3 sentences max. How does this company make money? "
      +:+ "Written so a teenager gets it." +:+ dq +:+ ",";
    "  " +:+ dq +:+ "verdict" +:+ dq +:+ ": " +:+ dq +:+ "simple" +:+ dq
      +:+ " or " +:+ dq +:+ "complex" +:+ dq;
    "}";
    EmptyString;
    "Rules:";
    "- characteristics: 3-5 short tags describing the business "
      +:+ "model (e.g. " +:+ dq +:+ "Asset-Light" +:+ dq +:+ ", " +:+ dq
      +:+ "Brand-Led" +:+ dq +:+ ", " +:+ dq +:+ "Franchise Model" +:+ dq
      +:+ ", " +:+ dq +:+ "Pricing Power" +:+ dq +:+ ", " +:+ dq
      +:+ "Global Reach" +:+ dq +:+ ", " +:+ dq +:+ "Subscription" +:+ dq
      +:+ ", " +:+ dq +:+ "Platform" +:+ dq +:+ ", " +:+ dq +:+ "Hardware"
      +:+ dq +:+ ", " +:+ dq +:+ "Commodity" +:+ dq +:+ ", " +:+ dq
      +:+ "Regulated" +:+ dq +:+ ")";
    "- summary: Max 3 sentences. Plain English. How does the "
      +:+ "company actually make money?";
    "- verdict: " +:+ dq +:+ "simple" +:+ dq
      +:+ " if a smart teenager could explain this business after 5 "
      +:+ "minutes, " +:+ dq +:+ "complex" +:+ dq +:+ " if not";
    EmptyString;
    "Return ONLY the JSON object, no markdown fences, no extra " +:+ "text." ].

(** The first line of the prompt of [handleStep2]. *)
Definition opening2 : string :=
  "Evaluate the competitive moat of this company using "
    +:+ "Buffett's framework.".

(** The instructions of [handleStep2], after the data block. *)
Definition instructions2 : list string :=
  [ "Return your analysis as JSON with exactly this structure:";
    "{";
    "  " +:+ dq +:+ "moatType" +:+ dq +:+ ": " +:+ dq
      +:+ "one of: Brand Power, Network Effects, Switching Costs, Cost "
      +:+ "Advantage, Regulatory Moat, None Identified" +:+ dq +:+ ",";
    "  " +:+ dq +:+ "moatRating" +:+ dq +:+ ": " +:+ dq +:+ "strong" +:+ dq
      +:+ " or " +:+ dq +:+ "moderate" +:+ dq +:+ " or " +:+ dq +:+ "weak"
      +:+ dq +:+ ",";
    "  " +:+ dq +:+ "evidence" +:+ dq +:+ ": " +:+ dq
      +:+ "2-3 sentences explaining WHY this moat exists, with "
      +:+ "specific evidence from the data." +:+ dq +:+ ",";
    "  " +:+ dq +:+ "threats" +:+ dq +:+ ": " +:+ dq
      +:+ "1-2 sentences on what could erode or destroy this moat." +:+ dq;
    "}";
    EmptyString;
    "Rules:";
    "- moatType: pick the single most dominant moat source. Be "
      +:+ "specific.";
    "- moatRating: " +:+ dq +:+ "strong" +:+ dq
      +:+ " = nearly impossible to compete with, " +:+ dq +:+ "moderate"
      +:+ dq +:+ " = defensible but challenged, " +:+ dq +:+ "weak" +:+ dq
      +:+ " = little to no moat";
    "- evidence: Use actual numbers from the data (margins, "
      +:+ "ROIC, market cap) to support your claim. Be concrete.";
    "- threats: What realistic scenario could break this moat? "
      +:+ "Be honest.";
    EmptyString;
    "Return ONLY the JSON object, no markdown fences, no extra " +:+ "text." ].

(** The first line of the prompt of [handleStep3]. *)
Definition opening3 : string :=
  "Evaluate the management quality and capital allocation of "
    +:+ "this company.".

(** The instructions of [handleStep3], after the data block. *)
Definition instructions3 : list string :=
  [ "Return your analysis as JSON with exactly this structure:";
    "{";
    "  " +:+ dq +:+ "grade" +:+ dq +:+ ": " +:+ dq +:+ "A" +:+ dq +:+ " or "
      +:+ dq +:+ "B" +:+ dq +:+ " or " +:+ dq +:+ "C" +:+ dq +:+ " or "
      +:+ dq +:+ "D" +:+ dq +:+ " or " +:+ dq +:+ "F" +:+ dq +:+ ",";
    "  " +:+ dq +:+ "summary" +:+ dq +:+ ": " +:+ dq
      +:+ "2-3 sentences on management quality and capital allocation "
      +:+ "track record." +:+ dq +:+ ",";
    "  " +:+ dq +:+ "concerns" +:+ dq +:+ ": " +:+ dq
      +:+ "1-2 sentences on any red flags or concerns about management."
      +:+ dq +:+ ",";
    "  " +:+ dq +:+ "note" +:+ dq +:+ ": " +:+ dq
      +:+ "Full management analysis requires SEC filing integration "
      +:+ "(coming soon)" +:+ dq;
    "}";
    EmptyString;
    "Rules:";
    "- grade: Based on what you can infer from the financial "
      +:+ "data about capital allocation skill. A = exceptional, B = "
      +:+ "good, C = average, D = poor, F = destructive";
    "- summary: Focus on what the numbers tell you about how "
      +:+ "management deploys capital. Are they generating good "
      +:+ "returns? Growing sensibly?";
    "- concerns: Be honest. If margins are thin or ROIC is low, "
      +:+ "say so. If you can't assess something, say that.";
    "- note: Always include the note field exactly as shown â€” "
      +:+ "this is a placeholder for future SEC filing analysis.";
    EmptyString;
    "Return ONLY the JSON object, no markdown fences, no extra " +:+ "text." ].

(** The first line of the prompt of [handleStep4]. *)
Definition opening4 : string :=
  "Evaluate whether this stock is attractively priced for a "
    +:+ "long-term Buffett-style investor.".

(** The instructions of [handleStep4], after the data block. *)
Definition instructions4 : list string :=
  [ "Return your analysis as JSON with exactly this structure:";
    "{";
    "  " +:+ dq +:+ "verdict" +:+ dq +:+ ": " +:+ dq +:+ "undervalued"
      +:+ dq +:+ " or " +:+ dq +:+ "fairly valued" +:+ dq +:+ " or " +:+ dq
      +:+ "overvalued" +:+ dq +:+ ",";
    "  " +:+ dq +:+ "reasoning" +:+ dq +:+ ": " +:+ dq
      +:+ "2-3 sentences explaining your valuation assessment. "
      +:+ "Reference specific metrics." +:+ dq +:+ ",";
    "  " +:+ dq +:+ "marginOfSafety" +:+ dq +:+ ": " +:+ dq +:+ "high"
      +:+ dq +:+ " or " +:+ dq +:+ "moderate" +:+ dq +:+ " or " +:+ dq
      +:+ "low" +:+ dq +:+ " or " +:+ dq +:+ "none" +:+ dq +:+ ",";
    "  " +:+ dq +:+ "keyMetric" +:+ dq +:+ ": " +:+ dq
      +:+ "Name the single most important valuation metric for THIS "
      +:+ "specific company and explain in 1 sentence why it matters "
      +:+ "most." +:+ dq;
    "}";
    EmptyString;
    "Rules:";
    "- verdict: Based on the current price relative to what the "
      +:+ "business earns and its growth prospects.";
    "- reasoning: Use the P/E, forward P/E, margins, and 52-week "
      +:+ "range to make your case. Be specific with numbers.";
    "- marginOfSafety: " +:+ dq +:+ "high" +:+ dq
      +:+ " = significant discount to intrinsic value, " +:+ dq
      +:+ "moderate" +:+ dq +:+ " = some cushion, " +:+ dq +:+ "low" +:+ dq
      +:+ " = slim margin, " +:+ dq +:+ "none" +:+ dq
      +:+ " = no margin of safety";
    "- keyMetric: What single metric should an investor focus on "
      +:+ "for this company? (e.g. " +:+ dq
      +:+ "P/E ratio at 25x vs 10-year average of 22x suggests slight "
      +:+ "premium" +:+ dq +:+ ")";
    EmptyString;
    "Return ONLY the JSON object, no markdown fences, no extra " +:+ "text." ].

Section Route.

(** [`${n}`] for a number. *)
Variable Number_toString : Number -> string.

(** The call to the model: [None] when [client.messages.create] throws. *)
Variable callClaude : string -> option string.

(** [JSON.parse]: [None] when it throws. *)
Variable JSON_parse : string -> option JsValue.

Definition parseJSON (raw : string) : option JsValue := JSON_parse (cleaned raw).

(** *** [buildDataBlock] *)

(** [value ?? "N/A"] inside a template literal. *)
Definition orNA (v : option Number) : string :=
  match v with
  | Some n => Number_toString n
  | None => "N/A"
  end.

(** [value || "Not available"]: the empty string is falsy as well. *)
Definition orNotAvailable (v : option string) : string :=
  match v with
  | Some s => if String.eqb s EmptyString then "Not available" else s
  | None => "Not available"
  end.

(** The twelve lines of the template. *)
Definition dataLines (stockData : StockData) : list string :=
  [ "Company: " +:+ companyName stockData +:+ " (" +:+ ticker stockData +:+ ")";
    "Business Description: " +:+ orNotAvailable (businessSummary stockData);
    "Current Price: " +:+ orNA (currentPrice stockData);
    "Revenue: " +:+ orNA (revenue stockData);
    "Net Income: " +:+ orNA (netIncome stockData);
    "Profit Margin: " +:+ orNA (profitMargin stockData);
    "Market Cap: " +:+ orNA (marketCap stockData);
    "ROIC: " +:+ orNA (roic stockData);
    "P/E (TTM): " +:+ orNA (peRatio stockData);
    "Forward P/E: " +:+ orNA (forwardPE stockData);
    "52-Week Low: " +:+ orNA (fiftyTwoWeekLow stockData);
    "52-Week High: " +:+ orNA (fiftyTwoWeekHigh stockData) ].

Definition buildDataBlock (stockData : StockData) : string :=
  joinLines (dataLines stockData).


(** [userPrompt]: the opening line, the data block and the instructions,
    with an empty line between them. *)
Definition userPromptOf (opening : string) (instructions : list string)
    (stockData : StockData) : string :=
  joinLines [opening; EmptyString; buildDataBlock stockData; EmptyString;
             joinLines instructions].

(** The [try] block shared by the four handlers: call the model, parse its
    text, and answer with the step number and the properties read from the
    parsed value; whatever throws on the way ends in the [catch]. *)
Definition answer (stepNo : Number) (prompt : string) (fields : list string)
    (failure : string) : Response :=
  match callClaude prompt with
  | None => errorResponse 500 failure
  | Some text =>
      match parseJSON text with
      | None => errorResponse 500 failure
      | Some parsed =>
          if isNull parsed then errorResponse 500 failure
          else {| status := 200;
                  body := ("step", JNum stepNo)
                          :: stringifyProps
                               (map (fun k => (k, prop parsed k)) fields) |}
      end
  end.

Definition fields1 : list string := ["characteristics"; "summary"; "verdict"].
Definition fields2 : list string := ["moatType"; "moatRating"; "evidence"; "threats"].
Definition fields3 : list string := ["grade"; "summary"; "concerns"; "note"].
Definition fields4 : list string :=
  ["verdict"; "reasoning"; "marginOfSafety"; "keyMetric"].

Definition handleStep1 (stockData : StockData) : Response :=
  answer 1%float (userPromptOf opening1 instructions1 stockData) fields1
         "Failed to analyze business".

Definition handleStep2 (stockData : StockData) : Response :=
  answer 2%float (userPromptOf opening2 instructions2 stockData) fields2
         "Failed to analyze competitive advantage".

Definition handleStep3 (stockData : StockData) : Response :=
  answer 3%float (userPromptOf opening3 instructions3 stockData) fields3
         "Failed to analyze management".

Definition handleStep4 (stockData : StockData) : Response :=
  answer 4%float (userPromptOf opening4 instructions4 stockData) fields4
         "Failed to analyze valuation".

(** [handlers[step]] for a step that is a whole number. *)
Definition handlers (step : Z) : option (StockData -> Response) :=
  if step =? 1 then Some handleStep1
  else if step =? 2 then Some handleStep2
  else if step =? 3 then Some handleStep3
  else if step =? 4 then Some handleStep4
  else None.

(** JavaScript truthiness of a property read from the request body;
    [None] is [undefined]. *)
Definition truthy (v : JsProp) : bool :=
  match v with
  | None => false
  | Some JNull => false
  | Some (JBool b) => b
  | Some (JNum n) => negb (PrimFloat.eqb n 0%float || PrimFloat.is_nan n)
  | Some (JStr s) => negb (String.eqb s EmptyString)
  | Some (JArr _) => true
  | Some (JObj _) => true
  end.

(** The property key that a value used as an index stands for,
    [String(v)], or [None] when the conversion throws.  A string is its own
    key; an array is the keys of its elements joined by commas, with
    nothing for [null]; an object is [[object Object]] unless it has a
    property [toString] of its own: what [JSON.parse] puts there cannot be
    called, and the conversion throws. *)
Fixpoint toKey (v : JsValue) : option string :=
  match v with
  | JNull => Some "null"
  | JBool b => Some (if b then "true" else "false")
  | JNum n => Some (Number_toString n)
  | JStr s => Some s
  | JArr l =>
      (fix join (l : list JsValue) : option string :=
         match l with
         | [] => Some EmptyString
         | x :: rest =>
             match match x with
                   | JNull => Some EmptyString
                   | _ => toKey x
                   end with
             | None => None
             | Some first =>
                 match rest with
                 | [] => Some first
                 | _ :: _ =>
                     match join rest with
                     | Some more => Some (first +:+ "," +:+ more)
                     | None => None
                     end
                 end
             end
         end) l
  | JObj props =>
      match assoc "toString" props with
      | Some _ => None
      | None => Some "[object Object]"
      end
  end.

(** The members that the [handlers] object inherits from
    [Object.prototype]: each is there and truthy, none is a step handler. *)
Definition inheritedKeys : list string :=
  [ "constructor"; "hasOwnProperty"; "isPrototypeOf"; "propertyIsEnumerable";
    "toLocaleString"; "toString"; "valueOf"; "__proto__";
    "__defineGetter__"; "__defineSetter__"; "__lookupGetter__";
    "__lookupSetter__" ].


(** What [handlers[step]] reads under a key. *)
Inductive Member :=
| Handler (handler : StockData -> Response)
| Inherited
| Undefined.

Definition handlersAt (key : string) : Member :=
  if String.eqb key "1" then Handler handleStep1
  else if String.eqb key "2" then Handler handleStep2
  else if String.eqb key "3" then Handler handleStep3
  else if String.eqb key "4" then Handler handleStep4
  else if existsb (String.eqb key) inheritedKeys then Inherited
  else Undefined.

(** What a request comes to: a response of the route, or none of its own,
    when what it calls throws or returns something that is no response. *)
Inductive Outcome :=
| Responded (r : Response)
| NoResponse.

(** [POST], for a request whose body is a JSON object: [step] is whatever
    the body holds under that name; the stock data is an object of the
    page's shape, or missing ([undefined] or another falsy value).  An
    inherited member is truthy, so it is called like a handler: the call
    throws or returns no response. *)
Definition POST (step : JsProp) (stockData : option StockData) : Outcome :=
  match step, stockData with
  | Some v, Some sd =>
      if truthy step
      then match toKey v with
           | Some key =>
               match handlersAt key with
               | Handler handler => Responded (handler sd)
               | Inherited => NoResponse
               | Undefined => Responded (errorResponse 400 "Invalid step")
               end
           | None => NoResponse
           end
      else Responded (errorResponse 400 "step and stockData are required")
  | _, _ => Responded (errorResponse 400 "step and stockData are required")
  end.

(** The prompt and the fields of a step, by number. *)
Definition userPrompt (step : Z) (stockData : StockData) : string :=
  if step =? 1 then userPromptOf opening1 instructions1 stockData
  else if step =? 2 then userPromptOf opening2 instructions2 stockData
  else if step =? 3 then userPromptOf opening3 instructions3 stockData
  else userPromptOf opening4 instructions4 stockData.

Definition requiredFields (step : Z) : list string :=
  if step =? 1 then fields1
  else if step =? 2 then fields2
  else if step =? 3 then fields3
  else fields4.

End Route.

(** What the hook makes of a response: the body when [res.ok], else the
    error to show. *)
Definition clientOutcome (r : Response) : string + Analysis :=
  if (200 <=? status r) && (status r <=? 299) then inr (body r)
  else inl (match assoc "error" (body r) with
            | Some (JStr msg) => if String.eqb msg EmptyString
                                 then "Analysis failed" else msg
            | _ => "Analysis failed"
            end).

End AnalyzeRoute.

(** ** [src/app/api/memos/route.ts] *)

Module MemosRoute.

Section Route.

(** A stored memo, as the storage returns it. *)
Variable Row : Type.

(** [getSupabase()]: it throws with a message when the storage is not
    configured; otherwise [insert] is the client's
    [from("memos").insert(...).select().single()], [None] when it reports an
    error. *)
Inductive Storage :=
| NotConfigured (msg : string)
| Configured (insert : MemoBody -> option Row).

Inductive MemoResponse :=
| MemoError (status : Z) (msg : string)
| MemoSaved (row : Row).

Definition isEmpty (s : string) : bool := String.eqb s EmptyString.

Definition POST (supabase : Storage) (body : MemoBody) : MemoResponse :=
  match supabase with
  | NotConfigured msg => MemoError 503 msg
  | Configured insert =>
      if isEmpty (m_ticker body) || isEmpty (company_name body)
      then MemoError 400 "ticker and company_name are required"
      else match insert body with
           | None => MemoError 500 "Failed to save memo"
           | Some row => MemoSaved row
           end
  end.

End Route.

Arguments NotConfigured {Row} msg.
Arguments Configured {Row} insert.
Arguments MemoError {Row} status msg.
Arguments MemoSaved {Row} row.

End MemosRoute.

(** A stand-in for [JSON.parse] that knows one text: the empty object. *)
Definition parseEmptyObject (s : string) : option JsValue :=
  if String.eqb s "{}" then Some (JObj []) else None.



(** ** More of [page.tsx] *)

(** Where a navigation button asks [goToStep] to go: a segment of the
    progress bar, the back button, the continue button of [ReviewActions]
    and a row of the summary. *)
Definition navTarget (a : App) (e : Event) : option Z :=
  match e with
  | ClickProgress s => Some s
  | ClickBack => Some (killChainStep (dash a) - 1)
  | ClickContinue =>
      Some (Z.min (killChainStep (dash a) + 1) (activeStep (dash a)))
  | ClickSummaryRow i => Some (Z.of_nat i + 1)
  | _ => None
  end.

(** [const isPass = memo.overall_verdict === "STRONG BUY CANDIDATE"], in
    [PastAnalyses] and [SavedMemoDetail]. *)
Definition isPass (overall : string) : bool :=
  String.eqb overall "STRONG BUY CANDIDATE".

(** The badge of a [MemoCard]. *)
Definition memoCardBadge (overall : string) : string :=
  if isPass overall then "STRONG BUY" else "DOES NOT PASS".

(** The header of [ProgressBar]: [STEP {Math.min(currentStep, 4)} OF 4] and
    [STEP_LABELS[Math.min(currentStep, 4) - 1] ?? "Summary"]. *)
Definition STEP_LABELS : list string :=
  ["Business"; "Moat"; "Management"; "Valuation"].

Definition progressStepNumber (currentStep : Z) : Z := Z.min currentStep 4.

(** An array read at a number: [undefined] below zero and past the end. *)
Definition arrayAt {A : Type} (l : list A) (i : Z) : option A :=
  if i <? 0 then None else l !! Z.to_nat i.

Definition progressLabel (currentStep : Z) : string :=
  default "Summary" (arrayAt STEP_LABELS (Z.min currentStep 4 - 1)).

(** [const isFilled = s <= Math.min(activeStep, 4)] *)
Definition isFilled (active s : Z) : bool := s <=? Z.min active 4.

(** The arguments [KillChainFlow] gives to [ProgressBar]: 5 and 5 on the
    summary, the step counter and the frontier on a step page. *)
Definition progressArgs (a : App) : option (Z * Z) :=
  match screen a with
  | Summary => Some (5, 5)
  | StepScreen k => Some (k, activeStep (dash a))
  | _ => None
  end.

(** The three decisions. *)
Definition isDecision (e : Event) : bool :=
  match e with
  | ClickPass | ClickFail | ClickUnsure => true
  | _ => false
  end.

(** The first outcome of a ledger that is shown on a step page or on the
    summary is a pass. *)
Definition FirstPassed (a : App) : Prop :=
  forall f r, flow a = Some f -> showStep1Fail f = false ->
    stepResults (dash a) !! 0%nat = Some r -> passed r = Some true.


(** ** More of the analyze route *)

(** Whether a text holds a backtick. *)
Fixpoint hasBacktick (s : string) : bool :=
  match s with
  | EmptyString => false
  | String c r => Ascii.eqb c "`"%char || hasBacktick r
  end.

(** A byte of a white-space character: one of the six below 128, or a byte
    of a character above 127. *)
Definition spaceByte (a : ascii) : Prop :=
  AnalyzeRoute.isSpace a = true \/ (128 <= nat_of_ascii a)%nat.

(** The [step] property of a handler's answer: [step: 1] ... [step: 4]. *)
Definition stepAsNumber (k : Z) : Number :=
  if k =? 1 then 1%float
  else if k =? 2 then 2%float
  else if k =? 3 then 3%float
  else 4%float.


(** ** [src/lib/supabase.ts] *)

Module Supabase.

Section Client.

(** The storage client, and [createClient]: the client, or the message of
    the error it throws (it does on a URL that is not an HTTP or HTTPS
    URL). *)
Variable Client : Type.
Variable createClient : string -> string -> string + Client.

(** [supabaseUrl.startsWith("your-")] *)
Definition startsWithYour (url : string) : bool :=
  bool_decide (is_Some (AnalyzeRoute.stripPrefix "your-" url)).

Definition notConfiguredMessage : string :=
  "Supabase is not configured. Set NEXT_PUBLIC_SUPABASE_URL and NEXT_PUBLIC_SUPABASE_ANON_KEY in .env.local".

(** The module's state: [_supabase], and a count of the calls made to
    [createClient] (not in the source: it is kept to state how often
    [createClient] is called). *)
Record State := {
  _supabase : option Client;
  createCalls : nat
}.

Definition initial : State := {| _supabase := None; createCalls := 0 |}.

(** [getSupabase]: the client, or the message of the error thrown, and the
    state after the call.  The two constants are the environment's values,
    the empty string standing for a missing one.  An error thrown by
    [createClient] leaves [getSupabase] before the assignment. *)
Definition getSupabase (supabaseUrl supabaseAnonKey : string) (st : State)
    : (string + Client) * State :=
  match _supabase st with
  | Some c => (inr c, st)
  | None =>
      if String.eqb supabaseUrl EmptyString
         || String.eqb supabaseAnonKey EmptyString
         || startsWithYour supabaseUrl
      then (inl notConfiguredMessage, st)
      else match createClient supabaseUrl supabaseAnonKey with
           | inr c => (inr c, {| _supabase := Some c; createCalls := S (createCalls st) |})
           | inl msg => (inl msg, {| _supabase := None; createCalls := S (createCalls st) |})
           end
  end.

(** [n] calls in a row: the results in order and the final state. *)
Fixpoint getSupabaseTimes (n : nat) (url key : string) (st : State)
    : list (string + Client) * State :=
  match n with
  | O => ([], st)
  | S m =>
      let '(r, st1) := getSupabase url key st in
      let '(rs, st2) := getSupabaseTimes m url key st1 in
      (r :: rs, st2)
  end.

End Client.

Arguments _supabase {Client} s.
Arguments createCalls {Client} s.
Arguments initial {Client}.

End Supabase.

(** ** The stock endpoint ([/api/stock]) *)

Module StockRoute.

(** JavaScript truthiness of a [number | undefined]: [0], [-0] and [NaN]
    are falsy. *)
Definition truthy (x : option Number) : bool :=
  match x with
  | Some v => negb (PrimFloat.eqb v 0%float || PrimFloat.is_nan v)
  | None => false
  end.

(** Truthiness of a [string | undefined]. *)
Definition truthyString (x : option string) : bool :=
  match x with
  | Some s => negb (String.eqb s EmptyString)
  | None => false
  end.

(** A row of [fundamentalsTimeSeries]; the route reads these properties and
    casts them to numbers. *)
Record Row := {
  operatingIncome : option Number;
  investedCapital : option Number;
  totalAssets : option Number;
  currentLiabilities : option Number;
  taxRateForCalcs : option Number
}.

Record Price := {
  longName : option string;
  shortName : option string;
  regularMarketPrice : option Number;
  p_currency : option string;
  p_marketCap : option Number
}.

Record SummaryDetail := {
  trailingPE : option Number;
  d_forwardPE : option Number;
  d_fiftyTwoWeekLow : option Number;
  d_fiftyTwoWeekHigh : option Number
}.

Record FinancialData := {
  totalRevenue : option Number;
  profitMargins : option Number;
  operatingMargins : option Number
}.

Record KeyStatistics := {
  netIncomeToCommon : option Number
}.

Record SummaryProfile := {
  longBusinessSummary : option string;
  p_website : option string
}.

Record QuoteSummary := {
  price : option Price;
  summaryDetail : option SummaryDetail;
  financialData : option FinancialData;
  defaultKeyStatistics : option KeyStatistics;
  summaryProfile : option SummaryProfile
}.

(** [rows?.length ? rows[rows.length - 1] : null] *)
Definition latest (rows : option (list Row)) : option Row :=
  rows ≫= last.

(** [0.21] *)
Definition defaultTaxRate : Number := 0x1.ae147ae147ae1p-3%float.

(** [taxRate ?? 0.21] *)
Definition taxRateOf (r : option Row) : Number :=
  default defaultTaxRate (r ≫= taxRateForCalcs).

(** [operatingIncome * (1 - taxRate) / investedCapital] *)
Definition roicFormula (operatingIncome taxRate investedCapital : Number) : Number :=
  (operatingIncome * (1 - taxRate) / investedCapital)%float.

Definition positive (x : option Number) : bool :=
  match x with
  | Some v => PrimFloat.ltb 0%float v
  | None => false
  end.

(** The earlier version of the route: one series, module [all]. *)
Definition roicV1 (fundamentals : option (list Row)) : option Number :=
  match latest fundamentals with
  | Some r =>
      if truthy (operatingIncome r) && truthy (investedCapital r)
         && positive (investedCapital r)
      then
        oi ← operatingIncome r; ic ← investedCapital r;
        Some (roicFormula oi (default defaultTaxRate (taxRateForCalcs r)) ic)
      else None
  | None => None
  end.

Definition noteMargins : string := "Operating income estimated from margins".
Definition noteCapital : string :=
  "Invested capital estimated from total assets - current liabilities".
Definition noteCapitalAlso : string :=
  "; invested capital estimated from total assets - current liabilities".
Definition noteInsufficient : string := "Insufficient data to calculate ROIC".

(** Step 1 of the later version: the operating income and the note. *)
Definition operatingIncomeOf (latestFin : option Row)
    (financial : option FinancialData) : option Number * option string :=
  if truthy (latestFin ≫= operatingIncome)
  then (latestFin ≫= operatingIncome, None)
  else if truthy (financial ≫= operatingMargins)
          && truthy (financial ≫= totalRevenue)
  then (om ← financial ≫= operatingMargins;
        tr ← financial ≫= totalRevenue;
        Some (om * tr)%float,
        Some noteMargins)
  else (None, None).

(** Step 2: the invested capital and the note so far. *)
Definition investedCapitalOf (latestBs : option Row) (roicNote : option string)
    : option Number * option string :=
  if truthy (latestBs ≫= investedCapital)
  then (latestBs ≫= investedCapital, roicNote)
  else if truthy (latestBs ≫= totalAssets)
          && truthy (latestBs ≫= currentLiabilities)
  then (ta ← latestBs ≫= totalAssets;
        cl ← latestBs ≫= currentLiabilities;
        Some (ta - cl)%float,
        Some (match roicNote with
              | Some note =>
                  if String.eqb note EmptyString then noteCapital
                  else note +:+ noteCapitalAlso
              | None => noteCapital
              end))
  else (None, roicNote).

(** The note as it stands before the last test of the later version. *)
Definition noteBefore (latestFin latestBs : option Row)
    (financial : option FinancialData) : option string :=
  snd (investedCapitalOf latestBs (snd (operatingIncomeOf latestFin financial))).

(** The later version: [roic] and [roicNote]. *)
Definition roicV2 (balanceSheet financials : option (list Row))
    (financial : option FinancialData) : option Number * option string :=
  let latestBs := latest balanceSheet in
  let latestFin := latest financials in
  let '(operatingIncome, roicNote) := operatingIncomeOf latestFin financial in
  let '(investedCapital, roicNote) := investedCapitalOf latestBs roicNote in
  let taxRate := taxRateOf latestFin in
  if truthy operatingIncome && truthy investedCapital && positive investedCapital
  then (oi ← operatingIncome; ic ← investedCapital;
        Some (roicFormula oi taxRate ic),
        roicNote)
  else (None, Some noteInsufficient).

(** What [NextResponse.json] makes of a number: [JSON.stringify] writes
    [null] for [NaN] and the infinities and [0] for [-0]; every other
    number is read back as it was. *)
Definition jsonNumber (x : option Number) : option Number :=
  match x with
  | Some v =>
      if PrimFloat.is_nan v || PrimFloat.is_infinity v then None
      else if PrimFloat.eqb v 0%float then Some 0%float
      else Some v
  | None => None
  end.

(** [a || b] on strings *)
Definition orString (a : option string) (b : string) : string :=
  match a with
  | Some s => if String.eqb s EmptyString then b else s
  | None => b
  end.

Record Answer := {
  data : StockData;
  roicNote : option string
}.

(** The answer as the client reads it, after [NextResponse.json]. *)
Definition json (a : Answer) : Answer :=
  let d := data a in
  {| data :=
       {| companyName := companyName d;
          ticker := ticker d;
          currentPrice := jsonNumber (currentPrice d);
          currency := currency d;
          peRatio := jsonNumber (peRatio d);
          forwardPE := jsonNumber (forwardPE d);
          marketCap := jsonNumber (marketCap d);
          fiftyTwoWeekLow := jsonNumber (fiftyTwoWeekLow d);
          fiftyTwoWeekHigh := jsonNumber (fiftyTwoWeekHigh d);
          revenue := jsonNumber (revenue d);
          netIncome := jsonNumber (netIncome d);
          profitMargin := jsonNumber (profitMargin d);
          roic := jsonNumber (roic d);
          businessSummary := businessSummary d;
          website := website d |};
     roicNote := roicNote a |}.

Inductive Response :=
| Failed (status : Z) (message : string)
| Found (answer : Answer).

Section Route.

(** [String.prototype.toUpperCase] and the two calls of the data
    provider, [None] when the call throws.  The date passed as [period1] is
    the provider's concern. *)
Variable toUpperCase : string -> string.
Variable quoteSummary : string -> option QuoteSummary.
Variable fundamentalsTimeSeries : string -> string -> option (list Row).

(** The object [data] that the route builds. *)
Definition dataOf (symbol : string) (summary : QuoteSummary)
    (balanceSheet financials : option (list Row)) : Answer :=
  let price := price summary in
  let detail := summaryDetail summary in
  let financial := financialData summary in
  let keyStats := defaultKeyStatistics summary in
  let '(roic, roicNote) := roicV2 balanceSheet financials financial in
  {| data :=
       {| companyName :=
            orString (price ≫= longName) (orString (price ≫= shortName) symbol);
          ticker := symbol;
          currentPrice := price ≫= regularMarketPrice;
          currency := default "USD" (price ≫= p_currency);
          peRatio := detail ≫= trailingPE;
          forwardPE := detail ≫= d_forwardPE;
          marketCap := price ≫= p_marketCap;
          fiftyTwoWeekLow := detail ≫= d_fiftyTwoWeekLow;
          fiftyTwoWeekHigh := detail ≫= d_fiftyTwoWeekHigh;
          revenue := financial ≫= totalRevenue;
          netIncome := keyStats ≫= netIncomeToCommon;
          profitMargin := financial ≫= profitMargins;
          roic := roic;
          businessSummary := summaryProfile summary ≫= longBusinessSummary;
          website := summaryProfile summary ≫= p_website |};
     roicNote := roicNote |}.

Definition dq : string := String "034"%char EmptyString.

Definition GET (ticker : option string) : Response :=
  match ticker with
  | None => Failed 400 "Ticker is required"
  | Some t =>
      if String.eqb t EmptyString then Failed 400 "Ticker is required"
      else
        let symbol := toUpperCase t in
        match quoteSummary symbol with
        | None => Failed 404 ("Could not find data for ticker " +:+ dq +:+ symbol +:+ dq)
        | Some summary =>
            Found (json (dataOf symbol summary
                           (fundamentalsTimeSeries symbol "balance-sheet")
                           (fundamentalsTimeSeries symbol "financials")))
        end
  end.

End Route.

End StockRoute.

(** ** The quotes endpoint ([/api/quotes]) *)

Module QuotesRoute.

(** [s.split(",")]: the pieces between the commas, at least one. *)
Fixpoint split (s : string) : list string :=
  match s with
  | EmptyString => [EmptyString]
  | String c rest =>
      if Ascii.eqb c ","%char then EmptyString :: split rest
      else match split rest with
           | piece :: pieces => String c piece :: pieces
           | [] => [String c EmptyString]
           end
  end.

Record Quote := {
  q_regularMarketPrice : option Number;
  regularMarketChange : option Number;
  regularMarketChangePercent : option Number;
  q_currency : option string
}.

Record QuoteRow := {
  q_ticker : string;
  q_price : option Number;
  change : option Number;
  changePercent : option Number;
  r_currency : string
}.

Inductive Response :=
| Failed (status : Z) (message : string)
| Rows (rows : list QuoteRow).

Section Route.

(** [String.prototype.trim], [String.prototype.toUpperCase] and the data
    provider's [quote], [None] when it throws. *)
Variable trim : string -> string.
Variable toUpperCase : string -> string.
Variable quote : string -> option Quote.

Definition nonEmpty (s : string) : bool := negb (String.eqb s EmptyString).

Definition symbolsOf (tickersParam : string) : list string :=
  take 20 (List.filter nonEmpty
             (map (fun t => toUpperCase (trim t)) (split tickersParam))).

(** The row of one symbol.  The promise of a symbol does not reject: its own
    [catch] gives the fallback row, so the [catch] around [Promise.all] in
    [GET] is not entered. *)
Definition rowOf (symbol : string) : QuoteRow :=
  match quote symbol with
  | Some q =>
      {| q_ticker := symbol;
         q_price := q_regularMarketPrice q;
         change := regularMarketChange q;
         changePercent := regularMarketChangePercent q;
         r_currency := default "USD" (q_currency q) |}
  | None =>
      {| q_ticker := symbol; q_price := None; change := None;
         changePercent := None; r_currency := "USD" |}
  end.

Definition GET (tickersParam : option string) : Response :=
  match tickersParam with
  | None => Failed 400 "tickers query param is required"
  | Some p =>
      if String.eqb p EmptyString
      then Failed 400 "tickers query param is required"
      else
        let symbols := symbolsOf p in
        if (length symbols =? 0)%nat then Rows []
        else Rows (map rowOf symbols)
  end.

End Route.

End QuotesRoute.

Example sample_fourPasses :
  (a ← run initialApp Sample.fourPasses;
   Some (screen a, summaryVerdict (stepResults (dash a)), analyzeCalls a))
  = Some (Summary, "STRONG BUY CANDIDATE", [4; 3; 2; 1]).
Proof. reflexivity. Qed.

Example sample_step1Fail :
  (a ← run initialApp Sample.step1Fail;
   Some (screen a, killChainStep (dash a), length (stepResults (dash a))))
  = Some (Disqualified, 2, 1%nat).
Proof. reflexivity. Qed.

(** * Properties *)

(** ** The verdict rule *)

Lemma passedTrue_iff (r : StepResult) :
  passedTrue r = true <-> passed r = Some true.
Proof.
  unfold passedTrue. destruct (passed r) as [[|]|]; split; congruence.
Qed.

Lemma allPassed_iff (rs : list StepResult) :
  allPassed rs = true <-> forall r, In r rs -> passed r = Some true.
Proof.
  unfold allPassed. rewrite forallb_forall.
  split; intros H r Hr; apply passedTrue_iff, H, Hr.
Qed.

Lemma summaryVerdict_strong (rs : list StepResult) :
  summaryVerdict rs = "STRONG BUY CANDIDATE" <-> allPassed rs = true.
Proof.
  unfold summaryVerdict. destruct (allPassed rs); split; intros H;
    try reflexivity; discriminate H.
Qed.

Lemma summaryVerdict_cases (rs : list StepResult) :
  summaryVerdict rs = "STRONG BUY CANDIDATE" \/ summaryVerdict rs = "DOES NOT PASS".
Proof. unfold summaryVerdict. destruct (allPassed rs); auto. Qed.

(** C1.  With exactly four outcomes recorded, the badge of the summary
    reads STRONG BUY CANDIDATE exactly when each of the four has
    [passed = true]; as soon as one of them is a fail or an unsure it reads
    DOES NOT PASS; and the verdict put into the memo body is the badge's. *)
Theorem verdict_rule (sd : StockData) (f : Flow) (rs : list StepResult) :
  length rs = 4%nat ->
  (summaryVerdict rs = "STRONG BUY CANDIDATE"
     <-> forall r, In r rs -> passed r = Some true)
  /\ ((exists r, In r rs /\ (passed r = Some false \/ passed r = None))
        -> summaryVerdict rs = "DOES NOT PASS")
  /\ overall_verdict (saveMemoBody sd rs f) = summaryVerdict rs.
Proof.
  intros _. split; [|split].
  - rewrite summaryVerdict_strong. apply allPassed_iff.
  - intros (r & Hr & Hp).
    destruct (summaryVerdict_cases rs) as [Hs|Hs]; [|exact Hs].
    pose proof (proj1 (allPassed_iff rs) (proj1 (summaryVerdict_strong rs) Hs) r Hr). destruct Hp as [Hp|Hp]; congruence.
  - reflexivity.
Qed.

(** ** Navigation *)

(** C3.  [goToStep n] moves the step counter to [n] when
    [1 <= n <= min (outcomes + 1) 5] and changes nothing else; outside that
    range it returns the state as it was; the ledger is the same in both
    cases. *)
Theorem goToStep_spec (d : Dashboard) (n : Z) :
  let maxStep := Z.min (Z.of_nat (length (stepResults d)) + 1) 5 in
  (1 <= n <= maxStep ->
     killChainStep (goToStep n d) = n
     /\ killChainActive (goToStep n d) = killChainActive d
     /\ data (goToStep n d) = data d
     /\ loading (goToStep n d) = loading d)
  /\ (~ (1 <= n <= maxStep) -> goToStep n d = d)
  /\ stepResults (goToStep n d) = stepResults d.
Proof.
  unfold goToStep. cbv zeta.
  destruct (Z.leb_spec 1 n); destruct (Z.leb_spec n
    (Z.min (Z.of_nat (length (stepResults d)) + 1) 5)); simpl;
    repeat split; try reflexivity; intros; lia.
Qed.

(** The counter moves exactly in that range: where it ends up at [n]
    without having been there, [n] was in range. *)
Lemma goToStep_moves_iff (d : Dashboard) (n : Z) :
  killChainStep d <> n ->
  (killChainStep (goToStep n d) = n
     <-> 1 <= n <= Z.min (Z.of_nat (length (stepResults d)) + 1) 5).
Proof.
  intros Hne. destruct (goToStep_spec d n) as (Hin & Hout & _).
  split.
  - intros Hk.
    destruct (Z_le_dec 1 n) as [H1|H1];
      [destruct (Z_le_dec n (Z.min (Z.of_nat (length (stepResults d)) + 1) 5))
         as [H2|H2]; [lia|] |];
      (rewrite Hout in Hk by lia; contradiction).
  - intros H. apply Hin, H.
Qed.

Lemma verdict_rule_witness :
  let pass := {| passed := Some true; notes := None |} in
  let rs := [pass; pass; pass; pass] in
  length rs = 4%nat
  /\ ((summaryVerdict rs = "STRONG BUY CANDIDATE"
         <-> forall r, In r rs -> passed r = Some true)
      /\ ((exists r, In r rs /\ (passed r = Some false \/ passed r = None))
            -> summaryVerdict rs = "DOES NOT PASS")
      /\ overall_verdict (saveMemoBody Sample.KO rs initialFlow)
         = summaryVerdict rs).
Proof.
  cbv zeta. split; [reflexivity|].
  apply (verdict_rule Sample.KO initialFlow). reflexivity.
Defined.

Lemma goToStep_spec_witness :
  let d := recordOutcome (Some true) None (startKillChain initialDashboard) in
  1 <= 1 <= Z.min (Z.of_nat (length (stepResults d)) + 1) 5
  /\ killChainStep (goToStep 1 d) = 1
  /\ ~ (1 <= 3 <= Z.min (Z.of_nat (length (stepResults d)) + 1) 5)
  /\ goToStep 3 d = d.
Proof.
  cbv zeta.
  pose proof (goToStep_spec
    (recordOutcome (Some true) None (startKillChain initialDashboard)) 1)
    as (Hin & _ & _).
  pose proof (goToStep_spec
    (recordOutcome (Some true) None (startKillChain initialDashboard)) 3)
    as (_ & Hout & _).
  assert (H1 : 1 <= 1 <= Z.min (Z.of_nat (length (stepResults
    (recordOutcome (Some true) None (startKillChain initialDashboard)))) + 1) 5)
    by (simpl; lia).
  assert (H3 : ~ (1 <= 3 <= Z.min (Z.of_nat (length (stepResults
    (recordOutcome (Some true) None (startKillChain initialDashboard)))) + 1) 5))
    by (simpl; lia).
  split; [exact H1|]. split; [exact (proj1 (Hin H1))|].
  split; [exact H3|]. exact (Hout H3).
Defined.

(** ** Rendering and effects *)

Lemma hookOf_Some_range (k : Z) (f : Flow) (h : Hook) :
  hookOf k f = Some h -> 1 <= k <= 4.
Proof.
  unfold hookOf.
  destruct (Z.eqb_spec k 1); [lia|]. destruct (Z.eqb_spec k 2); [lia|].
  destruct (Z.eqb_spec k 3); [lia|]. destruct (Z.eqb_spec k 4); [lia|].
  discriminate.
Qed.

Lemma hookOf_range_Some (k : Z) (f : Flow) :
  1 <= k <= 4 -> exists h, hookOf k f = Some h.
Proof.
  intros Hk. unfold hookOf.
  destruct (Z.eqb_spec k 1); [eauto|]. destruct (Z.eqb_spec k 2); [eauto|].
  destruct (Z.eqb_spec k 3); [eauto|]. destruct (Z.eqb_spec k 4); [eauto|].
  lia.
Qed.

Lemma hookOf_mapHook (k j : Z) (g : Hook -> Hook) (f : Flow) :
  hookOf k (mapHook j g f) = if k =? j then g <$> hookOf k f else hookOf k f.
Proof.
  unfold hookOf, mapHook; simpl.
  destruct (Z.eqb_spec k 1) as [->|]; [destruct (j =? 1) eqn:E;
    rewrite Z.eqb_sym, E; reflexivity|].
  destruct (Z.eqb_spec k 2) as [->|]; [destruct (j =? 2) eqn:E;
    rewrite Z.eqb_sym, E; reflexivity|].
  destruct (Z.eqb_spec k 3) as [->|]; [destruct (j =? 3) eqn:E;
    rewrite Z.eqb_sym, E; reflexivity|].
  destruct (Z.eqb_spec k 4) as [->|]; [destruct (j =? 4) eqn:E;
    rewrite Z.eqb_sym, E; reflexivity|].
  destruct (k =? j); reflexivity.
Qed.

Lemma hookOf_applyEffects (k cur : Z) (f : Flow) :
  hookOf k (applyEffects cur f) = useStepAnalysis.effect k cur <$> hookOf k f.
Proof.
  unfold hookOf, applyEffects; simpl.
  destruct (Z.eqb_spec k 1) as [->|]; [reflexivity|].
  destruct (Z.eqb_spec k 2) as [->|]; [reflexivity|].
  destruct (Z.eqb_spec k 3) as [->|]; [reflexivity|].
  destruct (Z.eqb_spec k 4) as [->|]; reflexivity.
Qed.

Lemma mapHook_ext (k : Z) (g g' : Hook -> Hook) (f : Flow) :
  (forall h, hookOf k f = Some h -> g h = g' h) ->
  mapHook k g f = mapHook k g' f.
Proof.
  intros H. unfold mapHook. unfold hookOf in H.
  destruct (Z.eqb_spec k 1) as [->|]; [rewrite (H (s1 f) eq_refl); reflexivity|].
  destruct (Z.eqb_spec k 2) as [->|]; [rewrite (H (s2 f) eq_refl); reflexivity|].
  destruct (Z.eqb_spec k 3) as [->|]; [rewrite (H (s3 f) eq_refl); reflexivity|].
  destruct (Z.eqb_spec k 4) as [->|]; [rewrite (H (s4 f) eq_refl); reflexivity|].
  reflexivity.
Qed.

Lemma mapHook_id (k : Z) (f : Flow) : mapHook k (fun h => h) f = f.
Proof.
  destruct f. unfold mapHook; simpl.
  destruct (k =? 1), (k =? 2), (k =? 3), (k =? 4); reflexivity.
Qed.

Lemma dash_runEffect (k : Z) (a : App) : dash (runEffect k a) = dash a.
Proof.
  unfold runEffect. destruct (flow a ≫= hookOf k) as [h|]; [|reflexivity].
  destruct (useStepAnalysis.effectFires _ _ _); reflexivity.
Qed.

Lemma flow_runEffect (k : Z) (a : App) :
  flow (runEffect k a)
  = mapHook k (useStepAnalysis.effect k (killChainStep (dash a))) <$> flow a.
Proof.
  unfold runEffect. destruct (flow a) as [f|] eqn:Hf; simpl; [|rewrite Hf; reflexivity].
  destruct (hookOf k f) as [h|] eqn:Hh.
  - destruct (useStepAnalysis.effectFires k (killChainStep (dash a)) h) eqn:Hfire;
      simpl; rewrite Hf; simpl; f_equal;
      [|rewrite <- (mapHook_id k f) at 1];
      apply mapHook_ext; intros h' Hh';
      assert (h' = h) as -> by congruence;
      unfold useStepAnalysis.effect; rewrite Hfire; reflexivity.
  - rewrite Hf. simpl. f_equal. rewrite <- (mapHook_id k f) at 1.
    apply mapHook_ext. intros h' Hh'. congruence.
Qed.

Lemma dash_settle (a : App) : dash (settle a) = dash a.
Proof.
  unfold settle, runEffects. rewrite !dash_runEffect. reflexivity.
Qed.

Lemma flow_runEffects (a : App) :
  flow (runEffects a) = applyEffects (killChainStep (dash a)) <$> flow a.
Proof.
  unfold runEffects. rewrite !flow_runEffect, !dash_runEffect.
  destruct (flow a) as [f|]; [|reflexivity]. simpl. f_equal.
Qed.

Lemma flow_settle (a : App) :
  flow (settle a)
  = if mounted (dash a)
    then Some (applyEffects (killChainStep (dash a)) (default initialFlow (flow a)))
    else None.
Proof.
  unfold settle. rewrite flow_runEffects. simpl.
  destruct (mounted (dash a)); reflexivity.
Qed.

Lemma dash_step (a : App) (e : Event) : dash (step a e) = dash (handle a e).
Proof. apply dash_settle. Qed.

(** ** The hook between events *)

Ltac hook_pre :=
  split; [reflexivity|];
  split; (let H := fresh in
          intro H;
          first [ reflexivity
                | split; reflexivity
                | destruct H as [? H]; discriminate H ]).

Lemma HookPre_init : HookPre useStepAnalysis.init.
Proof.
  unfold HookPre; simpl. hook_pre.
Qed.

Lemma HookPre_pending_loading (h : Hook) :
  HookPre h -> useStepAnalysis.pending h <> 0%nat ->
  useStepAnalysis.loading h = true
  /\ useStepAnalysis.pending h = 1%nat
  /\ useStepAnalysis.analysis h = None
  /\ useStepAnalysis.error h = None.
Proof.
  intros (Hp & Ha & He) Hn.
  destruct (useStepAnalysis.loading h) eqn:Hl; [|contradiction].
  repeat split; try assumption.
  - destruct (useStepAnalysis.analysis h) eqn:E; [|reflexivity].
    discriminate (Ha (ex_intro _ _ eq_refl)).
  - destruct (useStepAnalysis.error h) eqn:E; [|reflexivity].
    destruct (He (ex_intro _ _ eq_refl)); discriminate.
Qed.

Lemma effect_settles (k cur : Z) (h : Hook) :
  HookPre h ->
  HookPre (useStepAnalysis.effect k cur h)
  /\ HookSettled k cur (useStepAnalysis.effect k cur h).
Proof.
  intros Hpre. pose proof Hpre as (Hp & Ha & He).
  unfold useStepAnalysis.effect, useStepAnalysis.effectFires, HookSettled.
  destruct (Z.eqb_spec cur k) as [->|Hne]; simpl.
  - destruct (useStepAnalysis.analysis h) as [json|] eqn:E; simpl.
    + split; [exact Hpre|]. intros _ H'. congruence.
    + destruct (useStepAnalysis.loading h) eqn:Hl; simpl.
      * split; [exact Hpre|]. intros _ _. assumption.
      * split; [|intros _ _; reflexivity].
        unfold HookPre; simpl. rewrite Hp, E.
        hook_pre.
  - split; [exact Hpre|]. intros Heq. contradiction.
Qed.

Lemma fetch_resolved_pre (json : Analysis) (h : Hook) :
  HookPre h -> useStepAnalysis.pending h <> 0%nat ->
  HookPre (useStepAnalysis.fetch_resolved json h).
Proof.
  intros Hpre Hn. destruct (HookPre_pending_loading h Hpre Hn) as (_ & Hp & _ & He).
  unfold HookPre; simpl. rewrite Hp, He.
  hook_pre.
Qed.

Lemma fetch_rejected_pre (msg : string) (h : Hook) :
  HookPre h -> useStepAnalysis.pending h <> 0%nat ->
  HookPre (useStepAnalysis.fetch_rejected msg h).
Proof.
  intros Hpre Hn. destruct (HookPre_pending_loading h Hpre Hn) as (_ & Hp & Ha & _).
  unfold HookPre; simpl. rewrite Hp, Ha.
  hook_pre.
Qed.

Lemma fetch_retry_pre (h : Hook) :
  HookPre h -> is_Some (useStepAnalysis.error h) ->
  HookPre (useStepAnalysis.fetch_ h).
Proof.
  intros (Hp & Ha & He) Herr. destruct (He Herr) as (Hl & Han).
  unfold HookPre; simpl. rewrite Hp, Hl, Han.
  hook_pre.
Qed.

(** ** The invariant *)

Lemma FlowOk_initial (d : Dashboard) :
  stepResults d = [] -> FlowOk initialFlow d.
Proof.
  intros Hrs. split.
  - simpl. rewrite Hrs. intros r [].
  - intros k h Hh. unfold hookOf in Hh; simpl in Hh.
    destruct (k =? 1); [injection Hh as <-; apply HookPre_init|].
    destruct (k =? 2); [injection Hh as <-; apply HookPre_init|].
    destruct (k =? 3); [injection Hh as <-; apply HookPre_init|].
    destruct (k =? 4); [injection Hh as <-; apply HookPre_init|].
    discriminate.
Qed.

(** Rendering and running the effects establishes the invariant from what
    the handlers guarantee. *)
Lemma settle_Inv (b : App) :
  DashOk (dash b) ->
  (mounted (dash b) = true -> FlowOk (default initialFlow (flow b)) (dash b)) ->
  Inv (settle b).
Proof.
  intros Hd Hf. unfold Inv. rewrite dash_settle, flow_settle.
  split; [exact Hd|]. split.
  - destruct (mounted (dash b)); split; intros; congruence.
  - intros f Heq. destruct (mounted (dash b)) eqn:Hm; [|discriminate].
    injection Heq as <-. destruct (Hf eq_refl) as (Hl & Hh).
    split; [split; [exact Hl|]|].
    + intros k h. rewrite hookOf_applyEffects.
      destruct (hookOf k (default initialFlow (flow b))) as [h0|] eqn:E;
        [|discriminate].
      simpl. intros [= <-]. apply effect_settles, (Hh k), E.
    + intros k h. rewrite hookOf_applyEffects.
      destruct (hookOf k (default initialFlow (flow b))) as [h0|] eqn:E;
        [|discriminate].
      simpl. intros [= <-]. apply effect_settles, (Hh k), E.
Qed.

Lemma Inv_initial : Inv initialApp.
Proof.
  unfold Inv, DashOk; simpl. repeat split; try lia; try reflexivity; discriminate.
Qed.

(** *** What the page on display tells about the state *)

Lemma screen_Search (a : App) : screen a = SearchScreen -> flow a = None.
Proof.
  unfold screen. destruct (flow a) as [f|]; [|reflexivity].
  destruct (showStep1Fail f); [discriminate|].
  destruct (killChainStep (dash a) =? 5); discriminate.
Qed.

Lemma screen_Step (a : App) (k : Z) :
  screen a = StepScreen k ->
  exists f, flow a = Some f /\ showStep1Fail f = false
            /\ killChainStep (dash a) = k /\ k <> 5.
Proof.
  unfold screen. destruct (flow a) as [f|]; [|discriminate].
  destruct (showStep1Fail f) eqn:Hov; [discriminate|].
  destruct (Z.eqb_spec (killChainStep (dash a)) 5); [discriminate|].
  intros [= <-]. exists f. repeat split; auto.
Qed.

Lemma screen_Summary (a : App) :
  screen a = Summary ->
  exists f, flow a = Some f /\ showStep1Fail f = false
            /\ killChainStep (dash a) = 5.
Proof.
  unfold screen. destruct (flow a) as [f|]; [|discriminate].
  destruct (showStep1Fail f) eqn:Hov; [discriminate|].
  destruct (Z.eqb_spec (killChainStep (dash a)) 5); [|discriminate].
  intros _. exists f. repeat split; auto.
Qed.

Lemma screen_Disqualified (a : App) :
  screen a = Disqualified <-> exists f, flow a = Some f /\ showStep1Fail f = true.
Proof.
  unfold screen. destruct (flow a) as [f|].
  - destruct (showStep1Fail f) eqn:E.
    + split; eauto.
    + split.
      * destruct (killChainStep (dash a) =? 5); discriminate.
      * intros (f' & [= <-] & H). congruence.
  - split; [discriminate|]. intros (f' & H & _). discriminate.
Qed.

Lemma hasAnalysis_true (k : Z) (f : Flow) :
  hasAnalysis k f = true ->
  exists h json, hookOf k f = Some h /\ useStepAnalysis.analysis h = Some json.
Proof.
  unfold hasAnalysis. destruct (hookOf k f) as [h|]; [|discriminate].
  intros H. apply bool_decide_eq_true in H. destruct H as [json Hj]. eauto.
Qed.

Lemma hasError_true (k : Z) (f : Flow) :
  hasError k f = true ->
  exists h, hookOf k f = Some h /\ is_Some (useStepAnalysis.error h).
Proof.
  unfold hasError. destruct (hookOf k f) as [h|]; [|discriminate].
  destruct (useStepAnalysis.error h) as [msg|] eqn:E; [|discriminate].
  intros _. exists h. rewrite E. eauto.
Qed.

Lemma decisionOffered_true (a : App) :
  decisionOffered a = true ->
  exists f, flow a = Some f /\ showStep1Fail f = false
            /\ hasAnalysis (killChainStep (dash a)) f = true
            /\ isReviewing (dash a) = false.
Proof.
  unfold decisionOffered. destruct (screen a) as [| | |k] eqn:Hs; try discriminate.
  destruct (screen_Step a k Hs) as (f & Hf & Hov & Hk & _). rewrite Hf.
  intros H. apply andb_true_iff in H as (H1 & H2).
  apply negb_true_iff in H2. subst k. exists f. repeat split; auto.
Qed.

(** A decision is only on offer at the frontier of the ledger. *)
Lemma decisionOffered_frontier (a : App) :
  Inv a -> decisionOffered a = true ->
  killChainStep (dash a) = activeStep (dash a)
  /\ 1 <= killChainStep (dash a) <= 4.
Proof.
  intros (((Hlo & Hhi) & _) & _) Hd.
  destruct (decisionOffered_true a Hd) as (f & _ & _ & Ha & Hr).
  destruct (hasAnalysis_true _ _ Ha) as (h & _ & Hh & _).
  apply hookOf_Some_range in Hh.
  unfold isReviewing in Hr. apply andb_false_iff in Hr.
  split; [|exact Hh].
  destruct Hr as [Hr|Hr]; [apply Z.ltb_ge in Hr|apply Z.leb_gt in Hr]; lia.
Qed.

(** *** Preservation *)

Lemma Inv_flow_Some (a : App) (f : Flow) :
  Inv a -> flow a = Some f ->
  mounted (dash a) = true /\ FlowOk f (dash a) /\ DashOk (dash a).
Proof.
  intros (Hd & Hm & Hf) Heq. split; [|split; [apply Hf, Heq|exact Hd]].
  destruct (mounted (dash a)); [reflexivity|].
  rewrite (proj2 Hm eq_refl) in Heq. discriminate.
Qed.

Lemma Inv_flow_None (a : App) :
  Inv a -> flow a = None ->
  mounted (dash a) = false
  /\ killChainStep (dash a) = 1 /\ stepResults (dash a) = [].
Proof.
  intros ((_ & Hidle) & Hm & _) Heq.
  pose proof (proj1 Hm Heq) as Hmf. split; [exact Hmf|apply Hidle, Hmf].
Qed.

Lemma Inv_settle_mounted (b : App) (f : Flow) :
  DashOk (dash b) -> flow b = Some f -> FlowOk f (dash b) -> Inv (settle b).
Proof.
  intros Hd Hf Hok. apply settle_Inv; [exact Hd|]. rewrite Hf. intros _. exact Hok.
Qed.

Lemma DashOk_idle (d : Dashboard) :
  killChainStep d = 1 -> stepResults d = [] -> DashOk d.
Proof.
  intros Hk Hrs. unfold DashOk, activeStep. rewrite Hk, Hrs. simpl.
  repeat split; lia.
Qed.

Lemma mounted_goToStep (n : Z) (d : Dashboard) :
  mounted (goToStep n d) = mounted d.
Proof.
  unfold goToStep. destruct (_ && _); reflexivity.
Qed.

Lemma DashOk_goToStep (n : Z) (d : Dashboard) :
  mounted d = true -> DashOk d -> DashOk (goToStep n d).
Proof.
  intros Hm ((Hlo & Hhi) & _). unfold DashOk. rewrite mounted_goToStep, Hm.
  split; [|discriminate].
  destruct (goToStep_spec d n) as (Hin & Hout & Hrs).
  unfold activeStep in *. rewrite Hrs.
  destruct (Z_le_dec 1 n) as [H1|H1];
    [destruct (Z_le_dec n (Z.min (Z.of_nat (length (stepResults d)) + 1) 5))
       as [H2|H2]|].
  - destruct (Hin (conj H1 H2)) as (-> & _). lia.
  - rewrite Hout by lia. lia.
  - rewrite Hout by lia. lia.
Qed.

Lemma LedgerOk_goToStep (n : Z) (d : Dashboard) :
  LedgerOk false d -> LedgerOk false (goToStep n d).
Proof.
  unfold LedgerOk. destruct (goToStep_spec d n) as (_ & _ & ->). auto.
Qed.

(** Navigation, from a page that shows steps or the summary. *)
Lemma Inv_goTo (a : App) (n : Z) (f : Flow) :
  Inv a -> flow a = Some f -> showStep1Fail f = false ->
  Inv (settle (onDash (goToStep n) a)).
Proof.
  intros HI Hf Hov. destruct (Inv_flow_Some a f HI Hf) as (Hm & (Hl & Hh) & Hd).
  apply (Inv_settle_mounted _ f); simpl.
  - apply DashOk_goToStep; assumption.
  - exact Hf.
  - split; [|exact Hh]. rewrite Hov in *. apply LedgerOk_goToStep, Hl.
Qed.

(** A change to the component's state that leaves the overlay flag alone
    and keeps the hooks in order. *)
Lemma Inv_onFlow (a : App) (g : Flow -> Flow) :
  Inv a ->
  (forall f, flow a = Some f ->
     showStep1Fail (g f) = showStep1Fail f
     /\ forall k h, hookOf k (g f) = Some h -> HookPre h) ->
  is_Some (flow a) ->
  Inv (settle (onFlow g a)).
Proof.
  intros HI Hg [f Hf]. destruct (Inv_flow_Some a f HI Hf) as (Hm & (Hl & Hh) & Hd).
  destruct (Hg f Hf) as (Hov & Hpre).
  apply (Inv_settle_mounted _ (g f)); simpl.
  - exact Hd.
  - rewrite Hf. reflexivity.
  - split; [rewrite Hov; exact Hl|exact Hpre].
Qed.

Lemma mounted_recordOutcome (p : option bool) (n : JsProp) (d : Dashboard) :
  mounted (recordOutcome p n d) = mounted d.
Proof. reflexivity. Qed.

Lemma DashOk_recordOutcome (p : option bool) (n : JsProp) (d : Dashboard) :
  mounted d = true -> DashOk d ->
  killChainStep d = activeStep d -> killChainStep d <= 4 ->
  DashOk (recordOutcome p n d).
Proof.
  intros Hm ((Hlo & Hhi) & _) Hk H4. unfold DashOk.
  rewrite mounted_recordOutcome, Hm. split; [|discriminate].
  unfold activeStep in *. simpl. rewrite length_app. simpl. lia.
Qed.

Lemma Inv_decide (a : App) (p : option bool) (n : JsProp) (ov : bool) :
  Inv a -> decisionOffered a = true ->
  (p = None -> ov = true) ->
  (ov = true -> killChainStep (dash a) = 1 /\ p <> Some true) ->
  Inv (settle (onFlow (setShowStep1Fail ov) (onDash (recordOutcome p n) a))).
Proof.
  intros HI Hd Hp Hov.
  destruct (decisionOffered_frontier a HI Hd) as (Hk & Hr).
  destruct (decisionOffered_true a Hd) as (f & Hf & Hov0 & _ & _).
  destruct (Inv_flow_Some a f HI Hf) as (Hm & (Hl & Hh) & HD).
  apply (Inv_settle_mounted _ (setShowStep1Fail ov f)); simpl.
  - apply DashOk_recordOutcome; try assumption; lia.
  - rewrite Hf. reflexivity.
  - split; [|exact Hh]. rewrite Hov0 in Hl. unfold LedgerOk in *. simpl.
    destruct ov.
    + destruct (Hov eq_refl) as (H1 & Hne). split; [lia|].
      exists {| passed := p; notes := n |}. split; [|exact Hne].
      unfold activeStep in Hk.
      destruct (stepResults (dash a)) as [|r rs]; [reflexivity|].
      simpl length in Hk. lia.
    + intros r Hin. apply in_app_or in Hin as [Hin|[<-|[]]].
      * apply Hl, Hin.
      * simpl. intros ->. discriminate (Hp eq_refl).
Qed.

Lemma setShowStep1Fail_same (f : Flow) :
  setShowStep1Fail (showStep1Fail f) f = f.
Proof. destruct f; reflexivity. Qed.

Lemma onFlow_same (a : App) (g : Flow -> Flow) :
  (forall f, flow a = Some f -> g f = f) -> onFlow g a = a.
Proof.
  intros H. destruct a as [d [f|] c m]; unfold onFlow; simpl; [|reflexivity].
  rewrite (H f eq_refl). reflexivity.
Qed.

(** Every enabled event leads from a state in order to a state in order. *)
Lemma Inv_step (a : App) (e : Event) :
  Inv a -> enabled a e = true -> Inv (step a e).
Proof.
  intros HI He. unfold step.
  destruct e; simpl in He; unfold handle; cbv beta iota zeta.
  - (* SubmitSearch *)
    destruct (screen a) eqn:Hs; try discriminate.
    destruct (Inv_flow_None a HI (screen_Search a Hs)) as (_ & Hk & Hrs).
    apply settle_Inv; simpl.
    + apply DashOk_idle; assumption.
    + discriminate.
  - (* SearchOk *)
    destruct (flow a) as [f|] eqn:Hf.
    + destruct (Inv_flow_Some a f HI Hf) as (Hm & Hok & HD).
      apply (Inv_settle_mounted _ f); simpl; [|exact Hf|exact Hok].
      split; [apply HD|]. unfold mounted in *. simpl.
      apply andb_true_iff in Hm as (-> & _). discriminate.
    + destruct (Inv_flow_None a HI Hf) as (_ & Hk & Hrs).
      apply settle_Inv; simpl.
      * apply DashOk_idle; assumption.
      * rewrite Hf. intros _. apply FlowOk_initial. exact Hrs.
  - (* SearchErr *)
    destruct (flow a) as [f|] eqn:Hf.
    + destruct (Inv_flow_Some a f HI Hf) as (Hm & Hok & HD).
      apply (Inv_settle_mounted _ f); simpl; [|exact Hf|exact Hok].
      split; [apply HD|]. unfold mounted in *. simpl. rewrite Hm. discriminate.
    + destruct (Inv_flow_None a HI Hf) as (_ & Hk & Hrs).
      apply settle_Inv; simpl.
      * apply DashOk_idle; assumption.
      * rewrite Hf. intros _. apply FlowOk_initial. exact Hrs.
  - (* ClickStart *)
    apply settle_Inv; simpl.
    + apply DashOk_idle; reflexivity.
    + destruct (screen a) eqn:Hs; try discriminate.
      rewrite (screen_Search a Hs). intros _. apply FlowOk_initial. reflexivity.
  - (* ClickPass *)
    pose proof (Inv_decide a (Some true) (flow a ≫= notesOf (killChainStep (dash a)))
                  false HI He) as H.
    destruct (decisionOffered_true a He) as (f & Hf & Hov & _).
    rewrite (onFlow_same _ (setShowStep1Fail false)) in H.
    + apply H; [discriminate|discriminate].
    + simpl. intros f' Hf'. assert (f' = f) as -> by congruence.
      rewrite <- Hov. apply setShowStep1Fail_same.
  - (* ClickFail *)
    destruct (decisionOffered_true a He) as (f & Hf & Hov & _).
    destruct (Z.eqb_spec (killChainStep (dash a)) 1) as [Hk|Hk].
    + apply Inv_decide; try assumption; [reflexivity|].
      intros _. split; [exact Hk|discriminate].
    + pose proof (Inv_decide a (Some false)
                    (flow a ≫= notesOf (killChainStep (dash a))) false HI He) as H.
      rewrite (onFlow_same _ (setShowStep1Fail false)) in H.
      * apply H; [discriminate|discriminate].
      * simpl. intros f' Hf'. assert (f' = f) as -> by congruence.
        rewrite <- Hov. apply setShowStep1Fail_same.
  - (* ClickUnsure *)
    apply andb_true_iff in He as (Hd & Hk). apply Z.eqb_eq in Hk.
    apply Inv_decide; try assumption; [reflexivity|].
    intros _. split; [exact Hk|discriminate].
  - (* ClickProgress *)
    destruct (screen a) eqn:Hs; try discriminate.
    + destruct (screen_Summary a Hs) as (f & Hf & Hov & _).
      apply (Inv_goTo a s f); assumption.
    + destruct (screen_Step a k Hs) as (f & Hf & Hov & _).
      apply (Inv_goTo a s f); assumption.
  - (* ClickBack *)
    destruct (screen a) eqn:Hs; try discriminate.
    destruct (screen_Step a k Hs) as (f & Hf & Hov & _).
    apply (Inv_goTo a _ f); assumption.
  - (* ClickContinue *)
    destruct (screen a) eqn:Hs; try discriminate.
    destruct (screen_Step a k Hs) as (f & Hf & Hov & _).
    apply (Inv_goTo a _ f); assumption.
  - (* ClickSummaryRow *)
    destruct (screen a) eqn:Hs; try discriminate.
    destruct (screen_Summary a Hs) as (f & Hf & Hov & _).
    apply (Inv_goTo a _ f); assumption.
  - (* ClickRetry *)
    destruct (screen a) eqn:Hs; try discriminate.
    destruct (screen_Step a k Hs) as (f & Hf & Hov & Hk & _).
    rewrite Hf in He.
    destruct (Inv_flow_Some a f HI Hf) as (Hm & (Hl & Hh) & HD).
    apply (Inv_settle_mounted _ (mapHook k useStepAnalysis.fetch_ f)); simpl.
    + exact HD.
    + rewrite Hf, Hk. reflexivity.
    + split; [exact Hl|]. intros j h. rewrite hookOf_mapHook.
      destruct (Z.eqb_spec j k) as [->|Hne]; [|apply Hh].
      destruct (hasError_true k f He) as (h0 & E & Herr). rewrite E.
      simpl. intros [= <-]. apply fetch_retry_pre; [apply (Hh k), E|exact Herr].
  - (* ClickSave *)
    destruct (screen a) eqn:Hs; try discriminate.
    destruct (screen_Summary a Hs) as (f & Hf & Hov & _).
    destruct (Inv_flow_Some a f HI Hf) as (Hm & (Hl & Hh) & HD).
    unfold sendMemo. rewrite Hf.
    destruct (data (dash a)) as [sd|] eqn:Hdata.
    + apply (Inv_settle_mounted _ (setMemo true (memoSaved f) None f)); simpl;
        [exact HD|reflexivity|]. split; [exact Hl|exact Hh].
    + apply (Inv_settle_mounted _ f); [exact HD|exact Hf|]. split; assumption.
  - (* SaveOk *)
    destruct (flow a) as [f|] eqn:Hf; [|discriminate].
    apply Inv_onFlow; [exact HI| |rewrite Hf; eauto].
    intros f' Hf'. destruct (Inv_flow_Some a f' HI Hf') as (_ & (_ & Hh) & _).
    split; [reflexivity|exact Hh].
  - (* SaveErr *)
    destruct (flow a) as [f|] eqn:Hf; [|discriminate].
    apply Inv_onFlow; [exact HI| |rewrite Hf; eauto].
    intros f' Hf'. destruct (Inv_flow_Some a f' HI Hf') as (_ & (_ & Hh) & _).
    split; [reflexivity|exact Hh].
  - (* ClickReset *)
    apply settle_Inv; simpl.
    + apply DashOk_idle; reflexivity.
    + discriminate.
  - (* FetchOk *)
    destruct (flow a) as [f|] eqn:Hf; [|discriminate].
    apply Inv_onFlow; [exact HI| |rewrite Hf; eauto].
    intros f' Hf'. assert (f' = f) as -> by congruence.
    destruct (Inv_flow_Some a f HI Hf') as (_ & (_ & Hh) & _).
    split; [reflexivity|]. intros j h. rewrite hookOf_mapHook.
    destruct (Z.eqb_spec j k) as [->|Hne]; [|apply Hh].
    unfold hasPending in He. destruct (hookOf k f) as [h0|] eqn:E; [|discriminate].
    simpl. intros [= <-]. apply fetch_resolved_pre; [apply (Hh k), E|].
    apply negb_true_iff, Nat.eqb_neq in He. exact He.
  - (* FetchErr *)
    destruct (flow a) as [f|] eqn:Hf; [|discriminate].
    apply Inv_onFlow; [exact HI| |rewrite Hf; eauto].
    intros f' Hf'. assert (f' = f) as -> by congruence.
    destruct (Inv_flow_Some a f HI Hf') as (_ & (_ & Hh) & _).
    split; [reflexivity|]. intros j h. rewrite hookOf_mapHook.
    destruct (Z.eqb_spec j k) as [->|Hne]; [|apply Hh].
    unfold hasPending in He. destruct (hookOf k f) as [h0|] eqn:E; [|discriminate].
    simpl. intros [= <-]. apply fetch_rejected_pre; [apply (Hh k), E|].
    apply negb_true_iff, Nat.eqb_neq in He. exact He.
Qed.

Theorem reachable_Inv (a : App) : reachable a -> Inv a.
Proof.
  induction 1 as [|a e _ IH He]; [apply Inv_initial|apply Inv_step; assumption].
Qed.

(** ** Requests sent by the effects *)

Lemma callsFor_runEffect (k j : Z) (b : App) :
  callsFor k (runEffect j b)
  = (callsFor k b + (if (j =? k)%Z && fires j b then 1 else 0))%nat.
Proof.
  unfold callsFor, runEffect, fires.
  destruct (flow b ≫= hookOf j) as [h|]; [|rewrite andb_false_r; lia].
  destruct (useStepAnalysis.effectFires j (killChainStep (dash b)) h);
    [|rewrite andb_false_r; lia].
  rewrite andb_true_r. simpl.
  destruct (Z.eq_dec j k) as [->|Hne].
  - rewrite Z.eqb_refl. lia.
  - destruct (Z.eqb_spec j k); [contradiction|lia].
Qed.

Lemma fires_runEffect_other (k j : Z) (b : App) :
  j <> k -> fires k (runEffect j b) = fires k b.
Proof.
  intros Hne. unfold fires. rewrite flow_runEffect, dash_runEffect.
  destruct (flow b) as [f|]; [|reflexivity]. simpl.
  rewrite hookOf_mapHook. destruct (Z.eqb_spec k j); [congruence|reflexivity].
Qed.

Lemma fires_range (k : Z) (b : App) : fires k b = true -> 1 <= k <= 4.
Proof.
  unfold fires. destruct (flow b) as [f|]; [|discriminate]. simpl.
  destruct (hookOf k f) as [h|] eqn:E; [|discriminate].
  intros _. apply (hookOf_Some_range k f h E).
Qed.

Lemma callsFor_runEffects (k : Z) (b : App) :
  callsFor k (runEffects b)
  = (callsFor k b + (if fires k b then 1 else 0))%nat.
Proof.
  unfold runEffects. rewrite !callsFor_runEffect.
  destruct (Z.eq_dec k 1) as [->|H1]; [simpl; lia|].
  destruct (Z.eq_dec k 2) as [->|H2];
    [rewrite fires_runEffect_other by lia; simpl; lia|].
  destruct (Z.eq_dec k 3) as [->|H3];
    [rewrite !fires_runEffect_other by lia; simpl; lia|].
  destruct (Z.eq_dec k 4) as [->|H4];
    [rewrite !fires_runEffect_other by lia; simpl; lia|].
  destruct (fires k b) eqn:Hf; [apply fires_range in Hf; lia|].
  destruct (Z.eqb_spec 1 k); [lia|]. destruct (Z.eqb_spec 2 k); [lia|].
  destruct (Z.eqb_spec 3 k); [lia|]. destruct (Z.eqb_spec 4 k); [lia|].
  simpl. lia.
Qed.

(** Rendering and the effects keep the sum of the requests sent for a step
    and of the request it may still send. *)
Lemma settle_balance (k : Z) (b : App) :
  (callsFor k (settle b) + unrequested k (settle b)
   = callsFor k b + unrequested k (reconcile b))%nat.
Proof.
  unfold settle. rewrite callsFor_runEffects.
  unfold unrequested, fires. rewrite flow_runEffects.
  change (callsFor k (reconcile b)) with (callsFor k b).
  destruct (flow (reconcile b)) as [f|]; simpl; [|lia].
  rewrite hookOf_applyEffects.
  destruct (hookOf k f) as [h|]; simpl; [|lia].
  unfold useStepAnalysis.effect.
  destruct (useStepAnalysis.effectFires k (killChainStep (dash b)) h) eqn:Hf;
    simpl.
  - unfold useStepAnalysis.effectFires in Hf.
    apply andb_true_iff in Hf as (Hf & Hl). apply andb_true_iff in Hf as (_ & Ha).
    apply negb_true_iff in Hl, Ha. rewrite Hl, Ha, orb_true_r. simpl. lia.
  - lia.
Qed.

(** ** What a handler does to the mounted component *)

Lemma hookOf_setShowStep1Fail (k : Z) (b : bool) (f : Flow) :
  hookOf k (setShowStep1Fail b f) = hookOf k f.
Proof. reflexivity. Qed.

Lemma hookOf_setMemo (k : Z) (x y : bool) (z : option string) (f : Flow) :
  hookOf k (setMemo x y z f) = hookOf k f.
Proof. reflexivity. Qed.

Lemma fmap_id_hook (o : option Hook) : (fun h : Hook => h) <$> o = o.
Proof. destruct o; reflexivity. Qed.

Lemma handle_mounted (a : App) (e : Event) (f : Flow) :
  Inv a -> flow a = Some f -> enabled a e = true -> isReset e = false ->
  mounted (dash (handle a e)) = true
  /\ analyzeCalls (handle a e)
     = (if isRetry e
        then killChainStep (dash a) :: analyzeCalls a else analyzeCalls a)
  /\ exists f',
       flow (handle a e) = Some f'
       /\ (showStep1Fail f = true -> showStep1Fail f' = true)
       /\ forall k,
            hookOf k f' = handleHook k (killChainStep (dash a)) e <$> hookOf k f.
Proof.
  intros HI Hf He Hr.
  destruct (Inv_flow_Some a f HI Hf) as (Hm & _ & _).
  assert (Hact : killChainActive (dash a) = true
                 /\ bool_decide (is_Some (data (dash a))) = true).
  { unfold mounted in Hm. apply andb_true_iff in Hm. exact Hm. }
  destruct Hact as (Hact & Hdata).
  assert (Hscr : screen a <> SearchScreen).
  { intros Hs. apply screen_Search in Hs. congruence. }
  destruct e; simpl in He, Hr; try discriminate Hr;
    unfold handle; cbv beta iota zeta;
    try match goal with
        | |- context [if killChainStep (dash a) =? 1 then _ else _] =>
            destruct (killChainStep (dash a) =? 1)
        end;
    try solve [ destruct (screen a); try discriminate He; contradiction
              | split;
                [first [ exact Hm
                       | apply (eq_trans (mounted_goToStep _ _) Hm)
                       | unfold mounted; simpl; rewrite ?Hact, ?Hdata; reflexivity ]
                |split; [reflexivity|]];
                simpl; rewrite Hf; simpl; eexists; (split; [reflexivity|]);
                (split; [auto|]); intros j; simpl;
                rewrite ?fmap_id_hook; reflexivity ].
  - (* ClickRetry *)
    split; [exact Hm|split; [reflexivity|]]. simpl. rewrite Hf. simpl.
    eexists. split; [reflexivity|]. split; [auto|].
    intros j. rewrite hookOf_mapHook. unfold handleHook.
    destruct (j =? _); simpl; rewrite ?fmap_id_hook; reflexivity.
  - (* ClickSave *)
    unfold sendMemo. rewrite Hf.
    destruct (data (dash a)) as [sd|]; [|discriminate Hdata].
    split; [exact Hm|split; [reflexivity|]]. simpl.
    eexists. split; [reflexivity|]. split; [auto|].
    intros j. simpl. rewrite fmap_id_hook. reflexivity.
  - (* FetchOk *)
    split; [exact Hm|split; [reflexivity|]]. simpl. rewrite Hf. simpl.
    eexists. split; [reflexivity|]. split; [auto|].
    intros j. rewrite hookOf_mapHook. unfold handleHook.
    destruct (j =? _); simpl; rewrite ?fmap_id_hook; reflexivity.
  - (* FetchErr *)
    split; [exact Hm|split; [reflexivity|]]. simpl. rewrite Hf. simpl.
    eexists. split; [reflexivity|]. split; [auto|].
    intros j. rewrite hookOf_mapHook. unfold handleHook.
    destruct (j =? _); simpl; rewrite ?fmap_id_hook; reflexivity.
Qed.

Lemma handle_unmounted (a : App) (e : Event) :
  flow a = None ->
  flow (handle a e) = None /\ analyzeCalls (handle a e) = analyzeCalls a
  \/ e = ClickRetry.
Proof.
  intros Hf. destruct e; try (right; reflexivity); left;
    unfold handle; cbv beta iota zeta;
    try match goal with
        | |- context [if killChainStep (dash a) =? 1 then _ else _] =>
            destruct (killChainStep (dash a) =? 1)
        end;
    unfold sendMemo; simpl; rewrite Hf;
    try (destruct (data (dash a)); rewrite ?Hf); split; reflexivity.
Qed.

Lemma enabled_unmounted_retry (a : App) :
  flow a = None -> enabled a ClickRetry = false.
Proof. intros Hf. unfold enabled, screen. rewrite Hf. reflexivity. Qed.

Lemma unrequested_initial (k : Z) : 
  unrequested k {| dash := initialDashboard; flow := Some initialFlow;
                   analyzeCalls := []; memoPosts := [] |} = 1%nat.
Proof.
  unfold unrequested; simpl. unfold hookOf; simpl.
  destruct (k =? 1); [reflexivity|]. destruct (k =? 2); [reflexivity|].
  destruct (k =? 3); [reflexivity|]. destruct (k =? 4); reflexivity.
Qed.

Lemma unrequested_le_1 (k : Z) (a : App) : (unrequested k a <= 1)%nat.
Proof.
  unfold unrequested. destruct (flow a ≫= hookOf k) as [h|]; [|lia].
  destruct (_ || _); lia.
Qed.

(** One event that is not a reset: the requests sent for step [k] together
    with the one it may still send grow by at most the failure, if any,
    that the event reports. *)
Lemma balance_step (k : Z) (a : App) (e : Event) :
  Inv a -> enabled a e = true -> isReset e = false ->
  (callsFor k (step a e) + unrequested k (step a e)
   <= callsFor k a + unrequested k a + (if isFetchErr k e then 1 else 0))%nat.
Proof.
  intros HI He Hr. unfold step. rewrite settle_balance.
  destruct (flow a) as [f|] eqn:Hf.
  - destruct (handle_mounted a e f HI Hf He Hr) as (Hm & Hc & f' & Hf' & _ & Hh).
    destruct (Inv_flow_Some a f HI Hf) as (_ & (_ & Hpre) & _).
    unfold callsFor at 1. rewrite Hc.
    unfold unrequested. simpl. rewrite Hm, Hf', Hf. simpl. rewrite Hh.
    destruct (hookOf k f) as [h|] eqn:Ek; simpl.
    + specialize (Hpre k h Ek). destruct Hpre as (Hp & Ha & Herr).
      destruct e; simpl in *; try discriminate Hr; fold (callsFor k a); try lia.
      * (* ClickRetry *)
        destruct (screen a) eqn:Hs; try discriminate He.
        destruct (screen_Step a _ Hs) as (f0 & Hf0 & _ & Hk0 & _).
        rewrite Hf in Hf0. injection Hf0 as <-. subst k0.
        destruct (Z.eq_dec (killChainStep (dash a)) k) as [Heq|Hne].
        -- rewrite <- Heq, Z.eqb_refl. rewrite Heq. simpl.
           rewrite Hf, Heq in He.
           destruct (hasError_true k f He) as (h0 & E0 & He').
           assert (h0 = h) as -> by congruence.
           destruct (Herr He') as (Hl & Han).
           rewrite Hl, Han. simpl. lia.
        -- destruct (Z.eqb_spec k (killChainStep (dash a))); [congruence|].
           fold (callsFor k a). lia.
      * (* FetchOk *)
        destruct (Z.eqb_spec k k0); [simpl; lia|lia].
      * (* FetchErr *)
        rewrite (Z.eqb_sym k0 k).
        destruct (Z.eqb_spec k k0); [|lia]. simpl.
        destruct (_ || _); destruct (_ || _); lia.
    + destruct e; simpl in *; try discriminate Hr; fold (callsFor k a); try lia.
      destruct (screen a) eqn:Hs; try discriminate He.
      destruct (screen_Step a _ Hs) as (f0 & Hf0 & _ & Hk0 & _).
      rewrite Hf in Hf0. injection Hf0 as <-. subst k0.
      destruct (Z.eq_dec (killChainStep (dash a)) k) as [Heq|Hne].
      * rewrite Hf in He. unfold hasError in He. rewrite Heq, Ek in He.
        discriminate.
      * fold (callsFor k a). lia.
  - destruct (handle_unmounted a e Hf) as [(Hf' & Hc)| ->];
      [|rewrite (enabled_unmounted_retry a Hf) in He; discriminate].
    unfold callsFor at 1. rewrite Hc. fold (callsFor k a).
    pose proof (unrequested_le_1 k (reconcile (handle a e))).
    unfold unrequested at 2. rewrite Hf. simpl. lia.
Qed.

Lemma step_mounted (a : App) (e : Event) (f : Flow) :
  Inv a -> flow a = Some f -> enabled a e = true -> isReset e = false ->
  exists f',
    flow (step a e) = Some f'
    /\ (showStep1Fail f = true -> showStep1Fail f' = true)
    /\ forall k,
         hookOf k f'
         = (fun h => useStepAnalysis.effect k (killChainStep (dash (step a e)))
                       (handleHook k (killChainStep (dash a)) e h))
           <$> hookOf k f.
Proof.
  intros HI Hf He Hr.
  destruct (handle_mounted a e f HI Hf He Hr) as (Hm & _ & f' & Hf' & Hov & Hh).
  rewrite dash_step. unfold step. rewrite flow_settle, Hm, Hf'. simpl.
  eexists. split; [reflexivity|]. split; [exact Hov|].
  intros k. rewrite hookOf_applyEffects, Hh.
  destruct (hookOf k f); reflexivity.
Qed.

Lemma callsFor_step_ge (k : Z) (a : App) (e : Event) :
  (callsFor k a <= callsFor k (step a e))%nat.
Proof.
  unfold step, settle. rewrite callsFor_runEffects.
  change (callsFor k (reconcile (handle a e))) with (callsFor k (handle a e)).
  assert (callsFor k a <= callsFor k (handle a e))%nat; [|lia].
  unfold callsFor. destruct e; unfold handle; cbv beta iota zeta;
    try match goal with
        | |- context [if killChainStep (dash a) =? 1 then _ else _] =>
            destruct (killChainStep (dash a) =? 1)
        end; simpl; try lia.
  - destruct (Z.eq_dec _ _); lia.
  - unfold sendMemo. destruct (data (dash a)), (flow a); simpl; lia.
Qed.

(** *** Runs *)

Lemma run_Inv (a a' : App) (es : list Event) :
  Inv a -> run a es = Some a' -> Inv a'.
Proof.
  revert a. induction es as [|e es IH]; intros a HI Hrun; simpl in Hrun.
  - injection Hrun as <-. exact HI.
  - destruct (enabled a e) eqn:He; [|discriminate].
    apply (IH (step a e)); [apply Inv_step; assumption|exact Hrun].
Qed.

Lemma run_reachable (a a' : App) (es : list Event) :
  reachable a -> run a es = Some a' -> reachable a'.
Proof.
  revert a. induction es as [|e es IH]; intros a HI Hrun; simpl in Hrun.
  - injection Hrun as <-. exact HI.
  - destruct (enabled a e) eqn:He; [|discriminate].
    apply (IH (step a e)); [apply reachable_step; assumption|exact Hrun].
Qed.

Lemma balance_run (k : Z) (es : list Event) (a a' : App) :
  Inv a -> run a es = Some a' -> noReset es = true ->
  (callsFor k a' + unrequested k a'
   <= callsFor k a + unrequested k a + failuresFor k es)%nat.
Proof.
  revert a. induction es as [|e es IH]; intros a HI Hrun Hnr; simpl in *.
  - injection Hrun as <-. unfold failuresFor. simpl. lia.
  - destruct (enabled a e) eqn:He; [|discriminate].
    apply andb_true_iff in Hnr as (Hr & Hnr). apply negb_true_iff in Hr.
    pose proof (balance_step k a e HI He Hr) as H1.
    pose proof (IH (step a e) (Inv_step a e HI He) Hrun Hnr) as H2.
    unfold failuresFor in *. simpl.
    destruct (isFetchErr k e) eqn:Hfe; simpl; lia.
Qed.

(** A hook that holds an analysis is left alone by every event but reset. *)
Lemma cached_step (k : Z) (a : App) (e : Event) (f : Flow) (h : Hook) :
  Inv a -> flow a = Some f -> hookOf k f = Some h ->
  is_Some (useStepAnalysis.analysis h) ->
  enabled a e = true -> isReset e = false ->
  callsFor k (step a e) = callsFor k a
  /\ exists f', flow (step a e) = Some f' /\ hookOf k f' = Some h.
Proof.
  intros HI Hf Hk Han He Hr.
  destruct (Inv_flow_Some a f HI Hf) as (_ & (_ & Hpre) & _).
  destruct (Hpre k h Hk) as (Hp & Hl & Herr). specialize (Hl Han).
  rewrite Hl in Hp.
  assert (Hne : useStepAnalysis.error h = None).
  { destruct (useStepAnalysis.error h) eqn:E; [|reflexivity].
    destruct (Herr (ex_intro _ _ eq_refl)) as (_ & Hn).
    rewrite Hn in Han. destruct Han; discriminate. }
  assert (Hhh : handleHook k (killChainStep (dash a)) e h = h).
  { destruct e; simpl in *; try reflexivity.
    - destruct (screen a) eqn:Hs; try discriminate He.
      destruct (screen_Step a _ Hs) as (_ & _ & _ & Hk0 & _). subst k0.
      destruct (Z.eqb_spec k (killChainStep (dash a))) as [->|]; [|reflexivity].
      rewrite Hf in He. unfold hasError in He. rewrite Hk, Hne in He.
      discriminate.
    - destruct (Z.eqb_spec k k0) as [<-|]; [|reflexivity].
      rewrite Hf in He. unfold hasPending in He. rewrite Hk, Hp in He.
      discriminate.
    - destruct (Z.eqb_spec k k0) as [<-|]; [|reflexivity].
      rewrite Hf in He. unfold hasPending in He. rewrite Hk, Hp in He.
      discriminate. }
  destruct (step_mounted a e f HI Hf He Hr) as (f' & Hf' & _ & Hh).
  assert (Hk' : hookOf k f' = Some h).
  { rewrite Hh, Hk. simpl. rewrite Hhh.
    unfold useStepAnalysis.effect, useStepAnalysis.effectFires.
    rewrite (bool_decide_eq_true_2 _ Han), andb_false_r. reflexivity. }
  split; [|eauto].
  pose proof (balance_step k a e HI He Hr) as Hb.
  pose proof (callsFor_step_ge k a e) as Hge.
  assert (Hfe : isFetchErr k e = false).
  { destruct e; try reflexivity. simpl in *.
    destruct (Z.eqb_spec k0 k) as [->|]; [|reflexivity].
    rewrite Hf in He. unfold hasPending in He. rewrite Hk, Hp in He.
    discriminate. }
  rewrite Hfe in Hb.
  assert (Hu : unrequested k a = 0%nat).
  { unfold unrequested. rewrite Hf. simpl. rewrite Hk.
    rewrite (bool_decide_eq_true_2 _ Han). reflexivity. }
  lia.
Qed.

Lemma cached_run (k : Z) (es : list Event) (a a' : App) (f : Flow) (h : Hook) :
  Inv a -> flow a = Some f -> hookOf k f = Some h ->
  is_Some (useStepAnalysis.analysis h) ->
  run a es = Some a' -> noReset es = true ->
  callsFor k a' = callsFor k a
  /\ exists f', flow a' = Some f' /\ hookOf k f' = Some h.
Proof.
  revert a f. induction es as [|e es IH]; intros a f HI Hf Hk Han Hrun Hnr;
    simpl in *.
  - injection Hrun as <-. eauto.
  - destruct (enabled a e) eqn:He; [|discriminate].
    apply andb_true_iff in Hnr as (Hr & Hnr). apply negb_true_iff in Hr.
    destruct (cached_step k a e f h HI Hf Hk Han He Hr) as (Hc & f1 & Hf1 & Hk1).
    destruct (IH (step a e) f1 (Inv_step a e HI He) Hf1 Hk1 Han Hrun Hnr)
      as (Hc' & Hex).
    split; [lia|exact Hex].
Qed.

Lemma callsFor_step_mounted (k : Z) (a : App) (e : Event) (f : Flow) (h : Hook) :
  Inv a -> flow a = Some f -> hookOf k f = Some h ->
  enabled a e = true -> isReset e = false ->
  callsFor k (step a e)
  = (callsFor k a
     + (if isRetry e && (killChainStep (dash a) =? k)%Z then 1 else 0)
     + (if useStepAnalysis.effectFires k (killChainStep (dash (step a e)))
             (handleHook k (killChainStep (dash a)) e h)
        then 1 else 0))%nat.
Proof.
  intros HI Hf Hk He Hr.
  destruct (handle_mounted a e f HI Hf He Hr) as (Hm & Hc & f' & Hf' & _ & Hh).
  rewrite dash_step. unfold step, settle. rewrite callsFor_runEffects.
  change (callsFor k (reconcile (handle a e))) with (callsFor k (handle a e)).
  unfold fires. simpl. rewrite Hm, Hf'. simpl. rewrite Hh, Hk. simpl.
  unfold callsFor at 1. rewrite Hc.
  destruct (isRetry e); simpl; fold (callsFor k a); [|lia].
  destruct (Z.eq_dec (killChainStep (dash a)) k) as [Heq|Hne].
  - rewrite (proj2 (Z.eqb_eq _ _) Heq). lia.
  - rewrite (proj2 (Z.eqb_neq _ _) Hne). lia.
Qed.

(** A failed response leaves no analysis behind; when the step is on
    display the effect sends the next request at once. *)
Lemma failure_step (k : Z) (msg : string) (a : App) :
  Inv a -> enabled a (FetchErr k msg) = true ->
  exists f h f' h',
    flow a = Some f /\ hookOf k f = Some h
    /\ flow (step a (FetchErr k msg)) = Some f' /\ hookOf k f' = Some h'
    /\ useStepAnalysis.analysis h' = None
    /\ killChainStep (dash (step a (FetchErr k msg))) = killChainStep (dash a)
    /\ (killChainStep (dash a) = k ->
          callsFor k (step a (FetchErr k msg)) = S (callsFor k a))
    /\ (killChainStep (dash a) <> k ->
          callsFor k (step a (FetchErr k msg)) = callsFor k a
          /\ useStepAnalysis.loading h' = false
          /\ useStepAnalysis.error h' = Some msg).
Proof.
  intros HI He. pose proof He as He0. simpl in He.
  destruct (flow a) as [f|] eqn:Hf; [|discriminate].
  unfold hasPending in He. destruct (hookOf k f) as [h|] eqn:Hk; [|discriminate].
  apply negb_true_iff, Nat.eqb_neq in He.
  destruct (Inv_flow_Some a f HI Hf) as (_ & (_ & Hpre) & _).
  destruct (HookPre_pending_loading h (Hpre k h Hk) He) as (Hl & Hp & Han & Herr).
  destruct (step_mounted a (FetchErr k msg) f HI Hf He0 eq_refl)
    as (f' & Hf' & _ & Hh).
  pose proof (callsFor_step_mounted k a (FetchErr k msg) f h HI Hf Hk He0 eq_refl)
    as Hc.
  assert (Hd : killChainStep (dash (step a (FetchErr k msg)))
               = killChainStep (dash a)) by (rewrite dash_step; reflexivity).
  rewrite Hd in Hc, Hh. specialize (Hh k). rewrite Hk in Hh. simpl in Hh, Hc.
  rewrite Z.eqb_refl in Hh, Hc.
  unfold useStepAnalysis.effect in Hh.
  unfold useStepAnalysis.effectFires in Hh, Hc. simpl in Hh, Hc.
  rewrite Han in Hh, Hc. simpl in Hh, Hc.
  exists f, h, f'.
  destruct (Z.eqb_spec (killChainStep (dash a)) k) as [Heq|Hne]; simpl in Hh, Hc.
  - exists (useStepAnalysis.fetch_ (useStepAnalysis.fetch_rejected msg h)).
    refine (conj eq_refl (conj Hk (conj Hf' (conj Hh (conj Han (conj Hd (conj _ _))))))).
    + intros _. lia.
    + intros Hx. contradiction.
  - exists (useStepAnalysis.fetch_rejected msg h).
    refine (conj eq_refl (conj Hk (conj Hf' (conj Hh (conj Han (conj Hd (conj _ _))))))).
    + intros Hx. contradiction.
    + intros _. split; [lia|split; reflexivity].
Qed.

(** Coming back to a step that has neither an analysis nor a request in
    flight sends a request. *)
Lemma revisit_requests (k : Z) (a : App) (e : Event) (f : Flow) (h : Hook) :
  Inv a -> flow a = Some f -> hookOf k f = Some h ->
  useStepAnalysis.analysis h = None -> useStepAnalysis.loading h = false ->
  enabled a e = true -> isReset e = false ->
  killChainStep (dash a) <> k -> killChainStep (dash (step a e)) = k ->
  callsFor k (step a e) = S (callsFor k a).
Proof.
  intros HI Hf Hk Han Hl He Hr Hne Hnow.
  destruct (Inv_flow_Some a f HI Hf) as (_ & (_ & Hpre) & _).
  destruct (Hpre k h Hk) as (Hp & _ & _). rewrite Hl in Hp.
  rewrite (callsFor_step_mounted k a e f h HI Hf Hk He Hr), Hnow.
  rewrite (proj2 (Z.eqb_neq _ _) Hne), andb_false_r.
  assert (Hhh : handleHook k (killChainStep (dash a)) e h = h).
  { destruct e; simpl in *; try reflexivity.
    - destruct (Z.eqb_spec k (killChainStep (dash a))); [congruence|reflexivity].
    - destruct (Z.eqb_spec k k0) as [<-|]; [|reflexivity].
      rewrite Hf in He. unfold hasPending in He. rewrite Hk, Hp in He.
      discriminate.
    - destruct (Z.eqb_spec k k0) as [<-|]; [|reflexivity].
      rewrite Hf in He. unfold hasPending in He. rewrite Hk, Hp in He.
      discriminate. }
  rewrite Hhh. unfold useStepAnalysis.effectFires.
  rewrite Z.eqb_refl, Han, Hl. simpl. lia.
Qed.

Lemma reachable_afterRun (es : list Event) :
  is_Some (run initialApp es) -> reachable (afterRun es).
Proof.
  intros [a Ha]. unfold afterRun. rewrite Ha. simpl.
  apply (run_reachable initialApp a es); [apply reachable_init|exact Ha].
Qed.

(** ** Caching of the analyses *)

(** A successful response is stored: the hook holds the body, the spinner
    is gone, and no request is sent. *)
Lemma success_step (k : Z) (json : Analysis) (a : App) :
  Inv a -> enabled a (FetchOk k json) = true ->
  exists f h f',
    flow a = Some f /\ hookOf k f = Some h
    /\ flow (step a (FetchOk k json)) = Some f'
    /\ hookOf k f' = Some (useStepAnalysis.fetch_resolved json h)
    /\ useStepAnalysis.error h = None
    /\ callsFor k (step a (FetchOk k json)) = callsFor k a.
Proof.
  intros HI He. pose proof He as He0. simpl in He.
  destruct (flow a) as [f|] eqn:Hf; [|discriminate].
  unfold hasPending in He. destruct (hookOf k f) as [h|] eqn:Hk; [|discriminate].
  apply negb_true_iff, Nat.eqb_neq in He.
  destruct (Inv_flow_Some a f HI Hf) as (_ & (_ & Hpre) & _).
  destruct (HookPre_pending_loading h (Hpre k h Hk) He) as (Hl & Hp & Han & Herr).
  destruct (step_mounted a (FetchOk k json) f HI Hf He0 eq_refl)
    as (f' & Hf' & _ & Hh).
  pose proof (callsFor_step_mounted k a (FetchOk k json) f h HI Hf Hk He0 eq_refl)
    as Hc.
  specialize (Hh k). rewrite Hk in Hh. simpl in Hh, Hc.
  rewrite Z.eqb_refl in Hh, Hc.
  unfold useStepAnalysis.effect, useStepAnalysis.effectFires in Hh.
  unfold useStepAnalysis.effectFires in Hc. simpl in Hh, Hc.
  rewrite andb_false_r in Hh, Hc. simpl in Hh, Hc.
  exists f, h, f'.
  refine (conj eq_refl (conj Hk (conj Hf' (conj Hh (conj Herr _))))). lia.
Qed.

(** C6, at the failing input.  The analyze endpoint fails three times for
    step 1 and nothing is clicked: four requests have been sent for the
    step, one after each failed response, by the effect alone.  The message
    of the failure is gone as soon as it is set and the retry button cannot
    be clicked: the page shows the spinner of the fourth request. *)
Theorem analysis_rerequested_without_click :
  let failed := FetchErr 1 "Failed to analyze business" in
  let start := [SubmitSearch; SearchOk Sample.KO; ClickStart] in
  let a := afterRun (start ++ [failed; failed; failed])%list in
  reachable a
  /\ isClick failed = false
  /\ callsFor 1 (afterRun start) = 1%nat
  /\ callsFor 1 (afterRun (start ++ [failed])%list) = 2%nat
  /\ callsFor 1 a = 4%nat
  /\ screen a = StepScreen 1
  /\ enabled (afterRun (start ++ [failed])%list) ClickRetry = false
  /\ enabled a ClickRetry = false
  /\ exists f h, flow a = Some f /\ hookOf 1 f = Some h
                 /\ useStepAnalysis.analysis h = None
                 /\ useStepAnalysis.error h = None
                 /\ useStepAnalysis.loading h = true.
Proof.
  cbv zeta.
  assert (H0 : reachable
                 (afterRun ([SubmitSearch; SearchOk Sample.KO; ClickStart]
                            ++ [FetchErr 1 "Failed to analyze business";
                                FetchErr 1 "Failed to analyze business";
                                FetchErr 1 "Failed to analyze business"])%list)).
  { apply reachable_afterRun. vm_compute. eauto. }
  refine (conj H0 (conj eq_refl _)).
  split; [vm_compute; reflexivity|]. split; [vm_compute; reflexivity|].
  split; [vm_compute; reflexivity|]. split; [vm_compute; reflexivity|].
  split; [vm_compute; reflexivity|]. split; [vm_compute; reflexivity|].
  vm_compute. eexists. eexists. split; [reflexivity|].
  split; [reflexivity|]. split; [reflexivity|]. split; reflexivity.
Qed.

(** ** Reset *)

Lemma step_reset (a : App) :
  step a ClickReset
  = {| dash := resetKillChain (dash a); flow := None;
       analyzeCalls := analyzeCalls a; memoPosts := memoPosts a |}.
Proof. reflexivity. Qed.

(** C5.  Whatever the state, the reset handler followed by the re-render
    leaves an empty ledger, step 1 and no mounted kill-chain component, so
    that none of the four analyses survives; the run started next begins
    with four empty hooks and sends the request for step 1 again. *)
Theorem reset_yields_initial (a : App) :
  let a' := step a ClickReset in
  stepResults (dash a') = []
  /\ killChainStep (dash a') = 1
  /\ killChainActive (dash a') = false
  /\ flow a' = None
  /\ screen a' = SearchScreen
  /\ (is_Some (data (dash a)) ->
        let a2 := step a' ClickStart in
        enabled a' ClickStart = true
        /\ flow a2 = Some (mapHook 1 useStepAnalysis.fetch_ initialFlow)
        /\ (forall k f2, flow a2 = Some f2 -> hasAnalysis k f2 = false)
        /\ analyzeCalls a2 = 1 :: analyzeCalls a
        /\ stepResults (dash a2) = []
        /\ killChainStep (dash a2) = 1).
Proof.
  cbv zeta. rewrite step_reset. simpl.
  repeat (split; [reflexivity|]).
  intros [sd Hsd].
  assert (Hflow : flow (step {| dash := resetKillChain (dash a); flow := None;
                               analyzeCalls := analyzeCalls a;
                               memoPosts := memoPosts a |} ClickStart)
                  = Some (mapHook 1 useStepAnalysis.fetch_ initialFlow)).
  { unfold step, handle, settle, reconcile, mounted. simpl. rewrite Hsd. reflexivity. }
  split; [unfold screen; simpl; rewrite Hsd; reflexivity|].
  split; [exact Hflow|].
  split.
  { intros k f2. rewrite Hflow. intros [= <-].
    unfold hasAnalysis, hookOf. simpl.
    destruct (k =? 1); [reflexivity|]. destruct (k =? 2); [reflexivity|].
    destruct (k =? 3); [reflexivity|]. destruct (k =? 4); reflexivity. }
  split; [|split; rewrite dash_step; reflexivity].
  unfold step, handle, settle, reconcile, mounted. simpl. rewrite Hsd. reflexivity.
Qed.

Lemma reset_yields_initial_witness :
  let a := afterRun Sample.fourPasses in
  is_Some (data (dash a))
  /\ stepResults (dash (step a ClickReset)) = []
  /\ killChainStep (dash (step a ClickReset)) = 1
  /\ flow (step a ClickReset) = None
  /\ analyzeCalls (step (step a ClickReset) ClickStart) = 1 :: analyzeCalls a.
Proof.
  cbv zeta.
  assert (Hd : is_Some (data (dash (afterRun Sample.fourPasses))))
    by (vm_compute; eauto).
  destruct (reset_yields_initial (afterRun Sample.fourPasses))
    as (H1 & H2 & _ & H4 & _ & Hnext).
  destruct (Hnext Hd) as (_ & _ & _ & H5 & _).
  exact (conj Hd (conj H1 (conj H2 (conj H4 H5)))).
Defined.

(** ** The ledger *)

(** C10.  In a reachable state an unsure outcome can only be the first
    entry of the ledger: every later entry is a pass or a fail; and the
    UNSURE button is only offered on step 1. *)
Theorem unsure_only_first (a : App) :
  reachable a ->
  (forall i r, stepResults (dash a) !! i = Some r -> (1 <= i)%nat ->
     passed r = Some true \/ passed r = Some false)
  /\ (forall i r, stepResults (dash a) !! i = Some r -> passed r = None ->
        i = 0%nat)
  /\ (enabled a ClickUnsure = true -> killChainStep (dash a) = 1).
Proof.
  intros Hreach. pose proof (reachable_Inv a Hreach) as HI.
  assert (Hmain : forall i r, stepResults (dash a) !! i = Some r ->
                    passed r = None -> i = 0%nat).
  { intros i r Hi Hp. destruct (flow a) as [f|] eqn:Hf.
    - destruct (Inv_flow_Some a f HI Hf) as (_ & (Hl & _) & _).
      unfold LedgerOk in Hl. destruct (showStep1Fail f).
      + destruct Hl as (_ & r0 & Hrs & _). rewrite Hrs in Hi.
        destruct i; [reflexivity|]. discriminate.
      + exfalso. apply (Hl r); [|exact Hp].
        apply list_elem_of_In. apply list_elem_of_lookup. eauto.
    - destruct (Inv_flow_None a HI Hf) as (_ & _ & Hrs). rewrite Hrs in Hi.
      discriminate. }
  split; [|split; [exact Hmain|]].
  - intros i r Hi Hge. destruct (passed r) as [[|]|] eqn:Hp; auto.
    specialize (Hmain i r Hi Hp). lia.
  - simpl. intros H. apply andb_true_iff in H as (_ & H).
    apply Z.eqb_eq, H.
Qed.

Lemma unsure_only_first_witness :
  let a := afterRun (Sample.toStep1
                     ++ [ClickPass; FetchOk 2 (Sample.an 2); ClickFail;
                         FetchOk 3 (Sample.an 3); ClickPass;
                         FetchOk 4 (Sample.an 4); ClickFail])%list in
  let b := afterRun (Sample.toStep1 ++ [ClickUnsure])%list in
  (reachable a /\ reachable b
   /\ enabled (afterRun Sample.toStep1) ClickUnsure = true)
  /\ (map passed (stepResults (dash a))
      = [Some true; Some false; Some true; Some false]
      /\ forall i r, stepResults (dash a) !! i = Some r -> (1 <= i)%nat ->
           passed r = Some true \/ passed r = Some false)
  /\ (map passed (stepResults (dash b)) = [None]
      /\ forall i r, stepResults (dash b) !! i = Some r -> passed r = None ->
           i = 0%nat)
  /\ killChainStep (dash (afterRun Sample.toStep1)) = 1.
Proof.
  cbv zeta.
  assert (Ha : reachable
                 (afterRun (Sample.toStep1
                            ++ [ClickPass; FetchOk 2 (Sample.an 2); ClickFail;
                                FetchOk 3 (Sample.an 3); ClickPass;
                                FetchOk 4 (Sample.an 4); ClickFail])%list)).
  { apply reachable_afterRun. vm_compute. eauto. }
  assert (Hb : reachable (afterRun (Sample.toStep1 ++ [ClickUnsure])%list)).
  { apply reachable_afterRun. vm_compute. eauto. }
  assert (Hc : reachable (afterRun Sample.toStep1)).
  { apply reachable_afterRun. vm_compute. eauto. }
  assert (He : enabled (afterRun Sample.toStep1) ClickUnsure = true)
    by (vm_compute; reflexivity).
  assert (Hla : map passed
                  (stepResults
                     (dash (afterRun
                              (Sample.toStep1
                               ++ [ClickPass; FetchOk 2 (Sample.an 2); ClickFail;
                                   FetchOk 3 (Sample.an 3); ClickPass;
                                   FetchOk 4 (Sample.an 4); ClickFail])%list)))
                = [Some true; Some false; Some true; Some false])
    by (vm_compute; reflexivity).
  assert (Hlb : map passed
                  (stepResults
                     (dash (afterRun (Sample.toStep1 ++ [ClickUnsure])%list)))
                = [None])
    by (vm_compute; reflexivity).
  exact (conj (conj Ha (conj Hb He))
           (conj (conj Hla (proj1 (unsure_only_first _ Ha)))
              (conj (conj Hlb (proj1 (proj2 (unsure_only_first _ Hb))))
                 (proj2 (proj2 (unsure_only_first _ Hc)) He)))).
Defined.

(** ** Decisions and the review mode *)

Lemma stepResults_goToStep (n : Z) (d : Dashboard) :
  stepResults (goToStep n d) = stepResults d.
Proof. apply goToStep_spec. Qed.

Lemma sendMemo_dash (a : App) : dash (sendMemo a) = dash a.
Proof. unfold sendMemo. destruct (data (dash a)), (flow a); reflexivity. Qed.

(** C2, as the code has it.  In a reachable state whose step counter is
    not at the frontier of the ledger, none of the three decision buttons is
    rendered, and no event that can happen there changes the ledger. *)
Theorem decide_offered_only_at_frontier (a : App) :
  reachable a ->
  killChainStep (dash a) <> Z.of_nat (length (stepResults (dash a))) + 1 ->
  enabled a ClickPass = false
  /\ enabled a ClickFail = false
  /\ enabled a ClickUnsure = false
  /\ forall e, enabled a e = true ->
       stepResults (dash (step a e)) = stepResults (dash a).
Proof.
  intros Hreach Hne. pose proof (reachable_Inv a Hreach) as HI.
  assert (Hoff : decisionOffered a = false).
  { destruct (decisionOffered a) eqn:Hd; [|reflexivity].
    destruct (decisionOffered_frontier a HI Hd) as (Hk & _).
    unfold activeStep in Hk. contradiction. }
  split; [exact Hoff|]. split; [exact Hoff|].
  split; [simpl; rewrite Hoff; reflexivity|].
  intros e He. rewrite dash_step.
  destruct e; simpl in He; rewrite ?Hoff in He; try discriminate He;
    unfold handle; cbv beta iota zeta; simpl;
    rewrite ?stepResults_goToStep, ?sendMemo_dash; try reflexivity.
  - (* ClickStart *)
    destruct (screen a) eqn:Hs; try discriminate He.
    destruct (Inv_flow_None a HI (screen_Search a Hs)) as (_ & _ & ->).
    reflexivity.
  - (* ClickReset *)
    exfalso. destruct (screen a) eqn:Hs; try discriminate He.
    + apply screen_Disqualified in Hs as (f & Hf & Hov).
      destruct (Inv_flow_Some a f HI Hf) as (_ & (Hl & _) & _).
      unfold LedgerOk in Hl. rewrite Hov in Hl.
      destruct Hl as (Hk & r & Hrs & _). rewrite Hrs, Hk in Hne. simpl in Hne. lia.
    + destruct (screen_Summary a Hs) as (f & Hf & _ & Hk).
      destruct (Inv_flow_Some a f HI Hf) as (_ & _ & ((Hlo & Hhi) & _)).
      unfold activeStep in *. lia.
Qed.

Lemma decide_offered_only_at_frontier_witness :
  let a := afterRun (Sample.toStep1 ++ [ClickPass; ClickBack]) in
  reachable a
  /\ killChainStep (dash a) <> Z.of_nat (length (stepResults (dash a))) + 1
  /\ enabled a ClickPass = false
  /\ enabled a ClickFail = false
  /\ enabled a ClickUnsure = false.
Proof.
  cbv zeta.
  assert (Hreach : reachable (afterRun (Sample.toStep1 ++ [ClickPass; ClickBack]))).
  { apply reachable_afterRun. vm_compute. eauto. }
  assert (Hne : killChainStep (dash (afterRun (Sample.toStep1 ++ [ClickPass; ClickBack])))
                <> Z.of_nat (length (stepResults
                     (dash (afterRun (Sample.toStep1 ++ [ClickPass; ClickBack]))))) + 1).
  { vm_compute. discriminate. }
  destruct (decide_offered_only_at_frontier _ Hreach Hne) as (H1 & H2 & H3 & _).
  exact (conj Hreach (conj Hne (conj H1 (conj H2 H3)))).
Defined.

(** The handlers themselves have no guard: called in review mode, on step 1
    of a ledger that already holds an outcome, each of them appends and
    increments. *)
Lemma decide_handlers_unguarded :
  let d := goToStep 1 (handleStepPass None (startKillChain initialDashboard)) in
  killChainStep d <> Z.of_nat (length (stepResults d)) + 1
  /\ (stepResults (handleStepPass None d) <> stepResults d
      /\ killChainStep (handleStepPass None d) <> killChainStep d)
  /\ (stepResults (handleStepFail None d) <> stepResults d
      /\ killChainStep (handleStepFail None d) <> killChainStep d)
  /\ (stepResults (handleStepUnsure None d) <> stepResults d
      /\ killChainStep (handleStepUnsure None d) <> killChainStep d).
Proof.
  cbv zeta. vm_compute. repeat split; discriminate.
Qed.

(** ** The step-1 overlay *)

Lemma disqualified_clicks (a : App) (e : Event) :
  screen a = Disqualified -> enabled a e = true -> isClick e = true ->
  e = ClickReset.
Proof.
  intros Hs He Hc.
  destruct e; simpl in *; unfold decisionOffered in *; rewrite ?Hs in He;
    simpl in He; try discriminate; reflexivity.
Qed.

Lemma response_keeps_ledger (a : App) (e : Event) :
  isClick e = false ->
  stepResults (dash (handle a e)) = stepResults (dash a)
  /\ killChainStep (dash (handle a e)) = killChainStep (dash a).
Proof.
  destruct e; simpl; try discriminate; intros _; split; reflexivity.
Qed.

Lemma disqualified_step (a : App) (e : Event) :
  Inv a -> screen a = Disqualified -> enabled a e = true -> isReset e = false ->
  screen (step a e) = Disqualified
  /\ stepResults (dash (step a e)) = stepResults (dash a)
  /\ killChainStep (dash (step a e)) = killChainStep (dash a).
Proof.
  intros HI Hs He Hr.
  destruct (proj1 (screen_Disqualified a) Hs) as (f & Hf & Hov).
  destruct (step_mounted a e f HI Hf He Hr) as (f' & Hf' & Hov' & _).
  split; [apply screen_Disqualified; eauto|].
  rewrite dash_step. apply response_keeps_ledger.
  destruct (isClick e) eqn:Hc; [|reflexivity].
  rewrite (disqualified_clicks a e Hs He Hc) in Hr. discriminate.
Qed.

Lemma disqualified_run (es : list Event) (a a' : App) :
  Inv a -> screen a = Disqualified -> run a es = Some a' -> noReset es = true ->
  screen a' = Disqualified
  /\ stepResults (dash a') = stepResults (dash a)
  /\ killChainStep (dash a') = killChainStep (dash a).
Proof.
  revert a. induction es as [|e es IH]; intros a HI Hs Hrun Hnr; simpl in *.
  - injection Hrun as <-. auto.
  - destruct (enabled a e) eqn:He; [|discriminate].
    apply andb_true_iff in Hnr as (Hr & Hnr). apply negb_true_iff in Hr.
    destruct (disqualified_step a e HI Hs He Hr) as (Hs1 & Hrs1 & Hk1).
    destruct (IH (step a e) (Inv_step a e HI He) Hs1 Hrun Hnr) as (H1 & H2 & H3).
    split; [exact H1|]. split; congruence.
Qed.

Lemma goToStep_same (d : Dashboard) : goToStep (killChainStep d) d = d.
Proof.
  unfold goToStep. destruct (_ && _); [|reflexivity]. destruct d; reflexivity.
Qed.

(** A fail or an unsure on step 1: what the handlers leave behind. *)
Lemma step1_decline (a : App) (e : Event) :
  Inv a -> enabled a e = true -> killChainStep (dash a) = 1 ->
  e = ClickFail \/ e = ClickUnsure ->
  screen (step a e) = Disqualified
  /\ killChainStep (dash (step a e)) = 2
  /\ exists r, stepResults (dash (step a e)) = [r] /\ passed r <> Some true.
Proof.
  intros HI He Hk Hwhich.
  assert (Hd : decisionOffered a = true).
  { destruct Hwhich as [-> | ->]; simpl in He; [exact He|].
    apply andb_true_iff in He. apply He. }
  destruct (decisionOffered_true a Hd) as (f & Hf & _ & _ & _).
  destruct (decisionOffered_frontier a HI Hd) as (Hfr & _).
  assert (Hrs : stepResults (dash a) = []).
  { unfold activeStep in Hfr. destruct (stepResults (dash a)); [reflexivity|].
    simpl length in Hfr. lia. }
  destruct (Inv_flow_Some a f HI Hf) as (Hm & _ & _).
  assert (Hscr : forall b, mounted (dash b) = true ->
            (exists f0, flow b = Some f0 /\ showStep1Fail f0 = true) ->
            screen (settle b) = Disqualified).
  { intros b Hmb (f0 & Hf0 & Hov0). apply screen_Disqualified.
    rewrite flow_settle, Hmb, Hf0. simpl. eauto. }
  destruct Hwhich as [-> | ->]; unfold step; rewrite dash_settle;
    unfold handle; cbv beta iota zeta; rewrite ?Hk; simpl; rewrite ?Hk, Hrs; simpl.
  - split; [|split; [reflexivity|eexists; split; [reflexivity|discriminate]]].
    apply Hscr; [exact Hm|]. simpl. rewrite Hf. simpl. eauto.
  - split; [|split; [reflexivity|eexists; split; [reflexivity|discriminate]]].
    apply Hscr; [exact Hm|]. simpl. rewrite Hf. simpl. eauto.
Qed.

(** A fail on one of the later steps moves on like a pass. *)
Lemma later_fail_proceeds (a : App) :
  Inv a -> enabled a ClickFail = true -> 2 <= killChainStep (dash a) <= 4 ->
  screen (step a ClickFail)
  = (if killChainStep (dash a) =? 4 then Summary
     else StepScreen (killChainStep (dash a) + 1))
  /\ killChainStep (dash (step a ClickFail)) = killChainStep (dash a) + 1
  /\ exists n, stepResults (dash (step a ClickFail))
               = (stepResults (dash a)
                  ++ [ {| passed := Some false; notes := n |} ])%list.
Proof.
  intros HI He Hk. simpl in He.
  destruct (decisionOffered_true a He) as (f & Hf & Hov & _ & _).
  destruct (Inv_flow_Some a f HI Hf) as (Hm & _ & _).
  unfold step. unfold screen. rewrite dash_settle, flow_settle.
  unfold handle; cbv beta iota zeta.
  destruct (Z.eqb_spec (killChainStep (dash a)) 1) as [H1|H1]; [lia|].
  unfold onDash, handleStepFail. cbn [dash flow].
  rewrite mounted_recordOutcome, Hm, Hf. simpl. rewrite Hov.
  split; [|split; [reflexivity|eauto]].
  destruct (Z.eqb_spec (killChainStep (dash a)) 4) as [H4|H4].
  - rewrite H4. reflexivity.
  - destruct (Z.eqb_spec (killChainStep (dash a) + 1) 5); [lia|reflexivity].
Qed.

(** C4, as the code has it.  A fail or an unsure on step 1 raises the
    overlay: the page shown is the disqualified one and not step 2.
    Underneath the handler has run like any other: the step counter is 2
    and the ledger holds the one outcome.  [goToStep] to any of 2..5 leaves
    the state as it is (2 is where the counter stands, 3..5 are out of
    range); the only button rendered is the one that resets; along every
    run without reset the page stays the disqualified one, the counter
    stays 2 and the ledger keeps its single outcome; reset brings back the
    search page.  A fail on step 2, 3 or 4 raises nothing: the run moves on
    to the next step, or to the summary after step 4. *)
Theorem step1_decline_disqualifies (a : App) (e : Event) :
  reachable a -> enabled a e = true ->
  (killChainStep (dash a) = 1 -> e = ClickFail \/ e = ClickUnsure ->
     let a1 := step a e in
     screen a1 = Disqualified
     /\ killChainStep (dash a1) = 2
     /\ (exists r, stepResults (dash a1) = [r] /\ passed r <> Some true)
     /\ (forall n, 2 <= n <= 5 -> goToStep n (dash a1) = dash a1)
     /\ (forall e', enabled a1 e' = true -> isClick e' = true -> e' = ClickReset)
     /\ enabled a1 ClickReset = true
     /\ (forall es a2, run a1 es = Some a2 -> noReset es = true ->
           screen a2 = Disqualified
           /\ killChainStep (dash a2) = 2
           /\ stepResults (dash a2) = stepResults (dash a1)
           /\ length (stepResults (dash a2)) = 1%nat)
     /\ screen (step a1 ClickReset) = SearchScreen
     /\ stepResults (dash (step a1 ClickReset)) = [])
  /\ (2 <= killChainStep (dash a) <= 4 -> e = ClickFail ->
        screen (step a e)
        = (if killChainStep (dash a) =? 4 then Summary
           else StepScreen (killChainStep (dash a) + 1))
        /\ killChainStep (dash (step a e)) = killChainStep (dash a) + 1
        /\ exists n, stepResults (dash (step a e))
                     = (stepResults (dash a)
                        ++ [ {| passed := Some false; notes := n |} ])%list).
Proof.
  intros Hreach He. pose proof (reachable_Inv a Hreach) as HI. split.
  - intros Hk Hwhich. cbv zeta.
    destruct (step1_decline a e HI He Hk Hwhich) as (Hs & Hk2 & r & Hrs & Hr).
    pose proof (Inv_step a e HI He) as HI1.
    split; [exact Hs|]. split; [exact Hk2|]. split; [eauto|].
    split; [|split; [|split; [|split; [|split]]]].
    + intros n Hn. destruct (Z.eq_dec n 2) as [->|Hn2].
      * rewrite <- Hk2. apply goToStep_same.
      * unfold goToStep. cbv zeta. rewrite Hrs.
        destruct (Z.leb_spec n (Z.min (Z.of_nat (length [r]) + 1) 5)) as [Hle|_];
          [simpl in Hle; lia|].
        rewrite andb_false_r. reflexivity.
    + intros e' He' Hc. apply (disqualified_clicks _ e' Hs He' Hc).
    + simpl. rewrite Hs. reflexivity.
    + intros es a2 Hrun Hnr.
      destruct (disqualified_run es _ a2 HI1 Hs Hrun Hnr) as (H1 & H2 & H3).
      split; [exact H1|]. split; [congruence|].
      split; [exact H2|]. rewrite H2, Hrs. reflexivity.
    + rewrite step_reset. reflexivity.
    + rewrite step_reset. reflexivity.
  - intros Hk ->. apply later_fail_proceeds; assumption.
Qed.

Lemma step1_decline_disqualifies_witness :
  let a := afterRun Sample.toStep1 in
  (reachable a /\ enabled a ClickFail = true /\ killChainStep (dash a) = 1)
  /\ screen (step a ClickFail) = Disqualified
  /\ killChainStep (dash (step a ClickFail)) = 2
  /\ (forall n, 2 <= n <= 5 ->
        goToStep n (dash (step a ClickFail)) = dash (step a ClickFail))
  /\ enabled (step a ClickFail) ClickReset = true.
Proof.
  cbv zeta.
  assert (Hreach : reachable (afterRun Sample.toStep1)).
  { apply reachable_afterRun. vm_compute. eauto. }
  assert (He : enabled (afterRun Sample.toStep1) ClickFail = true)
    by (vm_compute; reflexivity).
  assert (Hk : killChainStep (dash (afterRun Sample.toStep1)) = 1)
    by (vm_compute; reflexivity).
  split; [exact (conj Hreach (conj He Hk))|].
  destruct (proj1 (step1_decline_disqualifies _ ClickFail Hreach He)
              Hk (or_introl eq_refl)) as (H1 & H2 & _ & H3 & _ & H4 & _).
  exact (conj H1 (conj H2 (conj H3 H4))).
Defined.

(** C4 as it stands fails: after a fail on step 1 the run has gone
    on to step 2 in all but the page shown.  The step counter is 2, a value
    that the guard of [goToStep] accepts, and the analysis of step 2 has
    been requested and is in flight. *)
Lemma step1_decline_proceeds_underneath :
  let a := afterRun Sample.step1Fail in
  screen a = Disqualified
  /\ killChainStep (dash a) = 2
  /\ killChainStep (dash a) <> 1
  /\ 1 <= 2 <= Z.min (Z.of_nat (length (stepResults (dash a))) + 1) 5
  /\ analyzeCalls a = [2; 1]
  /\ exists f h, flow a = Some f /\ hookOf 2 f = Some h
                 /\ useStepAnalysis.loading h = true.
Proof.
  cbv zeta.
  assert (H1 : screen (afterRun Sample.step1Fail) = Disqualified)
    by (vm_compute; reflexivity).
  assert (H2 : killChainStep (dash (afterRun Sample.step1Fail)) = 2)
    by (vm_compute; reflexivity).
  assert (H3 : length (stepResults (dash (afterRun Sample.step1Fail))) = 1%nat)
    by (vm_compute; reflexivity).
  assert (H4 : analyzeCalls (afterRun Sample.step1Fail) = [2; 1])
    by (vm_compute; reflexivity).
  assert (H5 : exists f h, flow (afterRun Sample.step1Fail) = Some f
                 /\ hookOf 2 f = Some h /\ useStepAnalysis.loading h = true).
  { vm_compute. eexists. eexists. split; [reflexivity|]. split; reflexivity. }
  refine (conj H1 (conj H2 (conj _ (conj _ (conj H4 H5))))).
  - rewrite H2. discriminate.
  - rewrite H3. simpl. lia.
Qed.

Example sample_later_fails :
  (a ← run initialApp
         (Sample.toStep1 ++ [ClickPass; FetchOk 2 (Sample.an 2); ClickFail;
                             FetchOk 3 (Sample.an 3); ClickFail;
                             FetchOk 4 (Sample.an 4); ClickFail]);
   Some (screen a, summaryVerdict (stepResults (dash a)),
         map passed (stepResults (dash a))))
  = Some (Summary, "DOES NOT PASS",
          [Some true; Some false; Some false; Some false]).
Proof. reflexivity. Qed.

(** ** The analyze route *)

Module AnalyzeFacts.
Import AnalyzeRoute.

Example cleaned_fenced :
  cleaned ("```json" +:+ nl +:+ "{}" +:+ nl +:+ "```" +:+ nl) = "{}".
Proof. reflexivity. Qed.

Example cleaned_fenced_upper :
  cleaned ("```JSON  {}" +:+ nl +:+ "```") = "{}".
Proof. reflexivity. Qed.

Example cleaned_plain : cleaned "{}" = "{}".
Proof. reflexivity. Qed.

Example cleaned_inner_fence :
  cleaned ("a```b" +:+ nl +:+ "``` ") = "a```b".
Proof. reflexivity. Qed.

Example dataBlock_all_absent :
  buildDataBlock (fun _ => EmptyString)
    {| companyName := "Foo Inc"; ticker := "FOO";
       currentPrice := None; currency := "USD";
       peRatio := None; forwardPE := None; marketCap := None;
       fiftyTwoWeekLow := None; fiftyTwoWeekHigh := None;
       revenue := None; netIncome := None;
       profitMargin := None; roic := None;
       businessSummary := None; website := None |}
  = joinLines
      [ "Company: Foo Inc (FOO)";
        "Business Description: Not available";
        "Current Price: N/A"; "Revenue: N/A"; "Net Income: N/A";
        "Profit Margin: N/A"; "Market Cap: N/A"; "ROIC: N/A";
        "P/E (TTM): N/A"; "Forward P/E: N/A";
        "52-Week Low: N/A"; "52-Week High: N/A" ].
Proof. reflexivity. Qed.

(** The same block, as one text. *)
Example dataBlock_KO_text :
  buildDataBlock (fun _ => "0.25") Sample.KO
  = "Company: The Coca-Cola Company (KO)
Business Description: Not available
Current Price: N/A
Revenue: N/A
Net Income: N/A
Profit Margin: 0.25
Market Cap: N/A
ROIC: 0.25
P/E (TTM): N/A
Forward P/E: N/A
52-Week Low: N/A
52-Week High: N/A".
Proof. reflexivity. Qed.

Lemma assoc_stringifyProps (g : string -> JsProp) (fields : list string) (f : string) :
  In f fields ->
  assoc f (stringifyProps (map (fun k => (k, g k)) fields)) = g f.
Proof.
  induction fields as [|k rest IH]; intros Hin; [destruct Hin|].
  simpl. destruct (String.eqb_spec f k) as [->|Hne].
  - destruct (g k) as [v|] eqn:Hg; simpl.
    + rewrite String.eqb_refl. reflexivity.
    + clear IH Hin. induction rest as [|k' rest IH]; [reflexivity|].
      simpl. destruct (g k') as [v'|] eqn:Hg'; simpl; [|exact IH].
      destruct (String.eqb_spec k k') as [->|]; [congruence|exact IH].
  - assert (Hin' : In f rest) by (destruct Hin; [congruence|assumption]).
    destruct (g k) as [v|]; simpl.
    + destruct (String.eqb_spec f k); [contradiction|]. apply IH, Hin'.
    + apply IH, Hin'.
Qed.

Lemma assoc_absent (g : string -> JsProp) (fields : list string) (f : string) :
  ~ In f fields ->
  assoc f (stringifyProps (map (fun k => (k, g k)) fields)) = None.
Proof.
  induction fields as [|k rest IH]; intros Hin; [reflexivity|].
  simpl. destruct (g k) as [v|]; simpl.
  - destruct (String.eqb_spec f k) as [->|]; [exfalso; apply Hin; left; reflexivity|].
    apply IH. intros H. apply Hin. right. exact H.
  - apply IH. intros H. apply Hin. right. exact H.
Qed.

Section Facts.

Variable Number_toString : Number -> string.
Variable callClaude : string -> option string.
Variable JSON_parse : string -> option JsValue.

Abbreviation answer' := (answer callClaude JSON_parse).

Lemma answer_cases (stepNo : Number) (prompt : string) (fields : list string)
    (failure : string) :
  let parsed := callClaude prompt ≫= parseJSON JSON_parse in
  ((parsed = None \/ parsed = Some JNull) ->
     answer' stepNo prompt fields failure = errorResponse 500 failure)
  /\ (forall v, parsed = Some v -> v <> JNull ->
        answer' stepNo prompt fields failure
        = {| status := 200;
             body := ("step", JNum stepNo)
                     :: stringifyProps (map (fun k => (k, prop v k)) fields) |}).
Proof.
  cbv zeta. unfold answer.
  destruct (callClaude prompt) as [text|]; simpl.
  - destruct (parseJSON JSON_parse text) as [v|]; simpl.
    + split.
      * intros [H|H]; [discriminate|]. injection H as ->. reflexivity.
      * intros v' [= <-] Hv. destruct v; try reflexivity. contradiction.
    + split; [reflexivity|]. intros v H. discriminate.
  - split; [reflexivity|]. intros v H. discriminate.
Qed.

Lemma handlers_Some (k : Z) (handler : StockData -> Response) :
  handlers Number_toString callClaude JSON_parse k = Some handler ->
  1 <= k <= 4
  /\ exists stepNo failure,
       forall sd, handler sd
                  = answer' stepNo (userPrompt Number_toString k sd)
                            (requiredFields k) failure.
Proof.
  unfold handlers, userPrompt, requiredFields.
  destruct (Z.eqb_spec k 1); [intros [= <-]; split; [lia|]; eexists; eexists; reflexivity|].
  destruct (Z.eqb_spec k 2); [intros [= <-]; split; [lia|]; eexists; eexists; reflexivity|].
  destruct (Z.eqb_spec k 3); [intros [= <-]; split; [lia|]; eexists; eexists; reflexivity|].
  destruct (Z.eqb_spec k 4); [intros [= <-]; split; [lia|]; eexists; eexists; reflexivity|].
  discriminate.
Qed.

Lemma step_not_required (k : Z) : ~ In "step" (requiredFields k).
Proof.
  unfold requiredFields, fields1, fields2, fields3, fields4.
  destruct (k =? 1); [|destruct (k =? 2); [|destruct (k =? 3)]];
    simpl; intros H; repeat (destruct H as [H|H]; [discriminate H|]); exact H.
Qed.

End Facts.

End AnalyzeFacts.

(** C7, as the code has it.  A step handler validates no field.  It answers
    500 with an error exactly when the call to the model throws, the text
    (fences stripped) does not parse, or it parses to [null]; in every other
    case it answers 200, and its body carries, for each field of the step,
    just what the parsed value has under that name: a field the model left
    out is left out of the answer, which the page then stores as the step's
    analysis. *)
Theorem analyze_no_field_validation
    (Number_toString : Number -> string)
    (callClaude : string -> option string)
    (JSON_parse : string -> option JsValue)
    (k : Z) (handler : StockData -> AnalyzeRoute.Response) (sd : StockData) :
  AnalyzeRoute.handlers Number_toString callClaude JSON_parse k = Some handler ->
  let parsed := callClaude (AnalyzeRoute.userPrompt Number_toString k sd)
                ≫= AnalyzeRoute.parseJSON JSON_parse in
  ((parsed = None \/ parsed = Some JNull) ->
     AnalyzeRoute.status (handler sd) = 500
     /\ exists msg, AnalyzeRoute.body (handler sd) = [("error", JStr msg)])
  /\ (forall v, parsed = Some v -> v <> JNull ->
        AnalyzeRoute.status (handler sd) = 200
        /\ (forall f, In f (AnalyzeRoute.requiredFields k) ->
              assoc f (AnalyzeRoute.body (handler sd)) = AnalyzeRoute.prop v f)
        /\ AnalyzeRoute.clientOutcome (handler sd)
           = inr (AnalyzeRoute.body (handler sd))).
Proof.
  intros Hh. cbv zeta.
  destruct (AnalyzeFacts.handlers_Some _ _ _ k handler Hh)
    as (_ & stepNo & failure & Hdef).
  rewrite Hdef.
  destruct (AnalyzeFacts.answer_cases callClaude JSON_parse stepNo
              (AnalyzeRoute.userPrompt Number_toString k sd)
              (AnalyzeRoute.requiredFields k) failure) as (Hfail & Hok).
  split.
  - intros Hp. rewrite (Hfail Hp). simpl. eauto.
  - intros v Hv Hnn. rewrite (Hok v Hv Hnn). simpl.
    split; [reflexivity|]. split; [|reflexivity].
    intros f Hf.
    destruct (String.eqb_spec f "step") as [->|Hne].
    + exfalso. apply (AnalyzeFacts.step_not_required k), Hf.
    + apply AnalyzeFacts.assoc_stringifyProps, Hf.
Qed.

Lemma analyze_no_field_validation_witness :
  let handler := AnalyzeRoute.handleStep1 (fun _ => EmptyString)
                   (fun _ => Some "{}") parseEmptyObject in
  AnalyzeRoute.status (handler Sample.KO) = 200
  /\ (forall f, In f (AnalyzeRoute.requiredFields 1) ->
        assoc f (AnalyzeRoute.body (handler Sample.KO))
        = AnalyzeRoute.prop (JObj []) f).
Proof.
  cbv zeta.
  destruct (proj2 (analyze_no_field_validation (fun _ => EmptyString)
                     (fun _ => Some "{}") parseEmptyObject 1 _ Sample.KO eq_refl)
              (JObj []) eq_refl) as (H1 & H2 & _); [discriminate|].
  exact (conj H1 H2).
Defined.

(** The model answers with the empty object: none of [characteristics],
    [summary], [verdict] is there, and the handler answers 200 with a body
    that holds the step number alone. *)
Lemma analyze_missing_fields_accepted :
  let handler := AnalyzeRoute.handleStep1 (fun _ => EmptyString)
                   (fun _ => Some "{}") parseEmptyObject in
  (forall f, In f AnalyzeRoute.fields1 -> AnalyzeRoute.prop (JObj []) f = None)
  /\ handler Sample.KO
     = {| AnalyzeRoute.status := 200;
          AnalyzeRoute.body := [("step", JNum 1%float)] |}.
Proof.
  cbv zeta. split; [intros f _; reflexivity|reflexivity].
Qed.

(** ** The prompt *)




(** ** Saving a memo *)

Lemma memoPosts_runEffect (k : Z) (a : App) :
  memoPosts (runEffect k a) = memoPosts a.
Proof.
  unfold runEffect. destruct (flow a ≫= hookOf k) as [h|]; [|reflexivity].
  destruct (useStepAnalysis.effectFires _ _ _); reflexivity.
Qed.

Lemma memoPosts_step (a : App) (e : Event) :
  memoPosts (step a e) = memoPosts (handle a e).
Proof.
  unfold step, settle, runEffects. rewrite !memoPosts_runEffect. reflexivity.
Qed.

(** The summary is only shown over a full ledger. *)
Lemma summary_has_four (a : App) :
  Inv a -> screen a = Summary ->
  exists r1 r2 r3 r4, stepResults (dash a) = [r1; r2; r3; r4].
Proof.
  intros HI Hs. destruct (screen_Summary a Hs) as (f & Hf & _ & Hk).
  destruct (Inv_flow_Some a f HI Hf) as (_ & _ & ((Hlo & Hhi) & _)).
  unfold activeStep in *.
  destruct (stepResults (dash a)) as [|r1 [|r2 [|r3 [|r4 [|r5 rest]]]]];
    simpl length in *; try lia.
  eauto.
Qed.

(** C9, as the code has it.  Neither the memo endpoint nor the page counts
    outcomes: with the storage configured and a ticker and a company name
    that are not empty, the endpoint stores the body of any ledger and fails
    only when the insert does.  What keeps unfinished runs out is the page:
    SAVE MEMO is only rendered on the summary, which a run only reaches
    with exactly four outcomes, and the body it sends carries those four
    outcomes and the verdict of the verdict rule. *)
Theorem memo_saved_from_summary
    (Row : Type) (insert : MemoBody -> option Row) (a : App) :
  reachable a -> enabled a ClickSave = true ->
  (exists sd f r1 r2 r3 r4,
     data (dash a) = Some sd /\ flow a = Some f
     /\ stepResults (dash a) = [r1; r2; r3; r4]
     /\ let b := saveMemoBody sd [r1; r2; r3; r4] f in
        memoPosts (step a ClickSave) = b :: memoPosts a
        /\ step1_passed b = passed r1 /\ step2_passed b = passed r2
        /\ step3_passed b = passed r3 /\ step4_passed b = passed r4
        /\ overall_verdict b = summaryVerdict [r1; r2; r3; r4]
        /\ (overall_verdict b = "STRONG BUY CANDIDATE"
              <-> passed r1 = Some true /\ passed r2 = Some true
                  /\ passed r3 = Some true /\ passed r4 = Some true))
  /\ (forall sd rs f,
        ticker sd <> EmptyString -> companyName sd <> EmptyString ->
        MemosRoute.POST Row (MemosRoute.Configured insert) (saveMemoBody sd rs f)
        = match insert (saveMemoBody sd rs f) with
          | Some row => MemosRoute.MemoSaved row
          | None => MemosRoute.MemoError 500 "Failed to save memo"
          end).
Proof.
  intros Hreach He. pose proof (reachable_Inv a Hreach) as HI. split.
  - simpl in He. destruct (screen a) eqn:Hs; try discriminate He.
    destruct (screen_Summary a Hs) as (f & Hf & _ & _).
    destruct (summary_has_four a HI Hs) as (r1 & r2 & r3 & r4 & Hrs).
    destruct (Inv_flow_Some a f HI Hf) as (Hm & _ & _).
    unfold mounted in Hm. apply andb_true_iff in Hm as (_ & Hd).
    apply bool_decide_eq_true in Hd. destruct Hd as [sd Hsd].
    exists sd, f, r1, r2, r3, r4.
    split; [exact Hsd|]. split; [exact Hf|]. split; [exact Hrs|]. cbv zeta.
    split.
    { rewrite memoPosts_step. unfold handle, sendMemo. rewrite Hsd, Hf, Hrs.
      reflexivity. }
    repeat (split; [reflexivity|]).
    change (overall_verdict (saveMemoBody sd [r1; r2; r3; r4] f))
      with (summaryVerdict [r1; r2; r3; r4]).
    rewrite summaryVerdict_strong, allPassed_iff. simpl. split.
    + intros H. repeat split; apply H; auto.
    + intros (H1 & H2 & H3 & H4) r [<-|[<-|[<-|[<-|[]]]]]; assumption.
  - intros sd rs f Ht Hc. unfold MemosRoute.POST, MemosRoute.isEmpty. simpl.
    destruct (String.eqb_spec (ticker sd) EmptyString); [contradiction|].
    destruct (String.eqb_spec (companyName sd) EmptyString); [contradiction|].
    reflexivity.
Qed.

Lemma memo_saved_from_summary_witness :
  let a := afterRun Sample.fourPasses in
  (reachable a /\ enabled a ClickSave = true)
  /\ exists sd f r1 r2 r3 r4,
       data (dash a) = Some sd /\ flow a = Some f
       /\ stepResults (dash a) = [r1; r2; r3; r4]
       /\ memoPosts (step a ClickSave)
          = saveMemoBody sd [r1; r2; r3; r4] f :: memoPosts a.
Proof.
  cbv zeta.
  assert (Hreach : reachable (afterRun Sample.fourPasses)).
  { apply reachable_afterRun. vm_compute. eauto. }
  assert (He : enabled (afterRun Sample.fourPasses) ClickSave = true)
    by (vm_compute; reflexivity).
  split; [exact (conj Hreach He)|].
  destruct (proj1 (memo_saved_from_summary MemoBody (fun b => Some b) _ Hreach He))
    as (sd & f & r1 & r2 & r3 & r4 & H1 & H2 & H3 & H4 & _).
  exists sd, f, r1, r2, r3, r4. exact (conj H1 (conj H2 (conj H3 H4))).
Defined.

(** A ledger with no outcome at all, sent to a storage that accepts every
    row: the endpoint stores the memo. *)
Lemma memo_unfinished_run_stored :
  let body := saveMemoBody Sample.KO [] initialFlow in
  (length ([] : list StepResult) < 4)%nat
  /\ MemosRoute.POST MemoBody (MemosRoute.Configured (fun b => Some b)) body
     = MemosRoute.MemoSaved body.
Proof.
  cbv zeta. split; [simpl; lia|reflexivity].
Qed.

(** * Further properties *)

(** ** The step counter and the ledger *)

(** X1.  In every reachable state the step counter lies between 1 and the
    frontier of the ledger, the ledger holds at most four outcomes, the
    summary is only shown over four outcomes and the disqualified page over
    exactly one, and while the kill chain is not mounted the counter is 1
    and the ledger is empty. *)
Theorem step_within_frontier (a : App) :
  reachable a ->
  1 <= killChainStep (dash a) <= Z.of_nat (length (stepResults (dash a))) + 1
  /\ (length (stepResults (dash a)) <= 4)%nat
  /\ (screen a = Summary -> length (stepResults (dash a)) = 4%nat)
  /\ (screen a = Disqualified ->
        length (stepResults (dash a)) = 1%nat /\ killChainStep (dash a) = 2)
  /\ (screen a = SearchScreen ->
        killChainStep (dash a) = 1 /\ stepResults (dash a) = []).
Proof.
  intros Hreach. pose proof (reachable_Inv a Hreach) as HI.
  pose proof HI as (((Hlo & Hhi) & _) & _). unfold activeStep in *.
  split; [lia|]. split; [lia|]. split; [|split].
  - intros Hs. destruct (summary_has_four a HI Hs) as (r1 & r2 & r3 & r4 & ->).
    reflexivity.
  - intros Hs. apply screen_Disqualified in Hs as (f & Hf & Hov).
    destruct (Inv_flow_Some a f HI Hf) as (_ & (Hl & _) & _).
    unfold LedgerOk in Hl. rewrite Hov in Hl.
    destruct Hl as (Hk & r & -> & _). split; [reflexivity|exact Hk].
  - intros Hs. apply (Inv_flow_None a HI (screen_Search a Hs)).
Qed.

Lemma step_within_frontier_witness :
  reachable (afterRun Sample.fourPasses)
  /\ (length (stepResults (dash (afterRun Sample.fourPasses))) <= 4)%nat.
Proof.
  assert (Hreach : reachable (afterRun Sample.fourPasses)).
  { apply reachable_afterRun. vm_compute. eauto. }
  exact (conj Hreach (proj1 (proj2 (step_within_frontier _ Hreach)))).
Defined.

(** X2.  A hook never has two requests in flight, [loading] is true exactly
    while one is, and of an analysis, an error and a request in flight at
    most one is there at a time. *)
Theorem hook_one_request_in_flight (a : App) (f : Flow) (k : Z) (h : Hook) :
  reachable a -> flow a = Some f -> hookOf k f = Some h ->
  (useStepAnalysis.pending h <= 1)%nat
  /\ (useStepAnalysis.loading h = true <-> useStepAnalysis.pending h = 1%nat)
  /\ (is_Some (useStepAnalysis.analysis h) ->
        useStepAnalysis.loading h = false /\ useStepAnalysis.error h = None)
  /\ (is_Some (useStepAnalysis.error h) ->
        useStepAnalysis.loading h = false /\ useStepAnalysis.analysis h = None).
Proof.
  intros Hreach Hf Hk. pose proof (reachable_Inv a Hreach) as HI.
  destruct (Inv_flow_Some a f HI Hf) as (_ & (_ & Hpre) & _).
  destruct (Hpre k h Hk) as (Hp & Ha & He).
  split; [|split; [|split]].
  - rewrite Hp. destruct (useStepAnalysis.loading h); lia.
  - rewrite Hp. destruct (useStepAnalysis.loading h); split; intros H;
      try reflexivity; discriminate.
  - intros Han. split; [exact (Ha Han)|].
    destruct (useStepAnalysis.error h) as [msg|] eqn:E; [|reflexivity].
    destruct (He (ex_intro _ msg eq_refl)) as (_ & Hn).
    rewrite Hn in Han. destruct Han; discriminate.
  - exact He.
Qed.

Lemma hook_one_request_in_flight_witness :
  let a := afterRun [SubmitSearch; SearchOk Sample.KO; ClickStart] in
  reachable a
  /\ exists f h, flow a = Some f /\ hookOf 1 f = Some h
                 /\ (useStepAnalysis.pending h <= 1)%nat.
Proof.
  cbv zeta.
  assert (Hreach : reachable (afterRun [SubmitSearch; SearchOk Sample.KO; ClickStart])).
  { apply reachable_afterRun. vm_compute. eauto. }
  split; [exact Hreach|].
  eexists. eexists.
  assert (Hf : flow (afterRun [SubmitSearch; SearchOk Sample.KO; ClickStart])
               = Some (mapHook 1 useStepAnalysis.fetch_ initialFlow))
    by (vm_compute; reflexivity).
  assert (Hk : hookOf 1 (mapHook 1 useStepAnalysis.fetch_ initialFlow)
               = Some (useStepAnalysis.fetch_ useStepAnalysis.init))
    by reflexivity.
  exact (conj Hf (conj Hk
           (proj1 (hook_one_request_in_flight _ _ 1 _ Hreach Hf Hk)))).
Defined.

(** X3.  A step page never sits without both an analysis and a request in
    flight: the step on display either has its analysis or shows the
    spinner, it shows no error, and so the retry button is never there to
    be clicked. *)
Theorem displayed_step_analysed_or_loading (a : App) (k : Z) :
  reachable a -> screen a = StepScreen k ->
  1 <= k <= 4
  /\ (exists f h, flow a = Some f /\ hookOf k f = Some h
        /\ (is_Some (useStepAnalysis.analysis h)
            \/ useStepAnalysis.loading h = true)
        /\ useStepAnalysis.error h = None)
  /\ enabled a ClickRetry = false.
Proof.
  intros Hreach Hs. pose proof (reachable_Inv a Hreach) as HI.
  destruct (screen_Step a k Hs) as (f & Hf & Hov & Hk & Hk5).
  pose proof HI as (((Hlo & Hhi) & _) & _ & Hfl).
  assert (Hr : 1 <= k <= 4) by lia.
  destruct (hookOf_range_Some k f Hr) as (h & Hh).
  destruct (Hfl f Hf) as ((_ & Hpre) & Hset).
  destruct (Hpre k h Hh) as (Hp & Ha & He).
  specialize (Hset k h Hh Hk).
  assert (Herr : useStepAnalysis.error h = None).
  { destruct (useStepAnalysis.error h) as [msg|] eqn:E; [|reflexivity].
    destruct (He (ex_intro _ msg eq_refl)) as (Hl & Hn).
    rewrite (Hset Hn) in Hl. discriminate. }
  split; [exact Hr|]. split.
  - exists f, h. split; [exact Hf|]. split; [exact Hh|]. split; [|exact Herr].
    destruct (useStepAnalysis.analysis h) as [json|] eqn:E; [left; eauto|].
    right. apply Hset. reflexivity.
  - simpl. rewrite Hs, Hf. unfold hasError. rewrite Hh, Herr. reflexivity.
Qed.

Lemma displayed_step_analysed_or_loading_witness :
  let a := afterRun [SubmitSearch; SearchOk Sample.KO; ClickStart;
                     FetchErr 1 "Analysis failed"] in
  (reachable a /\ screen a = StepScreen 1)
  /\ enabled a ClickRetry = false.
Proof.
  cbv zeta.
  assert (Hreach : reachable (afterRun [SubmitSearch; SearchOk Sample.KO; ClickStart;
                                        FetchErr 1 "Analysis failed"])).
  { apply reachable_afterRun. vm_compute. eauto. }
  assert (Hs : screen (afterRun [SubmitSearch; SearchOk Sample.KO; ClickStart;
                                 FetchErr 1 "Analysis failed"]) = StepScreen 1)
    by (vm_compute; reflexivity).
  exact (conj (conj Hreach Hs)
           (proj2 (proj2 (displayed_step_analysed_or_loading _ 1 Hreach Hs)))).
Defined.

(** ** Navigation *)

Lemma goToStep_lands (d : Dashboard) (n : Z) :
  1 <= n <= Z.min (Z.of_nat (length (stepResults d)) + 1) 5 ->
  killChainStep (goToStep n d) = n
  /\ stepResults (goToStep n d) = stepResults d.
Proof.
  intros Hn. unfold goToStep. cbv zeta.
  destruct (Z.leb_spec 1 n); [|lia].
  destruct (Z.leb_spec n (Z.min (Z.of_nat (length (stepResults d)) + 1) 5));
    [|lia].
  split; reflexivity.
Qed.

Lemma isClickable_true (cur active s : Z) :
  isClickable cur active s = true ->
  1 <= s <= 4 /\ s <= active /\ s <> cur.
Proof.
  unfold isClickable. intros H.
  apply andb_true_iff in H as (H & H4). apply andb_true_iff in H as (H & H3).
  apply andb_true_iff in H as (H1 & H2).
  apply Z.leb_le in H1, H2, H3. apply negb_true_iff, Z.eqb_neq in H4. lia.
Qed.

(** X4.  Every navigation button that is rendered leads where it says: the
    target it hands to [goToStep] is within the accepted range, so the step
    counter ends on it, and the ledger is not touched.  The continue button
    of a reviewed step goes to the next step, the back button to the one
    before. *)
Theorem navigation_reaches_target (a : App) (e : Event) (n : Z) :
  reachable a -> enabled a e = true -> navTarget a e = Some n ->
  killChainStep (dash (step a e)) = n
  /\ stepResults (dash (step a e)) = stepResults (dash a)
  /\ 1 <= n <= Z.of_nat (length (stepResults (dash a))) + 1
  /\ (e = ClickContinue -> n = killChainStep (dash a) + 1)
  /\ (e = ClickBack -> n = killChainStep (dash a) - 1).
Proof.
  intros Hreach He Hn. pose proof (reachable_Inv a Hreach) as HI.
  pose proof HI as (((Hlo & Hhi) & _) & _). unfold activeStep in *.
  assert (Hrange : 1 <= n <= Z.min (Z.of_nat (length (stepResults (dash a))) + 1) 5
                   /\ (e = ClickContinue -> n = killChainStep (dash a) + 1)).
  { destruct e; simpl in Hn; try discriminate Hn; injection Hn as <-;
      simpl in He.
    - (* ClickProgress *)
      split; [|discriminate].
      destruct (screen a) eqn:Hs; try discriminate He.
      + apply isClickable_true in He.
        pose proof (summary_has_four a HI Hs) as (r1 & r2 & r3 & r4 & Hrs).
        rewrite Hrs. simpl. lia.
      + apply isClickable_true in He. unfold activeStep in He. lia.
    - (* ClickBack *)
      split; [|discriminate].
      destruct (screen a) eqn:Hs; try discriminate He.
      destruct (screen_Step a k Hs) as (_ & _ & _ & Hk & _).
      apply Z.ltb_lt in He. lia.
    - (* ClickContinue *)
      destruct (screen a) eqn:Hs; try discriminate He.
      destruct (screen_Step a k Hs) as (f & Hf & _ & Hk & _).
      rewrite Hf in He. apply andb_true_iff in He as (_ & Hr).
      unfold isReviewing, activeStep in Hr.
      apply andb_true_iff in Hr as (Hr1 & Hr2).
      apply Z.ltb_lt in Hr1. apply Z.leb_le in Hr2.
      unfold activeStep. split; [lia|]. intros _. lia.
    - (* ClickSummaryRow *)
      split; [|discriminate].
      destruct (screen a) eqn:Hs; try discriminate He.
      apply bool_decide_eq_true in He.
      pose proof (summary_has_four a HI Hs) as (r1 & r2 & r3 & r4 & Hrs).
      rewrite Hrs in *. simpl in *. lia. }
  destruct Hrange as (Hrange & Hcont).
  assert (Hdash : dash (step a e) = goToStep n (dash a)).
  { rewrite dash_step.
    destruct e; simpl in Hn; try discriminate Hn; injection Hn as <-; reflexivity. }
  rewrite Hdash. destruct (goToStep_lands (dash a) n Hrange) as (Hin & Hrs).
  split; [exact Hin|]. split; [exact Hrs|]. split; [lia|].
  split; [exact Hcont|].
  intros ->. simpl in Hn. injection Hn as <-. reflexivity.
Qed.

Lemma navigation_reaches_target_witness :
  let a := afterRun (Sample.toStep1 ++ [ClickPass]) in
  (reachable a /\ enabled a ClickBack = true /\ navTarget a ClickBack = Some 1)
  /\ killChainStep (dash (step a ClickBack)) = 1.
Proof.
  cbv zeta.
  assert (Hreach : reachable (afterRun (Sample.toStep1 ++ [ClickPass]))).
  { apply reachable_afterRun. vm_compute. eauto. }
  assert (He : enabled (afterRun (Sample.toStep1 ++ [ClickPass])) ClickBack = true)
    by (vm_compute; reflexivity).
  assert (Hn : navTarget (afterRun (Sample.toStep1 ++ [ClickPass])) ClickBack = Some 1)
    by (vm_compute; reflexivity).
  exact (conj (conj Hreach (conj He Hn))
           (proj1 (navigation_reaches_target _ ClickBack 1 Hreach He Hn))).
Defined.

(** X5.  When a step is under review the outcome handed to [ReviewActions],
    [stepResults[killChainStep - 1]], is there: the banner never reads the
    verdict of an undefined result. *)
Theorem reviewed_result_exists (d : Dashboard) :
  isReviewing d = true -> 1 <= killChainStep d ->
  is_Some (stepResults d !! Z.to_nat (killChainStep d - 1)).
Proof.
  unfold isReviewing, activeStep. intros H Hk.
  apply andb_true_iff in H as (H & _). apply Z.ltb_lt in H.
  apply lookup_lt_is_Some. lia.
Qed.

Lemma reviewed_result_exists_witness :
  let d := goToStep 1 (handleStepPass None (startKillChain initialDashboard)) in
  (isReviewing d = true /\ 1 <= killChainStep d)
  /\ is_Some (stepResults d !! Z.to_nat (killChainStep d - 1)).
Proof.
  cbv zeta.
  assert (H1 : isReviewing (goToStep 1 (handleStepPass None
                 (startKillChain initialDashboard))) = true) by reflexivity.
  assert (H2 : 1 <= killChainStep (goToStep 1 (handleStepPass None
                 (startKillChain initialDashboard)))) by (simpl; lia).
  exact (conj (conj H1 H2) (reviewed_result_exists _ H1 H2)).
Defined.

(** ** The ledger between resets *)

Lemma ledger_unchanged (a : App) (e : Event) :
  isDecision e = false -> isReset e = false -> e <> ClickStart ->
  stepResults (dash (handle a e)) = stepResults (dash a).
Proof.
  intros Hd Hr Hs.
  destruct e; try discriminate Hd; try discriminate Hr; try contradiction;
    unfold handle; cbv beta iota zeta; simpl;
    rewrite ?stepResults_goToStep, ?sendMemo_dash; reflexivity.
Qed.

Lemma ledger_decision (a : App) (e : Event) :
  isDecision e = true ->
  exists r, stepResults (dash (handle a e)) = (stepResults (dash a) ++ [r])%list.
Proof.
  destruct e; try discriminate; intros _; unfold handle; cbv beta iota zeta.
  - eexists. reflexivity.
  - destruct (killChainStep (dash a) =? 1); eexists; reflexivity.
  - eexists. reflexivity.
Qed.

Lemma unmounted_step_ledger (a : App) (e : Event) :
  Inv a -> flow a = None -> enabled a e = true ->
  stepResults (dash (step a e)) = [].
Proof.
  intros HI Hf He. destruct (Inv_flow_None a HI Hf) as (_ & _ & Hrs).
  assert (Hscr : screen a = SearchScreen) by (unfold screen; rewrite Hf; reflexivity).
  rewrite dash_step.
  destruct e; simpl in He; unfold decisionOffered in He;
    rewrite ?Hscr, ?Hf in He; simpl in He; try discriminate He;
    unfold handle; cbv beta iota zeta; simpl; try exact Hrs; reflexivity.
Qed.

Lemma ledger_step_prefix (a : App) (e : Event) :
  Inv a -> enabled a e = true -> isReset e = false ->
  stepResults (dash a) `prefix_of` stepResults (dash (step a e)).
Proof.
  intros HI He Hr. rewrite dash_step.
  destruct (isDecision e) eqn:Hd.
  - destruct (ledger_decision a e Hd) as (r & ->). apply prefix_app_r. reflexivity.
  - destruct e; try discriminate Hd; try discriminate Hr;
      try (rewrite ledger_unchanged; [reflexivity|reflexivity|reflexivity|discriminate]).
    (* ClickStart *)
    simpl in He. destruct (screen a) eqn:Hs; try discriminate He.
    destruct (Inv_flow_None a HI (screen_Search a Hs)) as (_ & _ & ->).
    apply prefix_nil.
Qed.

(** X6.  Between resets the ledger only grows at its end: along every run
    without reset the ledger of the starting state is a prefix of the later
    one, so an outcome once recorded stays at its place with its verdict
    and its notes, whatever is reviewed or revisited. *)
Theorem ledger_append_only (a a' : App) (es : list Event) :
  reachable a -> run a es = Some a' -> noReset es = true ->
  stepResults (dash a) `prefix_of` stepResults (dash a')
  /\ forall i r, stepResults (dash a) !! i = Some r ->
       stepResults (dash a') !! i = Some r.
Proof.
  intros Hreach Hrun Hnr.
  assert (Hp : stepResults (dash a) `prefix_of` stepResults (dash a')).
  { pose proof (reachable_Inv a Hreach) as HI. clear Hreach.
    revert a HI Hrun Hnr. induction es as [|e es IH]; intros a HI Hrun Hnr;
      simpl in *.
    - injection Hrun as <-. reflexivity.
    - destruct (enabled a e) eqn:He; [|discriminate].
      apply andb_true_iff in Hnr as (Hr & Hnr). apply negb_true_iff in Hr.
      etransitivity; [apply (ledger_step_prefix a e HI He Hr)|].
      apply IH; [apply Inv_step; assumption|assumption..]. }
  split; [exact Hp|].
  intros i r Hi. destruct Hp as (k & ->). apply lookup_app_l_Some, Hi.
Qed.

Lemma ledger_append_only_witness :
  let a := afterRun (Sample.toStep1 ++ [ClickPass]) in
  let es := [ClickBack; ClickContinue; FetchOk 2 (Sample.an 2); ClickFail] in
  reachable a
  /\ stepResults (dash a)
     `prefix_of` stepResults (dash (afterRun (Sample.toStep1 ++ ClickPass :: es))).
Proof.
  cbv zeta.
  assert (Hreach : reachable (afterRun (Sample.toStep1 ++ [ClickPass]))).
  { apply reachable_afterRun. vm_compute. eauto. }
  split; [exact Hreach|].
  refine (proj1 (ledger_append_only _ _
            [ClickBack; ClickContinue; FetchOk 2 (Sample.an 2); ClickFail]
            Hreach _ _)); vm_compute; reflexivity.
Defined.

(** *** Step 1 has passed wherever a later page is shown *)

Lemma Event_eq_start (e : Event) : e = ClickStart \/ e <> ClickStart.
Proof. destruct e; try (right; discriminate). left. reflexivity. Qed.

Lemma FirstPassed_step (a : App) (e : Event) :
  Inv a -> FirstPassed a -> enabled a e = true -> FirstPassed (step a e).
Proof.
  intros HI HP He f' r Hf' Hov' Hr.
  destruct (isReset e) eqn:Hreset.
  { destruct e; try discriminate Hreset. rewrite step_reset in Hf'. discriminate. }
  destruct (flow a) as [f|] eqn:Hf.
  - destruct (step_mounted a e f HI Hf He Hreset) as (f1 & Hf1 & Hmono & _).
    assert (f1 = f') as -> by congruence.
    assert (Hov : showStep1Fail f = false).
    { destruct (showStep1Fail f); [|reflexivity].
      rewrite (Hmono eq_refl) in Hov'. discriminate. }
    rewrite dash_step in Hr.
    destruct (isDecision e) eqn:Hd.
    + destruct (ledger_decision a e Hd) as (r0 & Hl).
      destruct (stepResults (dash a)) as [|r1 rs] eqn:Hrs.
      * (* the first decision of the run *)
        assert (Hoff : decisionOffered a = true).
        { destruct e; try discriminate Hd; simpl in He; [exact He|exact He|].
          apply andb_true_iff in He. apply He. }
        destruct (decisionOffered_frontier a HI Hoff) as (Hk & _).
        unfold activeStep in Hk. rewrite Hrs in Hk. simpl in Hk.
        destruct e; try discriminate Hd.
        -- unfold handle in Hr; cbv beta iota zeta in Hr; simpl in Hr.
           rewrite Hrs in Hr. simpl in Hr. injection Hr as <-. reflexivity.
        -- destruct (step1_decline a ClickFail HI He Hk (or_introl eq_refl))
             as (Hs & _).
           apply screen_Disqualified in Hs as (f2 & Hf2 & Hov2). congruence.
        -- destruct (step1_decline a ClickUnsure HI He Hk (or_intror eq_refl))
             as (Hs & _).
           apply screen_Disqualified in Hs as (f2 & Hf2 & Hov2). congruence.
      * rewrite Hl in Hr. simpl in Hr. injection Hr as <-.
        apply (HP f r1 Hf Hov). rewrite Hrs. reflexivity.
    + destruct (Event_eq_start e) as [-> | Hne].
      * simpl in He. destruct (screen a) eqn:Hs; try discriminate He.
        apply screen_Search in Hs. congruence.
      * rewrite (ledger_unchanged a e Hd Hreset Hne) in Hr.
        apply (HP f r Hf Hov Hr).
  - rewrite (unmounted_step_ledger a e HI Hf He) in Hr. discriminate.
Qed.

Lemma reachable_FirstPassed (a : App) : reachable a -> FirstPassed a.
Proof.
  induction 1 as [|a e Hreach IH He].
  - intros f r Hf. discriminate.
  - apply FirstPassed_step; [apply reachable_Inv|..]; assumption.
Qed.

(** X7.  A step page or the summary is only ever shown over a ledger whose
    first outcome is a pass: a run that declined step 1 never gets there.
    In particular every memo the page sends has [step1_passed = true]. *)
Theorem later_pages_need_step1_pass (a : App) :
  reachable a ->
  (screen a <> Disqualified ->
     forall r, stepResults (dash a) !! 0%nat = Some r -> passed r = Some true)
  /\ (enabled a ClickSave = true ->
        exists body, memoPosts (step a ClickSave) = body :: memoPosts a
                     /\ step1_passed body = Some true).
Proof.
  intros Hreach. pose proof (reachable_FirstPassed a Hreach) as HP.
  pose proof (reachable_Inv a Hreach) as HI.
  assert (Hmain : screen a <> Disqualified ->
            forall r, stepResults (dash a) !! 0%nat = Some r -> passed r = Some true).
  { intros Hs r Hr. destruct (flow a) as [f|] eqn:Hf.
    - apply (HP f r Hf); [|exact Hr].
      destruct (showStep1Fail f) eqn:Hov; [|reflexivity].
      exfalso. apply Hs, screen_Disqualified. eauto.
    - destruct (Inv_flow_None a HI Hf) as (_ & _ & Hrs). rewrite Hrs in Hr.
      discriminate. }
  split; [exact Hmain|].
  intros He.
  simpl in He. destruct (screen a) eqn:Hs; try discriminate He.
  destruct (screen_Summary a Hs) as (f & Hf & _ & _).
  destruct (summary_has_four a HI Hs) as (r1 & r2 & r3 & r4 & Hrs).
  destruct (Inv_flow_Some a f HI Hf) as (Hm & _ & _).
  unfold mounted in Hm. apply andb_true_iff in Hm as (_ & Hd).
  apply bool_decide_eq_true in Hd. destruct Hd as [sd Hsd].
  exists (saveMemoBody sd [r1; r2; r3; r4] f). split.
  - rewrite memoPosts_step. unfold handle, sendMemo. rewrite Hsd, Hf, Hrs.
    reflexivity.
  - change (step1_passed (saveMemoBody sd [r1; r2; r3; r4] f)) with (passed r1).
    apply Hmain; [discriminate|]. rewrite Hrs. reflexivity.
Qed.

Lemma later_pages_need_step1_pass_witness :
  let a := afterRun Sample.fourPasses in
  (reachable a /\ enabled a ClickSave = true)
  /\ exists body, memoPosts (step a ClickSave) = body :: memoPosts a
                  /\ step1_passed body = Some true.
Proof.
  cbv zeta.
  assert (Hreach : reachable (afterRun Sample.fourPasses)).
  { apply reachable_afterRun. vm_compute. eauto. }
  assert (He : enabled (afterRun Sample.fourPasses) ClickSave = true)
    by (vm_compute; reflexivity).
  exact (conj (conj Hreach He)
           (proj2 (later_pages_need_step1_pass _ Hreach) He)).
Defined.

(** ** Saved memos in the list *)

(** X8.  The badge of a saved memo agrees with the summary it was saved
    from: whatever the ledger, the memo body built by SAVE MEMO is shown as
    a pass in the list of past analyses exactly when every outcome of the
    ledger is a pass. *)
Theorem list_badge_agrees_with_summary (sd : StockData) (rs : list StepResult)
    (f : Flow) :
  isPass (overall_verdict (saveMemoBody sd rs f)) = allPassed rs
  /\ (memoCardBadge (overall_verdict (saveMemoBody sd rs f)) = "STRONG BUY"
        <-> summaryVerdict rs = "STRONG BUY CANDIDATE")
  /\ (memoCardBadge (overall_verdict (saveMemoBody sd rs f)) = "DOES NOT PASS"
        <-> summaryVerdict rs = "DOES NOT PASS").
Proof.
  unfold memoCardBadge, isPass, summaryVerdict. simpl.
  destruct (allPassed rs); simpl; repeat split; intros H;
    try reflexivity; discriminate H.
Qed.

(** ** The progress bar *)

(** X9.  Wherever the progress bar is rendered its header shows a step
    number from 1 to 4 and one of the four step labels; the fallback label
    is never shown, and on the summary the header reads step 4 and all four
    segments are filled and clickable. *)
Theorem progress_header_in_range (a : App) (cur active : Z) :
  reachable a -> progressArgs a = Some (cur, active) ->
  1 <= progressStepNumber cur <= 4
  /\ In (progressLabel cur) STEP_LABELS
  /\ (screen a = Summary ->
        progressStepNumber cur = 4 /\ progressLabel cur = "Valuation"
        /\ forall s, 1 <= s <= 4 ->
             isFilled active s = true /\ isClickable cur active s = true).
Proof.
  intros Hreach Hargs. pose proof (reachable_Inv a Hreach) as HI.
  pose proof HI as (((Hlo & Hhi) & _) & _).
  assert (Hcur : 1 <= cur <= 5).
  { unfold progressArgs in Hargs. destruct (screen a) eqn:Hs; try discriminate Hargs.
    - injection Hargs as <- <-. lia.
    - injection Hargs as <- <-.
      destruct (screen_Step a k Hs) as (_ & _ & _ & Hk & _). lia. }
  split; [unfold progressStepNumber; lia|]. split.
  - unfold progressLabel, arrayAt, STEP_LABELS.
    assert (Hc : cur = 1 \/ cur = 2 \/ cur = 3 \/ cur = 4 \/ cur = 5) by lia.
    destruct Hc as [-> | [-> | [-> | [-> | ->]]]]; simpl; auto.
  - intros Hs. unfold progressArgs in Hargs. rewrite Hs in Hargs.
    injection Hargs as <- <-. repeat split; try reflexivity.
    + unfold isFilled. apply Z.leb_le. simpl. lia.
    + unfold isClickable.
      destruct (Z.leb_spec 1 s); [|lia]. destruct (Z.leb_spec s 4); [|lia].
      destruct (Z.leb_spec s 5); [|lia]. destruct (Z.eqb_spec s 5); [lia|].
      reflexivity.
Qed.

Lemma progress_header_in_range_witness :
  let a := afterRun Sample.fourPasses in
  (reachable a /\ progressArgs a = Some (5, 5))
  /\ In (progressLabel 5) STEP_LABELS.
Proof.
  cbv zeta.
  assert (Hreach : reachable (afterRun Sample.fourPasses)).
  { apply reachable_afterRun. vm_compute. eauto. }
  assert (Hargs : progressArgs (afterRun Sample.fourPasses) = Some (5, 5))
    by (vm_compute; reflexivity).
  exact (conj (conj Hreach Hargs)
           (proj1 (proj2 (progress_header_in_range _ 5 5 Hreach Hargs)))).
Defined.

(** ** Requests sent by a decision *)









(** ** Fence stripping *)

Module FenceFacts.
Import AnalyzeRoute.

Lemma append_cons (a : ascii) (s y : string) :
  String a s +:+ y = String a (s +:+ y).
Proof. reflexivity. Qed.

Lemma append_nil (y : string) : EmptyString +:+ y = y.
Proof. reflexivity. Qed.

(** *** The bytes of white space *)

Lemma isSpace_byte (a : ascii) :
  isSpace a = true ->
  (9 <= nat_of_ascii a <= 13 \/ nat_of_ascii a = 32)%nat.
Proof.
  unfold isSpace. cbv zeta. intros H.
  apply orb_true_iff in H as [H|H].
  - apply andb_true_iff in H as (H1 & H2).
    apply Nat.leb_le in H1, H2. lia.
  - apply Nat.eqb_eq in H. lia.
Qed.

Lemma isSpace2_bytes (a b : ascii) :
  isSpace2 a b = true ->
  (128 <= nat_of_ascii a /\ 128 <= nat_of_ascii b)%nat.
Proof.
  unfold isSpace2. intros H. apply andb_true_iff in H as (H1 & H2).
  apply Nat.eqb_eq in H1, H2. lia.
Qed.

Lemma isSpace3_bytes (a b c : ascii) :
  isSpace3 a b c = true ->
  (128 <= nat_of_ascii a /\ 128 <= nat_of_ascii b /\ 128 <= nat_of_ascii c)%nat.
Proof.
  unfold isSpace3. cbv zeta. intros H.
  repeat rewrite ?orb_true_iff, ?andb_true_iff, ?Nat.eqb_eq, ?Nat.leb_le in H.
  lia.
Qed.

Lemma spaceByte_not (a x : ascii) :
  spaceByte a -> isSpace x = false -> (nat_of_ascii x < 128)%nat -> a <> x.
Proof.
  intros [H|H] Hx Hlt ->; [congruence|lia].
Qed.

Lemma spaceByte_backtick (a : ascii) : spaceByte a -> Ascii.eqb a "`"%char = false.
Proof.
  intros H. destruct (Ascii.eqb_spec a "`"%char) as [E|]; [|reflexivity].
  exfalso. apply (spaceByte_not a "`"%char H); [reflexivity| |exact E].
  change (nat_of_ascii "`") with 96%nat. lia.
Qed.

Lemma lower_j (a : ascii) :
  lower a = "j"%char -> (nat_of_ascii a = 74 \/ nat_of_ascii a = 106)%nat.
Proof.
  destruct a as [[] [] [] [] [] [] [] []]; vm_compute; intros H;
    try discriminate H; auto.
Qed.

Lemma spaceByte_not_j (a : ascii) : spaceByte a -> lower a <> "j"%char.
Proof.
  intros H Hj. apply lower_j in Hj. destruct H as [H|H].
  - apply isSpace_byte in H. lia.
  - lia.
Qed.

(** *** One white-space character *)

(** What [spaceRest] takes off the front is one to three bytes of white
    space. *)
Lemma spaceRest_Some (s r : string) :
  spaceRest s = Some r ->
  (exists a, s = String a r /\ spaceByte a)
  \/ (exists a b, s = String a (String b r) /\ spaceByte a /\ spaceByte b)
  \/ (exists a b c, s = String a (String b (String c r))
                    /\ spaceByte a /\ spaceByte b /\ spaceByte c).
Proof.
  unfold spaceRest, spaceByte. destruct s as [|a s]; [discriminate|].
  destruct (isSpace a) eqn:Ea.
  { intros [= <-]. left. eauto. }
  destruct s as [|b s]; [discriminate|].
  destruct (isSpace2 a b) eqn:Eb.
  { intros [= <-]. right. left. apply isSpace2_bytes in Eb. exists a, b. tauto. }
  destruct s as [|c s]; [discriminate|].
  destruct (isSpace3 a b c) eqn:Ec; [|discriminate].
  intros [= <-]. right. right. apply isSpace3_bytes in Ec. exists a, b, c. tauto.
Qed.

Lemma spaceRest_length (s r : string) :
  spaceRest s = Some r -> (String.length r < String.length s)%nat.
Proof.
  intros H.
  destruct (spaceRest_Some s r H)
    as [(a & -> & _)|[(a & b & -> & _)|(a & b & c & -> & _)]]; simpl; lia.
Qed.

Lemma spaceRest_app (s r y : string) :
  spaceRest s = Some r -> spaceRest (s +:+ y) = Some (r +:+ y).
Proof.
  unfold spaceRest. destruct s as [|a s]; [discriminate|].
  rewrite append_cons. destruct (isSpace a).
  { intros [= <-]. reflexivity. }
  destruct s as [|b s]; [discriminate|].
  rewrite append_cons. destruct (isSpace2 a b).
  { intros [= <-]. reflexivity. }
  destruct s as [|c s]; [discriminate|].
  rewrite append_cons. destruct (isSpace3 a b c); [|discriminate].
  intros [= <-]. reflexivity.
Qed.

Lemma allSpace_eq (s : string) :
  allSpace s = match s with
               | EmptyString => true
               | String _ _ =>
                   match spaceRest s with
                   | Some r => allSpace r
                   | None => false
                   end
               end.
Proof.
  destruct s as [|a s]; [reflexivity|]. cbn [allSpace spaceRest].
  destruct (isSpace a); [reflexivity|].
  destruct s as [|b s]; [reflexivity|].
  destruct (isSpace2 a b); [reflexivity|].
  destruct s as [|c s]; [reflexivity|].
  destruct (isSpace3 a b c); reflexivity.
Qed.

Lemma dropSpace_eq (s : string) :
  dropSpace s = match spaceRest s with
                | Some r => dropSpace r
                | None => s
                end.
Proof.
  destruct s as [|a s]; [reflexivity|]. cbn [dropSpace spaceRest].
  destruct (isSpace a); [reflexivity|].
  destruct s as [|b s]; [reflexivity|].
  destruct (isSpace2 a b); [reflexivity|].
  destruct s as [|c s]; [reflexivity|].
  destruct (isSpace3 a b c); reflexivity.
Qed.

(** A text of white space: it is empty, or one white-space character and a
    text of white space. *)
Lemma allSpace_true (s : string) :
  allSpace s = true ->
  s = EmptyString \/ exists r, spaceRest s = Some r /\ allSpace r = true.
Proof.
  rewrite allSpace_eq. destruct s as [|a s]; [auto|].
  destruct (spaceRest (String a s)) as [r|]; [eauto|discriminate].
Qed.

(** Induction over the white-space characters of a text. *)
Lemma allSpace_ind (P : string -> Prop) :
  P EmptyString ->
  (forall s r, spaceRest s = Some r -> allSpace r = true -> P r -> P s) ->
  forall s, allSpace s = true -> P s.
Proof.
  intros H0 Hstep s.
  assert (H : forall n s, (String.length s <= n)%nat -> allSpace s = true -> P s).
  { clear s. induction n as [|n IH]; intros s Hn Hs.
    - destruct s; [exact H0|simpl in Hn; lia].
    - destruct (allSpace_true s Hs) as [->|(r & Hr & Hall)]; [exact H0|].
      apply (Hstep s r Hr Hall). apply IH; [|exact Hall].
      pose proof (spaceRest_length s r Hr). lia. }
  apply (H (String.length s)). lia.
Qed.

Lemma hasBacktick_app (x y : string) :
  hasBacktick (x +:+ y) = hasBacktick x || hasBacktick y.
Proof.
  induction x as [|a x IH]; [reflexivity|].
  rewrite append_cons. simpl. rewrite IH. apply orb_assoc.
Qed.

Lemma allSpace_no_backtick (s : string) :
  allSpace s = true -> hasBacktick s = false.
Proof.
  apply (allSpace_ind (fun s => hasBacktick s = false)); [reflexivity|].
  intros t r Hr _ IH.
  destruct (spaceRest_Some t r Hr)
    as [(a & -> & Ha)|[(a & b & -> & Ha & Hb)|(a & b & c & -> & Ha & Hb & Hc)]];
    simpl; rewrite ?spaceByte_backtick by assumption; exact IH.
Qed.

Lemma dropSpace_lead (lead body : string) :
  allSpace lead = true -> spaceRest body = None ->
  dropSpace (lead +:+ body) = body.
Proof.
  intros Hl Hb. revert lead Hl.
  apply (allSpace_ind (fun lead => dropSpace (lead +:+ body) = body)).
  - rewrite append_nil, dropSpace_eq, Hb. reflexivity.
  - intros s r Hr _ IH.
    rewrite dropSpace_eq, (spaceRest_app s r body Hr). exact IH.
Qed.

(** A text that does not start with white space does not do so either when
    a line feed is put after it. *)
Lemma spaceRest_before_nl (c : ascii) (r t : string) :
  spaceRest (String c r) = None ->
  spaceRest (String c r +:+ String "010" t) = None.
Proof.
  assert (H2 : forall a, isSpace2 a "010"%char = false).
  { intros a. destruct (isSpace2 a "010"%char) eqn:E; [|reflexivity].
    apply isSpace2_bytes in E. change (nat_of_ascii "010") with 10%nat in E. lia. }
  assert (H3 : forall a b, isSpace3 a "010"%char b = false).
  { intros a b. destruct (isSpace3 a "010"%char b) eqn:E; [|reflexivity].
    apply isSpace3_bytes in E. change (nat_of_ascii "010") with 10%nat in E. lia. }
  assert (H3' : forall a b, isSpace3 a b "010"%char = false).
  { intros a b. destruct (isSpace3 a b "010"%char) eqn:E; [|reflexivity].
    apply isSpace3_bytes in E. change (nat_of_ascii "010") with 10%nat in E. lia. }
  unfold spaceRest. rewrite append_cons.
  destruct (isSpace c); [discriminate|].
  destruct r as [|b r].
  { intros _. rewrite append_nil, H2. destruct t; [reflexivity|].
    rewrite H3. reflexivity. }
  rewrite append_cons. destruct (isSpace2 c b); [discriminate|].
  destruct r as [|d r].
  { intros _. rewrite append_nil, H3'. reflexivity. }
  rewrite append_cons. destruct (isSpace3 c b d); [discriminate|reflexivity].
Qed.

(** *** The closing fence *)

(** The tail of a text after a prefix that is no longer than another one. *)
Lemma append_split (a b t u : string) :
  a +:+ t = b +:+ u -> (String.length a <= String.length b)%nat ->
  exists t0, t = t0 +:+ u.
Proof.
  revert b. induction a as [|x a IH]; intros b Heq Hlen; simpl in *.
  - exists b. exact Heq.
  - destruct b as [|y b]; simpl in *; [lia|].
    injection Heq as _ Heq. apply (IH b Heq). lia.
Qed.

Lemma length_append (a b : string) :
  String.length (a +:+ b) = (String.length a + String.length b)%nat.
Proof. induction a as [|x a IH]; simpl; [reflexivity|]. rewrite IH. reflexivity. Qed.

Lemma stripPrefix_Some (p s r : string) :
  stripPrefix p s = Some r -> s = p +:+ r.
Proof.
  revert s. induction p as [|a p IH]; intros s H; simpl in *.
  - injection H as ->. reflexivity.
  - destruct s as [|b s]; [discriminate|].
    destruct (Ascii.eqb_spec a b) as [->|]; [|discriminate].
    rewrite (IH s H). reflexivity.
Qed.

Lemma rest_split (r tail : string) :
  r +:+ nl +:+ fence +:+ tail = (r +:+ nl +:+ "``") +:+ ("`" +:+ tail).
Proof.
  induction r as [|x r IH]; [reflexivity|].
  change (String x r +:+ nl +:+ fence +:+ tail)
    with (String x (r +:+ nl +:+ fence +:+ tail)).
  rewrite IH. reflexivity.
Qed.

(** A text that goes on to a closing fence does not itself match the
    closing pattern unless it is that fence. *)
Lemma closes_before_fence (c : ascii) (r tail : string) :
  closes (String c (r +:+ nl +:+ fence +:+ tail)) = false.
Proof.
  unfold closes.
  set (rest := r +:+ nl +:+ fence +:+ tail).
  assert (Hsuffix : forall u t, fence +:+ t = u ->
            (u = rest \/ u = String c rest) -> allSpace t = false).
  { intros u t Hu Hcase.
    assert (Hex : exists t0, t = t0 +:+ ("`" +:+ tail)).
    { destruct Hcase as [-> | ->].
      - apply (append_split fence (r +:+ nl +:+ "``") t ("`" +:+ tail)).
        + rewrite Hu. unfold rest. apply rest_split.
        + rewrite length_append. simpl. lia.
      - apply (append_split fence (String c (r +:+ nl +:+ "``")) t ("`" +:+ tail)).
        + rewrite Hu. unfold rest. rewrite rest_split. reflexivity.
        + simpl. rewrite length_append. simpl. lia. }
    destruct Hex as (t0 & ->).
    destruct (allSpace (t0 +:+ "`" +:+ tail)) eqn:E; [|reflexivity].
    apply allSpace_no_backtick in E. rewrite hasBacktick_app in E.
    apply orb_false_iff in E as (_ & E). discriminate E. }
  destruct (Ascii.eqb_spec c "010"%char) as [->|Hc].
  - destruct (stripPrefix fence rest) as [t|] eqn:E; [|reflexivity].
    apply (Hsuffix rest t); [symmetry; apply stripPrefix_Some, E|left; reflexivity].
  - destruct (stripPrefix fence (String c rest)) as [t|] eqn:E; [|reflexivity].
    apply (Hsuffix (String c rest) t);
      [symmetry; apply stripPrefix_Some, E|right; reflexivity].
Qed.

Lemma stripClosing_fenced (body tail : string) :
  allSpace tail = true ->
  stripClosing (body +:+ nl +:+ fence +:+ tail) = body.
Proof.
  intros Ht. induction body as [|c r IH].
  - change (EmptyString +:+ nl +:+ fence +:+ tail)
      with (String "010" (String "`" (String "`" (String "`" tail)))).
    cbn [stripClosing]. unfold closes, fence.
    cbn [Ascii.eqb Bool.eqb stripPrefix]. rewrite Ht. reflexivity.
  - change ((String c r) +:+ nl +:+ fence +:+ tail)
      with (String c (r +:+ nl +:+ fence +:+ tail)).
    simpl stripClosing. rewrite closes_before_fence. rewrite IH. reflexivity.
Qed.

(** *** The opening fence *)

Lemma stripPrefix_append (p s : string) : stripPrefix p (p +:+ s) = Some s.
Proof.
  induction p as [|a p IH]; [reflexivity|].
  change (String a p +:+ s) with (String a (p +:+ s)).
  cbn [stripPrefix]. rewrite Ascii.eqb_refl. exact IH.
Qed.

Lemma dropJson_word (word rest : string) :
  lowerString word = "json" -> dropJson (word +:+ rest) = rest.
Proof.
  destruct word as [|a [|b [|c [|d [|e w]]]]]; cbn [lowerString];
    try discriminate.
  intros H.
  change (String a (String b (String c (String d EmptyString))) +:+ rest)
    with (String a (String b (String c (String d rest)))).
  unfold dropJson. cbn [lowerString]. rewrite H. reflexivity.
Qed.

Lemma dropJson_other (c : ascii) (s : string) :
  lower c <> "j"%char -> dropJson (String c s) = String c s.
Proof.
  intros Hc. destruct s as [|b [|c' [|d r]]]; try reflexivity.
  unfold dropJson. cbn [lowerString].
  destruct (String.eqb_spec
              (String (lower c) (String (lower b) (String (lower c')
                 (String (lower d) EmptyString)))) "json") as [H|]; [|reflexivity].
  injection H as H _. destruct (Hc H).
Qed.

(** The word json is not looked for in white space. *)
Lemma dropJson_space (lead rest : string) :
  allSpace lead = true -> lead <> EmptyString ->
  dropJson (lead +:+ rest) = lead +:+ rest.
Proof.
  intros Hl Hne. destruct (allSpace_true lead Hl) as [->|(r & Hr & _)];
    [contradiction|].
  destruct (spaceRest_Some lead r Hr)
    as [(a & -> & Ha)|[(a & b & -> & Ha & _)|(a & b & c & -> & Ha & _)]];
    rewrite append_cons; apply dropJson_other, spaceByte_not_j, Ha.
Qed.

Lemma stripPrefix_no_backtick (u : string) :
  hasBacktick u = false -> stripPrefix fence u = None.
Proof.
  destruct u as [|x u]; intros Hu; [reflexivity|]. simpl in Hu.
  apply orb_false_iff in Hu as (Hx & _).
  unfold fence. cbn [stripPrefix]. rewrite Ascii.eqb_sym, Hx. reflexivity.
Qed.

Lemma closes_no_backtick (s : string) : hasBacktick s = false -> closes s = false.
Proof.
  intros Hb. unfold closes.
  pose proof stripPrefix_no_backtick as Hno.
  destruct s as [|c r]; [reflexivity|].
  simpl in Hb. apply orb_false_iff in Hb as (Hc & Hr).
  destruct (Ascii.eqb c "010"%char).
  - rewrite (Hno r Hr). reflexivity.
  - rewrite (Hno (String c r)); [reflexivity|]. simpl. rewrite Hc, Hr. reflexivity.
Qed.

End FenceFacts.

(** X11.  A reply wrapped in a code fence is unwrapped exactly: an opening
    fence, the word json in any case or at least some white space, a body
    that does not start with white space, a line feed, the closing fence
    and trailing white space leave the body and nothing else, whatever the
    body holds (fences and backticks included).  White space is what [\s]
    matches, the characters above 127 included. *)
Theorem cleaned_unwraps_fence (word lead tail : string) (c : ascii) (r : string) :
  (AnalyzeRoute.lowerString word = "json"
   \/ (word = EmptyString /\ lead <> EmptyString)) ->
  AnalyzeRoute.allSpace lead = true ->
  AnalyzeRoute.spaceRest (String c r) = None ->
  AnalyzeRoute.allSpace tail = true ->
  AnalyzeRoute.cleaned
    (AnalyzeRoute.fence +:+ word +:+ lead +:+ String c r
       +:+ AnalyzeRoute.nl +:+ AnalyzeRoute.fence +:+ tail)
  = String c r.
Proof.
  intros Hword Hlead Hc Htail. unfold AnalyzeRoute.cleaned.
  assert (Hbody : AnalyzeRoute.spaceRest
                    (String c r +:+ AnalyzeRoute.nl +:+ AnalyzeRoute.fence +:+ tail)
                  = None).
  { apply (FenceFacts.spaceRest_before_nl c r (AnalyzeRoute.fence +:+ tail) Hc). }
  assert (Hopen : AnalyzeRoute.stripOpening
            (AnalyzeRoute.fence +:+ word +:+ lead +:+ String c r
               +:+ AnalyzeRoute.nl +:+ AnalyzeRoute.fence +:+ tail)
          = String c r +:+ AnalyzeRoute.nl +:+ AnalyzeRoute.fence +:+ tail).
  { unfold AnalyzeRoute.stripOpening. rewrite FenceFacts.stripPrefix_append.
    destruct Hword as [Hw|(-> & Hne)].
    - rewrite (FenceFacts.dropJson_word word _ Hw).
      apply (FenceFacts.dropSpace_lead lead _ Hlead Hbody).
    - rewrite FenceFacts.append_nil.
      rewrite (FenceFacts.dropJson_space lead _ Hlead Hne).
      apply (FenceFacts.dropSpace_lead lead _ Hlead Hbody). }
  rewrite Hopen. apply FenceFacts.stripClosing_fenced, Htail.
Qed.

Lemma cleaned_unwraps_fence_witness :
  let nbsp := String "194" (String "160" EmptyString) in
  (AnalyzeRoute.lowerString "Json" = "json"
   /\ AnalyzeRoute.allSpace (nbsp +:+ AnalyzeRoute.nl) = true
   /\ AnalyzeRoute.spaceRest (String "{" "}") = None
   /\ AnalyzeRoute.allSpace " " = true)
  /\ AnalyzeRoute.cleaned
       (AnalyzeRoute.fence +:+ "Json" +:+ (nbsp +:+ AnalyzeRoute.nl)
          +:+ String "{" "}" +:+ AnalyzeRoute.nl +:+ AnalyzeRoute.fence +:+ " ")
     = String "{" "}".
Proof.
  cbv zeta.
  assert (H1 : AnalyzeRoute.lowerString "Json" = "json") by reflexivity.
  assert (H2 : AnalyzeRoute.allSpace
                 (String "194" (String "160" EmptyString) +:+ AnalyzeRoute.nl)
               = true) by reflexivity.
  assert (H3 : AnalyzeRoute.spaceRest (String "{" "}") = None) by reflexivity.
  assert (H4 : AnalyzeRoute.allSpace " " = true) by reflexivity.
  exact (conj (conj H1 (conj H2 (conj H3 H4)))
           (cleaned_unwraps_fence "Json" _ " " "{" "}" (or_introl H1) H2 H3 H4)).
Defined.

(** X12.  A reply without any backtick reaches [JSON.parse] as it is. *)
Theorem cleaned_without_backtick (raw : string) :
  hasBacktick raw = false -> AnalyzeRoute.cleaned raw = raw.
Proof.
  intros Hb. unfold AnalyzeRoute.cleaned, AnalyzeRoute.stripOpening.
  rewrite (FenceFacts.stripPrefix_no_backtick raw Hb).
  induction raw as [|c r IH]; [reflexivity|].
  cbn [AnalyzeRoute.stripClosing].
  rewrite (FenceFacts.closes_no_backtick _ Hb).
  simpl in Hb. apply orb_false_iff in Hb as (_ & Hr).
  rewrite (IH Hr). reflexivity.
Qed.

Lemma cleaned_without_backtick_witness :
  hasBacktick "[1, 2]" = false /\ AnalyzeRoute.cleaned "[1, 2]" = "[1, 2]".
Proof.
  assert (H : hasBacktick "[1, 2]" = false) by reflexivity.
  exact (conj H (cleaned_without_backtick "[1, 2]" H)).
Defined.

(** ** The analyze endpoint as a whole *)

Lemma handlers_step_number
    (Number_toString : Number -> string) (callClaude : string -> option string)
    (JSON_parse : string -> option JsValue) (k : Z)
    (handler : StockData -> AnalyzeRoute.Response) :
  AnalyzeRoute.handlers Number_toString callClaude JSON_parse k = Some handler ->
  exists failure,
    forall sd, handler sd
               = AnalyzeRoute.answer callClaude JSON_parse (stepAsNumber k)
                   (AnalyzeRoute.userPrompt Number_toString k sd)
                   (AnalyzeRoute.requiredFields k) failure.
Proof.
  unfold AnalyzeRoute.handlers, AnalyzeRoute.userPrompt,
    AnalyzeRoute.requiredFields, stepAsNumber.
  destruct (Z.eqb_spec k 1); [intros [= <-]; eexists; reflexivity|].
  destruct (Z.eqb_spec k 2); [intros [= <-]; eexists; reflexivity|].
  destruct (Z.eqb_spec k 3); [intros [= <-]; eexists; reflexivity|].
  destruct (Z.eqb_spec k 4); [intros [= <-]; eexists; reflexivity|].
  discriminate.
Qed.



(** X13.  A step handler passes on nothing but the fields of its step:
    whatever else the model put into its reply is dropped.  Every property
    of an answer is [step], [error] or one of the step's fields; an answer
    with status 200 carries the number of the step that was asked for and
    no [error]. *)
Theorem analyze_answer_whitelisted
    (Number_toString : Number -> string) (callClaude : string -> option string)
    (JSON_parse : string -> option JsValue) (k : Z)
    (handler : StockData -> AnalyzeRoute.Response) (sd : StockData) :
  AnalyzeRoute.handlers Number_toString callClaude JSON_parse k = Some handler ->
  (forall f v, assoc f (AnalyzeRoute.body (handler sd)) = Some v ->
     f = "step" \/ f = "error" \/ In f (AnalyzeRoute.requiredFields k))
  /\ (AnalyzeRoute.status (handler sd) = 200 ->
        assoc "step" (AnalyzeRoute.body (handler sd)) = Some (JNum (stepAsNumber k))
        /\ assoc "error" (AnalyzeRoute.body (handler sd)) = None)
  /\ (AnalyzeRoute.status (handler sd) = 200
      \/ AnalyzeRoute.status (handler sd) = 500).
Proof.
  intros Hh. destruct (handlers_step_number _ _ _ k handler Hh) as (failure & Hdef).
  rewrite Hdef. unfold AnalyzeRoute.answer.
  assert (Herr : forall f v,
            assoc f (AnalyzeRoute.body (AnalyzeRoute.errorResponse 500 failure)) = Some v ->
            f = "step" \/ f = "error" \/ In f (AnalyzeRoute.requiredFields k)).
  { intros f v. simpl. destruct (String.eqb_spec f "error"); [auto|discriminate]. }
  destruct (callClaude _) as [text|]; [|split; [exact Herr|split; [discriminate|auto]]].
  destruct (AnalyzeRoute.parseJSON JSON_parse text) as [parsed|];
    [|split; [exact Herr|split; [discriminate|auto]]].
  destruct (AnalyzeRoute.isNull parsed);
    [split; [exact Herr|split; [discriminate|auto]]|].
  split; [|split; [|auto]].
  - intros f v. simpl.
    destruct (String.eqb_spec f "step"); [auto|].
    intros Hf. right. right.
    destruct (in_dec String.string_dec f (AnalyzeRoute.requiredFields k)) as [Hin|Hnin];
      [exact Hin|].
    rewrite (AnalyzeFacts.assoc_absent _ _ f Hnin) in Hf. discriminate.
  - intros _. simpl. split; [reflexivity|].
    apply AnalyzeFacts.assoc_absent.
    unfold AnalyzeRoute.requiredFields, AnalyzeRoute.fields1, AnalyzeRoute.fields2,
      AnalyzeRoute.fields3, AnalyzeRoute.fields4.
    destruct (k =? 1); [|destruct (k =? 2); [|destruct (k =? 3)]];
      simpl; intros H; repeat (destruct H as [H|H]; [discriminate H|]); exact H.
Qed.

Lemma analyze_answer_whitelisted_witness :
  AnalyzeRoute.handlers (fun _ => EmptyString) (fun _ => Some "{}")
    parseEmptyObject 2
  = Some (AnalyzeRoute.handleStep2 (fun _ => EmptyString) (fun _ => Some "{}")
            parseEmptyObject)
  /\ assoc "step"
       (AnalyzeRoute.body
          (AnalyzeRoute.handleStep2 (fun _ => EmptyString) (fun _ => Some "{}")
             parseEmptyObject Sample.KO))
     = Some (JNum (stepAsNumber 2)).
Proof.
  split; [reflexivity|].
  apply (analyze_answer_whitelisted (fun _ => EmptyString) (fun _ => Some "{}")
           parseEmptyObject 2 _ Sample.KO eq_refl).
  vm_compute; reflexivity.
Defined.






(** A step handed over as a string or in an array reaches the handler of
    the number it spells; an object with a [toString] of its own cannot be
    turned into a key. *)
Example analyze_POST_step_as_text :
  AnalyzeRoute.POST (fun _ => EmptyString) (fun _ => None) parseEmptyObject
    (Some (JStr "1")) (Some Sample.KO)
  = AnalyzeRoute.Responded
      (AnalyzeRoute.errorResponse 500 "Failed to analyze business")
  /\ AnalyzeRoute.POST (fun _ => EmptyString) (fun _ => None) parseEmptyObject
       (Some (JArr [JStr "2"])) (Some Sample.KO)
     = AnalyzeRoute.Responded
         (AnalyzeRoute.errorResponse 500 "Failed to analyze competitive advantage")
  /\ AnalyzeRoute.POST (fun _ => EmptyString) (fun _ => None) parseEmptyObject
       (Some (JObj [("toString", JNum 1%float)])) (Some Sample.KO)
     = AnalyzeRoute.NoResponse.
Proof. split; [|split]; reflexivity. Qed.

(** ** The storage client *)

Lemma getSupabaseTimes_cached {Client : Type}
    (createClient : string -> string -> string + Client) (n : nat)
    (url key : string) (st : Supabase.State Client) (c : Client) :
  Supabase._supabase st = Some c ->
  Supabase.getSupabaseTimes Client createClient n url key st
  = (repeat (inr c) n, st).
Proof.
  intros Hc. induction n as [|n IH]; [reflexivity|].
  cbn [Supabase.getSupabaseTimes]. unfold Supabase.getSupabase at 1.
  rewrite Hc, IH. reflexivity.
Qed.

(** While nothing is cached every call does the same. *)
Lemma getSupabaseTimes_failing {Client : Type}
    (createClient : string -> string -> string + Client) (n : nat)
    (url key msg : string) (st : Supabase.State Client) (d : nat) :
  Supabase._supabase st = None ->
  Supabase.getSupabase Client createClient url key st
  = (inl msg, {| Supabase._supabase := None;
                 Supabase.createCalls := d + Supabase.createCalls st |}) ->
  Supabase.getSupabaseTimes Client createClient n url key st
  = (repeat (inl msg) n,
     {| Supabase._supabase := None;
        Supabase.createCalls := n * d + Supabase.createCalls st |}).
Proof.
  revert st. induction n as [|n IH]; intros st Hnone Hget.
  - destruct st as [s c]. simpl in Hnone. subst s. reflexivity.
  - cbn [Supabase.getSupabaseTimes]. rewrite Hget.
    rewrite (IH {| Supabase._supabase := None;
                   Supabase.createCalls := d + Supabase.createCalls st |} eq_refl).
    + cbn [Supabase.createCalls repeat]. do 2 f_equal. lia.
    + revert Hget. unfold Supabase.getSupabase. rewrite Hnone.
      cbn [Supabase._supabase Supabase.createCalls].
      destruct (_ || _).
      * intros [= -> Hd]. apply (f_equal Supabase.createCalls) in Hd.
        cbn [Supabase.createCalls] in Hd. do 2 f_equal. lia.
      * destruct (createClient url key) as [m|c]; [|discriminate].
        intros [= -> Hd]. do 2 f_equal. lia.
Qed.

(** X15.  Every call of [getSupabase] gives the same result, and at most
    one client is ever cached.  Without a usable configuration each call
    throws the configuration message and [createClient] is not called.
    With one, once [createClient] has returned a client that client is
    cached and returned by every call, and [createClient] is not called
    again; when [createClient] throws, each call throws its message,
    nothing is cached and every call calls it again. *)
Theorem getSupabase_one_client {Client : Type}
    (createClient : string -> string -> string + Client) (n : nat)
    (url key : string) :
  let usable := negb (String.eqb url EmptyString || String.eqb key EmptyString
                      || Supabase.startsWithYour url) in
  let rs := fst (Supabase.getSupabaseTimes Client createClient n url key
                   Supabase.initial) in
  let st := snd (Supabase.getSupabaseTimes Client createClient n url key
                   Supabase.initial) in
  (forall r r', In r rs -> In r' rs -> r = r')
  /\ (usable = false ->
        rs = repeat (inl Supabase.notConfiguredMessage) n
        /\ st = Supabase.initial)
  /\ (usable = true -> forall c, createClient url key = inr c ->
        rs = repeat (inr c) n
        /\ (n <> O -> Supabase.createCalls st = 1%nat
                      /\ Supabase._supabase st = Some c))
  /\ (usable = true -> forall msg, createClient url key = inl msg ->
        rs = repeat (inl msg) n
        /\ Supabase.createCalls st = n
        /\ Supabase._supabase st = None).
Proof.
  cbv zeta.
  assert (Hsame : forall (x : string + Client) r r',
            In r (repeat x n) -> In r' (repeat x n) -> r = r').
  { intros x r r' H1 H2. apply repeat_spec in H1, H2. congruence. }
  destruct (String.eqb url EmptyString || String.eqb key EmptyString
            || Supabase.startsWithYour url) eqn:Hbad; cbn [negb].
  - rewrite (getSupabaseTimes_failing createClient n url key
               Supabase.notConfiguredMessage Supabase.initial 0 eq_refl).
    + cbn [fst snd]. rewrite Nat.mul_0_r.
      split; [apply Hsame|]. split; [intros _; split; reflexivity|].
      split; discriminate.
    + unfold Supabase.getSupabase. cbn [Supabase._supabase Supabase.initial].
      rewrite Hbad. reflexivity.
  - destruct (createClient url key) as [msg|c] eqn:Hc.
    + rewrite (getSupabaseTimes_failing createClient n url key msg
                 Supabase.initial 1 eq_refl).
      * cbn [fst snd Supabase.createCalls Supabase._supabase Supabase.initial].
        split; [apply Hsame|]. split; [discriminate|].
        split; [intros _ c [=]|].
        intros _ m [= <-]. split; [reflexivity|]. split; [lia|reflexivity].
      * unfold Supabase.getSupabase. cbn [Supabase._supabase Supabase.initial].
        rewrite Hbad, Hc. reflexivity.
    + assert (H : Supabase.getSupabaseTimes Client createClient n url key
                    Supabase.initial
                  = (repeat (inr c) n,
                     match n with
                     | O => Supabase.initial
                     | S _ => {| Supabase._supabase := Some c;
                                 Supabase.createCalls := 1 |}
                     end)).
      { destruct n as [|n]; [reflexivity|].
        cbn [Supabase.getSupabaseTimes]. unfold Supabase.getSupabase at 1.
        cbn [Supabase._supabase Supabase.initial]. rewrite Hbad, Hc.
        erewrite getSupabaseTimes_cached by reflexivity. reflexivity. }
      rewrite H. cbn [fst snd].
      split; [apply Hsame|]. split; [discriminate|].
      split; [|intros _ m [=]].
      intros _ c' [= <-]. split; [reflexivity|].
      destruct n as [|n]; [intros Hn; destruct (Hn eq_refl)|].
      intros _. split; reflexivity.
Qed.

(** A URL that [createClient] refuses: every call throws and nothing is
    kept. *)
Example getSupabase_refused_url :
  Supabase.getSupabaseTimes string
    (fun url _ => if String.eqb url "abc" then inl "Invalid supabaseUrl"
                  else inr url) 2 "abc" "key" Supabase.initial
  = ([inl "Invalid supabaseUrl"; inl "Invalid supabaseUrl"],
     {| Supabase._supabase := None; Supabase.createCalls := 2 |}).
Proof. reflexivity. Qed.

(** ** The stock endpoint *)

Module StockFacts.

Lemma truthy_Some (x : option Number) :
  StockRoute.truthy x = true -> exists v, x = Some v.
Proof. destruct x as [v|]; [eauto|discriminate]. Qed.

Lemma orString_nonempty (a : option string) (b : string) :
  b <> EmptyString -> StockRoute.orString a b <> EmptyString.
Proof.
  intros Hb. unfold StockRoute.orString. destruct a as [s|]; [|exact Hb].
  destruct (String.eqb_spec s EmptyString); assumption.
Qed.

Lemma go_values (X Y : option Number) (tax : Number) :
  StockRoute.truthy X && StockRoute.truthy Y && StockRoute.positive Y = true ->
  exists oi ic,
    X = Some oi /\ Y = Some ic
    /\ StockRoute.truthy (Some oi) = true
    /\ StockRoute.positive (Some ic) = true.
Proof.
  intros H. apply andb_true_iff in H as (H & Hpos).
  apply andb_true_iff in H as (HX & HY).
  destruct X as [oi|]; [|discriminate]. destruct Y as [ic|]; [|discriminate].
  eauto 6.
Qed.

Lemma noteBefore_not_insufficient latestFin latestBs financial :
  StockRoute.noteBefore latestFin latestBs financial <> Some StockRoute.noteInsufficient.
Proof.
  unfold StockRoute.noteBefore, StockRoute.operatingIncomeOf, StockRoute.investedCapitalOf.
  destruct (StockRoute.truthy (latestFin ≫= StockRoute.operatingIncome));
    [|destruct (_ && _)];
    (destruct (StockRoute.truthy (latestBs ≫= StockRoute.investedCapital));
     [|destruct (_ && _)]); vm_compute; discriminate.
Qed.

Lemma noteBefore_None latestFin latestBs financial :
  StockRoute.truthy (fst (StockRoute.operatingIncomeOf latestFin financial)) = true ->
  StockRoute.truthy
    (fst (StockRoute.investedCapitalOf latestBs
            (snd (StockRoute.operatingIncomeOf latestFin financial)))) = true ->
  (StockRoute.noteBefore latestFin latestBs financial = None <->
     StockRoute.truthy (latestFin ≫= StockRoute.operatingIncome) = true
     /\ StockRoute.truthy (latestBs ≫= StockRoute.investedCapital) = true).
Proof.
  unfold StockRoute.noteBefore, StockRoute.operatingIncomeOf, StockRoute.investedCapitalOf.
  destruct (StockRoute.truthy (latestFin ≫= StockRoute.operatingIncome)) eqn:Hoi;
    [|destruct (_ && _)];
    (destruct (StockRoute.truthy (latestBs ≫= StockRoute.investedCapital)) eqn:Hic;
     [|destruct (_ && _)]); cbn [fst snd]; intros H1 H2;
    try discriminate H1; try discriminate H2;
    (split; [try (vm_compute; discriminate); auto|intros (? & ?); congruence]).
Qed.

Lemma direct_values latestFin latestBs financial :
  StockRoute.truthy (latestFin ≫= StockRoute.operatingIncome) = true ->
  StockRoute.truthy (latestBs ≫= StockRoute.investedCapital) = true ->
  fst (StockRoute.operatingIncomeOf latestFin financial)
  = latestFin ≫= StockRoute.operatingIncome
  /\ fst (StockRoute.investedCapitalOf latestBs
            (snd (StockRoute.operatingIncomeOf latestFin financial)))
     = latestBs ≫= StockRoute.investedCapital.
Proof.
  unfold StockRoute.operatingIncomeOf, StockRoute.investedCapitalOf.
  intros -> ->. split; reflexivity.
Qed.

Lemma roicV2_unfold balanceSheet financials financial :
  StockRoute.roicV2 balanceSheet financials financial
  = let latestBs := StockRoute.latest balanceSheet in
    let latestFin := StockRoute.latest financials in
    let oi := fst (StockRoute.operatingIncomeOf latestFin financial) in
    let ic := fst (StockRoute.investedCapitalOf latestBs
                     (snd (StockRoute.operatingIncomeOf latestFin financial))) in
    if StockRoute.truthy oi && StockRoute.truthy ic && StockRoute.positive ic
    then (o ← oi; i ← ic;
          Some (StockRoute.roicFormula o (StockRoute.taxRateOf latestFin) i),
          StockRoute.noteBefore latestFin latestBs financial)
    else (None, Some StockRoute.noteInsufficient).
Proof.
  unfold StockRoute.roicV2, StockRoute.noteBefore. cbv zeta.
  destruct (StockRoute.operatingIncomeOf _ _) as [oi n1].
  cbn [fst snd].
  destruct (StockRoute.investedCapitalOf _ _) as [ic n2].
  reflexivity.
Qed.

End StockFacts.

(** What the later version computes: no [roic] exactly under the
    insufficient-data note; a [roic] by the formula, from a truthy operating
    income and a positive invested capital; no note exactly when both were
    read directly from the latest rows. *)
Lemma roicV2_spec
    (balanceSheet financials : option (list StockRoute.Row))
    (financial : option StockRoute.FinancialData) :
  let r := StockRoute.roicV2 balanceSheet financials financial in
  (fst r = None <-> snd r = Some StockRoute.noteInsufficient)
  /\ (forall v, fst r = Some v ->
        exists oi ic,
          StockRoute.truthy (Some oi) = true
          /\ StockRoute.positive (Some ic) = true
          /\ v = StockRoute.roicFormula oi
                   (StockRoute.taxRateOf (StockRoute.latest financials)) ic)
  /\ (snd r = None <->
        StockRoute.truthy (StockRoute.latest financials
                             ≫= StockRoute.operatingIncome) = true
        /\ StockRoute.truthy (StockRoute.latest balanceSheet
                                ≫= StockRoute.investedCapital) = true
        /\ StockRoute.positive (StockRoute.latest balanceSheet
                                  ≫= StockRoute.investedCapital) = true).
Proof.
  cbv zeta. rewrite StockFacts.roicV2_unfold. cbv zeta.
  set (latestFin := StockRoute.latest financials).
  set (latestBs := StockRoute.latest balanceSheet).
  pose proof (StockFacts.noteBefore_not_insufficient latestFin latestBs financial)
    as Hnote.
  pose proof (StockFacts.noteBefore_None latestFin latestBs financial) as Hnone.
  pose proof (StockFacts.direct_values latestFin latestBs financial) as Hdirect.
  destruct (_ && _ && _) eqn:Hgo; cbn [fst snd].
  - destruct (StockFacts.go_values _ _
                (StockRoute.taxRateOf latestFin) Hgo)
      as (oi & ic & Eoi & Eic & Hoi & Hic).
    rewrite Eoi, Eic in *. cbn [mbind option_bind].
    split; [split; [discriminate|intros H; destruct (Hnote H)]|].
    split; [intros v [= <-]; eauto 6|].
    apply andb_true_iff in Hgo as (Hgo & Hpos).
    apply andb_true_iff in Hgo as (H1 & H2).
    rewrite (Hnone H1 H2). split.
    + intros (D1 & D2). destruct (Hdirect D1 D2) as (_ & E2).
      rewrite <- E2. auto.
    + intros (D1 & D2 & _). auto.
  - split; [split; reflexivity|]. split; [discriminate|].
    split; [discriminate|]. intros (D1 & D2 & D3).
    destruct (Hdirect D1 D2) as (E1 & E2). rewrite E1, E2, D1, D2, D3 in Hgo.
    discriminate Hgo.
Qed.

Lemma jsonNumber_None (v : Number) :
  StockRoute.jsonNumber (Some v) = None <-> PrimFloat.is_finite v = false.
Proof.
  unfold StockRoute.jsonNumber, PrimFloat.is_finite.
  destruct (PrimFloat.is_nan v || PrimFloat.is_infinity v).
  - split; reflexivity.
  - destruct (PrimFloat.eqb v 0%float); split; discriminate.
Qed.

Lemma jsonNumber_Some (v w : Number) :
  StockRoute.jsonNumber (Some v) = Some w ->
  PrimFloat.is_finite v = true /\ PrimFloat.is_finite w = true
  /\ (w = v \/ (w = 0%float /\ PrimFloat.eqb v 0%float = true)).
Proof.
  unfold StockRoute.jsonNumber, PrimFloat.is_finite.
  destruct (PrimFloat.is_nan v || PrimFloat.is_infinity v) eqn:E; [discriminate|].
  destruct (PrimFloat.eqb v 0%float) eqn:Z.
  - intros [= <-]. split; [reflexivity|]. split; [reflexivity|]. right. auto.
  - intros [= <-]. rewrite E. split; [reflexivity|]. split; [reflexivity|]. left.
    reflexivity.
Qed.

(** X16.  What the client reads from the stock endpoint: [roic] is the
    quotient the route computed, as [NextResponse.json] writes it, and
    [roicNote] the note.  The note is the insufficient-data note exactly
    when no quotient was computed, and [roic] is [null] then.  [roic] is
    also [null], under another note or none, when the quotient is not a
    finite number; a [roic] that is given is finite and is the formula's
    value for a truthy operating income and a positive invested capital
    ([0] standing for [-0]).  There is no note exactly when a quotient was
    computed from values read directly from the latest rows. *)
Theorem roic_null_explained_unless_overflow
    (toUpperCase : string -> string)
    (quoteSummary : string -> option StockRoute.QuoteSummary)
    (fundamentalsTimeSeries : string -> string -> option (list StockRoute.Row))
    (t : string) (summary : StockRoute.QuoteSummary) (answer : StockRoute.Answer) :
  StockRoute.GET toUpperCase quoteSummary fundamentalsTimeSeries (Some t)
  = StockRoute.Found answer ->
  quoteSummary (toUpperCase t) = Some summary ->
  let balanceSheet := fundamentalsTimeSeries (toUpperCase t) "balance-sheet" in
  let financials := fundamentalsTimeSeries (toUpperCase t) "financials" in
  let r := StockRoute.roicV2 balanceSheet financials
             (StockRoute.financialData summary) in
  (roic (StockRoute.data answer) = StockRoute.jsonNumber (fst r)
   /\ StockRoute.roicNote answer = snd r)
  /\ (StockRoute.roicNote answer = Some StockRoute.noteInsufficient
      <-> fst r = None)
  /\ (StockRoute.roicNote answer = Some StockRoute.noteInsufficient ->
        roic (StockRoute.data answer) = None)
  /\ (roic (StockRoute.data answer) = None ->
        StockRoute.roicNote answer = Some StockRoute.noteInsufficient
        \/ exists q, fst r = Some q /\ PrimFloat.is_finite q = false)
  /\ (forall v, roic (StockRoute.data answer) = Some v ->
        PrimFloat.is_finite v = true
        /\ exists oi ic q,
             StockRoute.truthy (Some oi) = true
             /\ StockRoute.positive (Some ic) = true
             /\ q = StockRoute.roicFormula oi
                      (StockRoute.taxRateOf (StockRoute.latest financials)) ic
             /\ (v = q \/ (v = 0%float /\ PrimFloat.eqb q 0%float = true)))
  /\ (StockRoute.roicNote answer = None <->
        StockRoute.truthy (StockRoute.latest financials
                             ≫= StockRoute.operatingIncome) = true
        /\ StockRoute.truthy (StockRoute.latest balanceSheet
                                ≫= StockRoute.investedCapital) = true
        /\ StockRoute.positive (StockRoute.latest balanceSheet
                                  ≫= StockRoute.investedCapital) = true).
Proof.
  intros HGET Hsum. cbv zeta.
  destruct (roicV2_spec (fundamentalsTimeSeries (toUpperCase t) "balance-sheet")
              (fundamentalsTimeSeries (toUpperCase t) "financials")
              (StockRoute.financialData summary)) as (Hnone & Hval & Hdirect).
  assert (Hans : roic (StockRoute.data answer)
                 = StockRoute.jsonNumber
                     (fst (StockRoute.roicV2
                             (fundamentalsTimeSeries (toUpperCase t) "balance-sheet")
                             (fundamentalsTimeSeries (toUpperCase t) "financials")
                             (StockRoute.financialData summary)))
                 /\ StockRoute.roicNote answer
                    = snd (StockRoute.roicV2
                             (fundamentalsTimeSeries (toUpperCase t) "balance-sheet")
                             (fundamentalsTimeSeries (toUpperCase t) "financials")
                             (StockRoute.financialData summary))).
  { revert HGET. unfold StockRoute.GET.
    destruct (String.eqb t EmptyString); [discriminate|].
    rewrite Hsum. intros [= <-]. unfold StockRoute.dataOf.
    destruct (StockRoute.roicV2 _ _ _) as [q note]. split; reflexivity. }
  destruct Hans as (Hroic & Hnote).
  set (r := StockRoute.roicV2 _ _ _) in *.
  split; [split; assumption|]. rewrite Hroic, Hnote.
  split; [symmetry; exact Hnone|].
  split; [intros H; apply Hnone in H; rewrite H; reflexivity|].
  split; [|split; [|exact Hdirect]].
  - destruct (fst r) as [q|] eqn:Eq.
    + intros H. right. exists q. split; [reflexivity|].
      apply jsonNumber_None, H.
    + intros _. left. apply Hnone. reflexivity.
  - intros v Hv. destruct (fst r) as [q|] eqn:Eq; [|discriminate Hv].
    destruct (jsonNumber_Some q v Hv) as (_ & Hfin & Hcase).
    split; [exact Hfin|].
    destruct (Hval q eq_refl) as (oi & ic & Hoi & Hic & Hq).
    exists oi, ic, q. auto.
Qed.

Lemma roic_null_explained_unless_overflow_witness :
  let summary := {| StockRoute.price := None;
                    StockRoute.summaryDetail := None;
                    StockRoute.financialData := None;
                    StockRoute.defaultKeyStatistics := None;
                    StockRoute.summaryProfile := None |} in
  let row (oi ic : option Number) :=
    {| StockRoute.operatingIncome := oi; StockRoute.investedCapital := ic;
       StockRoute.totalAssets := None; StockRoute.currentLiabilities := None;
       StockRoute.taxRateForCalcs := None |} in
  let series (_ m : string) :=
    if String.eqb m "financials" then Some [row (Some 0x1p1023%float) None]
    else Some [row None (Some 0x1p-1000%float)] in
  let answer := StockRoute.json (StockRoute.dataOf "KO" summary
                                   (series "KO" "balance-sheet")
                                   (series "KO" "financials")) in
  (roic (StockRoute.data answer) = None /\ StockRoute.roicNote answer = None)
  /\ exists q, fst (StockRoute.roicV2 (series "KO" "balance-sheet")
                      (series "KO" "financials") None) = Some q
               /\ PrimFloat.is_finite q = false.
Proof.
  cbv zeta.
  set (summary := {| StockRoute.price := None;
                     StockRoute.summaryDetail := None;
                     StockRoute.financialData := None;
                     StockRoute.defaultKeyStatistics := None;
                     StockRoute.summaryProfile := None |}).
  set (series := fun (_ m : string) =>
                   if String.eqb m "financials"
                   then Some [ {| StockRoute.operatingIncome := Some 0x1p1023%float;
                                  StockRoute.investedCapital := None;
                                  StockRoute.totalAssets := None;
                                  StockRoute.currentLiabilities := None;
                                  StockRoute.taxRateForCalcs := None |} ]
                   else Some [ {| StockRoute.operatingIncome := None;
                                  StockRoute.investedCapital := Some 0x1p-1000%float;
                                  StockRoute.totalAssets := None;
                                  StockRoute.currentLiabilities := None;
                                  StockRoute.taxRateForCalcs := None |} ]).
  set (answer := StockRoute.json
                   (StockRoute.dataOf "KO" summary (series "KO" "balance-sheet")
                      (series "KO" "financials"))).
  assert (Hroic : roic (StockRoute.data answer) = None)
    by (vm_compute; reflexivity).
  assert (Hnote : StockRoute.roicNote answer = None)
    by (vm_compute; reflexivity).
  assert (HGET : StockRoute.GET (fun s => s) (fun _ => Some summary) series
                   (Some "KO") = StockRoute.Found answer)
    by (vm_compute; reflexivity).
  refine (conj (conj Hroic Hnote) _).
  destruct (proj1 (proj2 (proj2 (proj2
              (roic_null_explained_unless_overflow (fun s => s)
                 (fun _ => Some summary) series "KO" summary answer
                 HGET eq_refl)))) Hroic) as [H|H].
  - rewrite Hnote in H. discriminate H.
  - exact H.
Defined.

(** X17.  The later version of the stock endpoint agrees with the earlier
    one wherever the earlier one gave a ROIC: when one series holds both
    the income and the balance-sheet figures, the same number comes out,
    without a note. *)
Theorem roic_versions_agree (rows : option (list StockRoute.Row))
    (financial : option StockRoute.FinancialData) (v : Number) :
  StockRoute.roicV1 rows = Some v ->
  StockRoute.roicV2 rows rows financial = (Some v, None).
Proof.
  unfold StockRoute.roicV1. rewrite StockFacts.roicV2_unfold. cbv zeta.
  unfold StockRoute.taxRateOf.
  destruct (StockRoute.latest rows) as [r|]; [|discriminate].
  destruct (StockRoute.truthy (StockRoute.operatingIncome r)) eqn:Hoi;
    [|discriminate].
  destruct (StockRoute.truthy (StockRoute.investedCapital r)) eqn:Hic;
    [|discriminate].
  destruct (StockRoute.positive (StockRoute.investedCapital r)) eqn:Hpos;
    [|discriminate].
  cbn [andb]. intros H.
  destruct (StockFacts.direct_values (Some r) (Some r) financial Hoi Hic)
    as (E1 & E2).
  assert (Hnote : StockRoute.noteBefore (Some r) (Some r) financial = None).
  { apply StockFacts.noteBefore_None; [rewrite E1; exact Hoi|rewrite E2; exact Hic|].
    split; [exact Hoi|exact Hic]. }
  rewrite E1, E2, Hnote. cbn [mbind option_bind].
  rewrite Hoi, Hic, Hpos. cbn [andb]. rewrite H. reflexivity.
Qed.

Lemma roic_versions_agree_witness :
  let rows := Some [ {| StockRoute.operatingIncome := Some 10%float;
                        StockRoute.investedCapital := Some 100%float;
                        StockRoute.totalAssets := None;
                        StockRoute.currentLiabilities := None;
                        StockRoute.taxRateForCalcs := None |} ] in
  StockRoute.roicV2 rows rows None
  = (Some (StockRoute.roicFormula 10%float StockRoute.defaultTaxRate 100%float), None).
Proof.
  cbv zeta. apply roic_versions_agree. vm_compute; reflexivity.
Defined.

(** X18.  What the stock endpoint answers for a ticker can always be saved:
    the answer has a non-empty ticker and company name (the symbol stands
    in for a missing name), so the memo the page builds from it passes the
    memo endpoint's check of required fields and goes to the storage. *)
Theorem memo_of_stock_answer_reaches_storage {Row : Type}
    (toUpperCase : string -> string)
    (quoteSummary : string -> option StockRoute.QuoteSummary)
    (fundamentalsTimeSeries : string -> string -> option (list StockRoute.Row))
    (t : option string) (answer : StockRoute.Answer)
    (rs : list StepResult) (f : Flow) (insert : MemoBody -> option Row) :
  (forall s, s <> EmptyString -> toUpperCase s <> EmptyString) ->
  StockRoute.GET toUpperCase quoteSummary fundamentalsTimeSeries t
  = StockRoute.Found answer ->
  ticker (StockRoute.data answer) <> EmptyString
  /\ companyName (StockRoute.data answer) <> EmptyString
  /\ MemosRoute.POST Row (MemosRoute.Configured insert)
       (saveMemoBody (StockRoute.data answer) rs f)
     = match insert (saveMemoBody (StockRoute.data answer) rs f) with
       | Some row => MemosRoute.MemoSaved row
       | None => MemosRoute.MemoError 500 "Failed to save memo"
       end.
Proof.
  intros Hup. unfold StockRoute.GET.
  destruct t as [t|]; [|discriminate].
  destruct (String.eqb_spec t EmptyString) as [|Ht]; [discriminate|].
  destruct (quoteSummary (toUpperCase t)) as [summary|]; [|discriminate].
  intros [= <-]. unfold StockRoute.dataOf.
  destruct (StockRoute.roicV2 _ _ _) as [roic note].
  cbn [StockRoute.json StockRoute.data ticker companyName].
  assert (Hsym : toUpperCase t <> EmptyString) by (apply Hup, Ht).
  assert (Hname : StockRoute.orString
                    (StockRoute.price summary ≫= StockRoute.longName)
                    (StockRoute.orString
                       (StockRoute.price summary ≫= StockRoute.shortName)
                       (toUpperCase t)) <> EmptyString).
  { apply StockFacts.orString_nonempty, StockFacts.orString_nonempty, Hsym. }
  split; [exact Hsym|]. split; [exact Hname|].
  unfold MemosRoute.POST, MemosRoute.isEmpty.
  cbn [m_ticker company_name saveMemoBody StockRoute.json StockRoute.data ticker companyName].
  destruct (String.eqb_spec (toUpperCase t) EmptyString) as [E|_]; [destruct (Hsym E)|].
  destruct (String.eqb_spec
              (StockRoute.orString (StockRoute.price summary ≫= StockRoute.longName)
                 (StockRoute.orString
                    (StockRoute.price summary ≫= StockRoute.shortName)
                    (toUpperCase t))) EmptyString) as [E|_];
    [destruct (Hname E)|].
  reflexivity.
Qed.

Lemma memo_of_stock_answer_reaches_storage_witness :
  let summary := {| StockRoute.price := None;
                    StockRoute.summaryDetail := None;
                    StockRoute.financialData := None;
                    StockRoute.defaultKeyStatistics := None;
                    StockRoute.summaryProfile := None |} in
  companyName (StockRoute.data
                 (StockRoute.json (StockRoute.dataOf "KO" summary None None)))
  <> EmptyString.
Proof.
  cbv zeta.
  exact (proj1 (proj2
           (memo_of_stock_answer_reaches_storage (Row := MemoBody)
              (fun s => s) (fun _ => Some _) (fun _ _ => None)
              (Some "KO") _ [] initialFlow (fun b => Some b)
              (fun s H => H) eq_refl))).
Defined.

(** ** The quotes endpoint *)

Module QuotesFacts.

Lemma filter_length {A : Type} (p : A -> bool) (l : list A) :
  (length (List.filter p l) <= length l)%nat.
Proof. induction l as [|x l IH]; simpl; [lia|destruct (p x); simpl; lia]. Qed.

Lemma Forall_take {A : Type} (P : A -> Prop) (n : nat) (l : list A) :
  Forall P l -> Forall P (take n l).
Proof.
  intros H. revert n. induction H as [|x l Hx Hl IH]; intros [|n]; simpl;
    constructor; auto.
Qed.

Lemma Forall_filter {A : Type} (p : A -> bool) (l : list A) :
  Forall (fun x => p x = true) (List.filter p l).
Proof.
  induction l as [|x l IH]; simpl; [constructor|].
  destruct (p x) eqn:E; [constructor; assumption|assumption].
Qed.

Lemma split_nonempty (s : string) : QuotesRoute.split s <> [].
Proof.
  destruct s as [|c s]; [discriminate|]. cbn [QuotesRoute.split].
  destruct (Ascii.eqb c ","%char); [discriminate|].
  destruct (QuotesRoute.split s); discriminate.
Qed.

(** Joining the pieces with commas gives the text back. *)
Lemma split_join (s : string) :
  String.concat "," (QuotesRoute.split s) = s.
Proof.
  induction s as [|c s IH]; [reflexivity|].
  cbn [QuotesRoute.split].
  pose proof (split_nonempty s) as Hne.
  destruct (QuotesRoute.split s) as [|p ps]; [destruct (Hne eq_refl)|].
  destruct (Ascii.eqb_spec c ","%char) as [->|Hc].
  - change (String.concat "," ("" :: p :: ps))
      with (String "," (String.concat "," (p :: ps))).
    rewrite IH. reflexivity.
  - destruct ps as [|q qs].
    + cbn [String.concat] in *. rewrite IH. reflexivity.
    + change (String.concat "," (String c p :: q :: qs))
        with (String c (String.concat "," (p :: q :: qs))).
      rewrite IH. reflexivity.
Qed.

Lemma split_pieces (s : string) :
  (length (QuotesRoute.split s) <= S (String.length s))%nat.
Proof.
  induction s as [|c s IH]; simpl; [lia|].
  destruct (Ascii.eqb c ","%char); simpl; [lia|].
  destruct (QuotesRoute.split s); simpl in *; lia.
Qed.

End QuotesFacts.

(** X19.  The quotes endpoint answers one row per symbol asked for, in the
    order asked, whether or not the provider has a quote: at most twenty
    rows, none with an empty ticker, and never the status 500.  The only
    failure is 400, for a missing or empty parameter. *)
Theorem quotes_one_row_per_symbol
    (trim toUpperCase : string -> string)
    (quote : string -> option QuotesRoute.Quote) (tickersParam : option string) :
  match QuotesRoute.GET trim toUpperCase quote tickersParam with
  | QuotesRoute.Failed status _ =>
      status = 400
      /\ (tickersParam = None \/ tickersParam = Some EmptyString)
  | QuotesRoute.Rows rows =>
      exists p,
        tickersParam = Some p
        /\ map QuotesRoute.q_ticker rows = QuotesRoute.symbolsOf trim toUpperCase p
        /\ (length rows <= 20)%nat
        /\ (length rows <= S (String.length p))%nat
        /\ Forall (fun r => QuotesRoute.q_ticker r <> EmptyString) rows
        /\ Forall (fun r => QuotesRoute.q_price r
                            = quote (QuotesRoute.q_ticker r)
                                ≫= QuotesRoute.q_regularMarketPrice) rows
  end.
Proof.
  unfold QuotesRoute.GET. destruct tickersParam as [p|]; [|auto].
  destruct (String.eqb_spec p EmptyString) as [->|Hp]; [auto|].
  cbv zeta.
  assert (Hrow : forall s, QuotesRoute.q_ticker (QuotesRoute.rowOf quote s) = s).
  { intros s. unfold QuotesRoute.rowOf. destruct (quote s); reflexivity. }
  assert (Hmap : forall l, map QuotesRoute.q_ticker (map (QuotesRoute.rowOf quote) l) = l).
  { induction l as [|s l IH]; [reflexivity|]. cbn [map]. rewrite Hrow. f_equal. exact IH. }
  assert (Hlen : (length (QuotesRoute.symbolsOf trim toUpperCase p)
                  <= Nat.min 20 (S (String.length p)))%nat).
  { unfold QuotesRoute.symbolsOf. rewrite length_take.
    pose proof (QuotesFacts.filter_length QuotesRoute.nonEmpty
                  (map (fun t => toUpperCase (trim t)) (QuotesRoute.split p))) as H1.
    rewrite length_map in H1.
    pose proof (QuotesFacts.split_pieces p). lia. }
  assert (Hne : Forall (fun s => s <> EmptyString)
                  (QuotesRoute.symbolsOf trim toUpperCase p)).
  { unfold QuotesRoute.symbolsOf. apply QuotesFacts.Forall_take.
    eapply Forall_impl; [apply QuotesFacts.Forall_filter|].
    intros s Hs ->. discriminate Hs. }
  destruct (Nat.eqb_spec (length (QuotesRoute.symbolsOf trim toUpperCase p)) 0)
    as [H0|H0].
  - exists p. destruct (QuotesRoute.symbolsOf trim toUpperCase p); [|discriminate].
    cbn. repeat split; try constructor; lia.
  - exists p. rewrite Hmap, length_map.
    split; [reflexivity|]. split; [reflexivity|].
    split; [lia|]. split; [lia|]. split.
    + apply List.Forall_forall. intros r Hr. apply in_map_iff in Hr as (s & <- & Hs).
      rewrite Hrow. rewrite List.Forall_forall in Hne. apply Hne, Hs.
    + apply List.Forall_forall. intros r Hr. apply in_map_iff in Hr as (s & <- & Hs).
      rewrite Hrow. unfold QuotesRoute.rowOf. destruct (quote s); reflexivity.
Qed.

(** ** Caching of the analyses *)

(** X20.  A successful response for a step is stored: the hook then holds
    the body, shows neither spinner nor error, and no request is sent.
    Once a hook holds an analysis it keeps it, and along every run without
    reset no further request is sent for the step, whichever pages are
    visited.  A failed response leaves no analysis: the effect sends the
    next request at once when the step is on display, and on the next
    visit otherwise.  So along a run without reset the requests for a step
    grow by at most the one still due plus one per failed response. *)
Theorem successful_analysis_cached (k : Z) (a : App) :
  reachable a ->
  (forall json, enabled a (FetchOk k json) = true ->
     let a1 := step a (FetchOk k json) in
     (exists f1 h1, flow a1 = Some f1 /\ hookOf k f1 = Some h1
                    /\ useStepAnalysis.analysis h1 = Some json
                    /\ useStepAnalysis.loading h1 = false
                    /\ useStepAnalysis.error h1 = None)
     /\ callsFor k a1 = callsFor k a)
  /\ (forall f h json es a',
        flow a = Some f -> hookOf k f = Some h ->
        useStepAnalysis.analysis h = Some json ->
        run a es = Some a' -> noReset es = true ->
        callsFor k a' = callsFor k a
        /\ exists f', flow a' = Some f' /\ hookOf k f' = Some h)
  /\ (forall msg, enabled a (FetchErr k msg) = true ->
        let a1 := step a (FetchErr k msg) in
        (exists f1 h1, flow a1 = Some f1 /\ hookOf k f1 = Some h1
                       /\ useStepAnalysis.analysis h1 = None)
        /\ (killChainStep (dash a) = k -> callsFor k a1 = S (callsFor k a))
        /\ (killChainStep (dash a) <> k ->
              callsFor k a1 = callsFor k a
              /\ forall e, enabled a1 e = true -> isReset e = false ->
                   killChainStep (dash (step a1 e)) = k ->
                   callsFor k (step a1 e) = S (callsFor k a1)))
  /\ (forall es a', run a es = Some a' -> noReset es = true ->
        (callsFor k a' <= callsFor k a + unrequested k a + failuresFor k es)%nat).
Proof.
  intros Hreach. pose proof (reachable_Inv a Hreach) as HI.
  split; [|split; [|split]].
  - intros json He. cbv zeta.
    destruct (success_step k json a HI He)
      as (f & h & f' & Hf & Hk & Hf' & Hk' & Herr & Hc).
    split; [|exact Hc].
    exists f', (useStepAnalysis.fetch_resolved json h).
    split; [exact Hf'|]. split; [exact Hk'|].
    split; [reflexivity|]. split; [reflexivity|exact Herr].
  - intros f h json es a' Hf Hk Han Hrun Hnr.
    apply (cached_run k es a a' f h HI Hf Hk); [rewrite Han; eauto|assumption..].
  - intros msg He. cbv zeta.
    destruct (failure_step k msg a HI He)
      as (f & h & f' & h' & Hf & Hk & Hf' & Hk' & Han & Hd & Hcur & Haway).
    split; [eauto|]. split; [exact Hcur|].
    intros Hne. destruct (Haway Hne) as (Hc & Hl & _). split; [exact Hc|].
    intros e He' Hr Hnow.
    apply (revisit_requests k _ e f' h'); try assumption.
    + apply Inv_step; assumption.
    + rewrite Hd. exact Hne.
  - intros es a' Hrun Hnr.
    pose proof (balance_run k es a a' HI Hrun Hnr). lia.
Qed.

Lemma successful_analysis_cached_witness :
  let start := [SubmitSearch; SearchOk Sample.KO; ClickStart;
                FetchErr 1 "Failed to analyze business"] in
  let a := afterRun start in
  let a1 := step a (FetchOk 1 (Sample.an 1)) in
  (reachable a /\ enabled a (FetchOk 1 (Sample.an 1)) = true)
  /\ callsFor 1 a = 2%nat
  /\ callsFor 1 a1 = callsFor 1 a
  /\ exists f1 h1, flow a1 = Some f1 /\ hookOf 1 f1 = Some h1
                   /\ useStepAnalysis.analysis h1 = Some (Sample.an 1)
                   /\ useStepAnalysis.loading h1 = false
                   /\ useStepAnalysis.error h1 = None.
Proof.
  cbv zeta.
  assert (Hreach : reachable
                     (afterRun [SubmitSearch; SearchOk Sample.KO; ClickStart;
                                FetchErr 1 "Failed to analyze business"])).
  { apply reachable_afterRun. vm_compute. eauto. }
  assert (He : enabled
                 (afterRun [SubmitSearch; SearchOk Sample.KO; ClickStart;
                            FetchErr 1 "Failed to analyze business"])
                 (FetchOk 1 (Sample.an 1)) = true)
    by (vm_compute; reflexivity).
  assert (Hc : callsFor 1
                 (afterRun [SubmitSearch; SearchOk Sample.KO; ClickStart;
                            FetchErr 1 "Failed to analyze business"]) = 2%nat)
    by (vm_compute; reflexivity).
  destruct (proj1 (successful_analysis_cached 1 _ Hreach) (Sample.an 1) He)
    as (Hstored & Hcalls).
  exact (conj (conj Hreach He) (conj Hc (conj Hcalls Hstored))).
Defined.
